(** * Farm Accounts: event reducers, aggregates, sync and backup

    A shallow embedding of the bookkeeping core of the application:
    the reducers of [App.tsx], the aggregates of [Dashboard.tsx] and
    [AccountRegistry.tsx], the payment form of [LiabilityManager.tsx], the
    movement form of [InventoryManager.tsx], the debounced push of [App.tsx]
    and the backup export/import of [Settings.tsx].

    Conventions of the embedding.
    - A JavaScript [number] is a rational ([Q]) and numeric results are
      compared with [==]; [NaN] and the infinities are outside the model.
      The aggregates add exactly.  The engine rounds every sum to
      binary64 ([Binary64]): the two agree wherever no addition rounds, as
      on whole amounts below [2^53] ([Binary64.exact]), and a statement
      that depends on the order or the grouping of the additions says so.
    - A JavaScript [string] is a [string]; [===] on strings is [String.eqb].
    - An array is a [list]; [[...xs, x]] is [xs ++ [x]].
    - [crypto.randomUUID()] is an argument of the handler that calls it.
    - A React state updater [setData(prev => ...)] is a function on the
      state; a handler closes over the [data] of the render it was created
      in, which is an explicit argument. *)

From Stdlib Require Import List String Bool ZArith QArith Qminmax Lia Lqa.
From Stdlib Require Import Permutation.
From Stdlib Require Import Ascii Sorted.
From Stdlib Require Import Qround Qabs.
From Stdlib Require Qcanon.
Import ListNotations.

Local Open Scope string_scope.
Local Open Scope list_scope.
Local Open Scope Q_scope.

(** ** JavaScript primitives *)

Module Math.
Definition max (a b : Q) : Q := Qmax a b.
Definition min (a b : Q) : Q := Qmin a b.
End Math.

(** [a > b] on numbers. *)
Definition gt (a b : Q) : bool := negb (Qle_bool a b).

(** [a <= b] on numbers. *)
Definition le (a b : Q) : bool := Qle_bool a b.

(** Truthiness of a string: only the empty string is falsy. *)
Definition truthy_string (s : string) : bool := negb (s =? "")%string.

(** ** types.ts *)

Inductive TransactionType := INCOME | EXPENSE.

Inductive AccountType := CHECKING | SAVINGS | CASH | CREDIT.

Inductive PopulationChange := BOUGHT | BIRTH | SOLD | DEATH.

Inductive MovementType := IN | OUT.

Inductive AssetTerm := SHORT_TERM | LONG_TERM.

Inductive AssetCategory :=
  EQUIPMENT | VEHICLE | REAL_ESTATE | TECHNOLOGY | LIVESTOCK | INVENTORY
| OTHER_ASSET.

Inductive LiabilityCategory :=
  LOAN | CREDIT_CARD | MORTGAGE | ACCOUNTS_PAYABLE | OTHER.

Inductive PaymentFrequency := MONTHLY | YEARLY | ONE_TIME.

Module Category.
Record t := mk
    { id : string; name : string; type : TransactionType; color : string }.
End Category.

Module Account.
Record t := mk
    { id : string; name : string; type : AccountType; initialBalance : Q }.
End Account.

Module Transaction.
Record t := mk
    { id : string;
      date : string;
      description : string;
      amount : Q;
      categoryId : string;
      accountId : string;
      type : TransactionType }.
End Transaction.

(** [Omit<Transaction, 'id'>] *)
Module NewTransaction.
Record t := mk
    { date : string;
      description : string;
      amount : Q;
      categoryId : string;
      accountId : string;
      type : TransactionType }.

  (** [{ ...t, id }] *)
Definition withId (x : t) (id : string) : Transaction.t :=
    {| Transaction.id := id;
       Transaction.date := date x;
       Transaction.description := description x;
       Transaction.amount := amount x;
       Transaction.categoryId := categoryId x;
       Transaction.accountId := accountId x;
       Transaction.type := type x |}.
End NewTransaction.

Module NavItemConfig.
Record t := mk { id : string; visible : bool }.
End NavItemConfig.

Module AnimalSpecies.
Record t := mk
    { id : string;
      name : string;
      tag : string;
      breed : string;
      count : Q;
      estimatedValue : Q }.

  (** [{ ...s, count: c }] *)
Definition withCount (s : t) (c : Q) : t :=
    {| id := id s; name := name s; tag := tag s; breed := breed s;
       count := c; estimatedValue := estimatedValue s |}.
End AnimalSpecies.

(** [Omit<AnimalSpecies, 'id' | 'count'>] *)
Module NewAnimalSpecies.
Record t := mk
    { name : string; tag : string; breed : string; estimatedValue : Q }.

  (** [{ ...s, id, count }] *)
Definition withIdCount (s : t) (id : string) (c : Q) : AnimalSpecies.t :=
    {| AnimalSpecies.id := id;
       AnimalSpecies.name := name s;
       AnimalSpecies.tag := tag s;
       AnimalSpecies.breed := breed s;
       AnimalSpecies.count := c;
       AnimalSpecies.estimatedValue := estimatedValue s |}.
End NewAnimalSpecies.

Module AnimalLog.
Record t := mk
    { id : string;
      speciesId : string;
      date : string;
      type : PopulationChange;
      quantity : Q;
      note : string;
      valueAtTime : Q }.
End AnimalLog.

(** [Omit<AnimalLog, 'id'>] *)
Module NewAnimalLog.
Record t := mk
    { speciesId : string;
      date : string;
      type : PopulationChange;
      quantity : Q;
      note : string;
      valueAtTime : Q }.

Definition withId (l : t) (id : string) : AnimalLog.t :=
    {| AnimalLog.id := id;
       AnimalLog.speciesId := speciesId l;
       AnimalLog.date := date l;
       AnimalLog.type := type l;
       AnimalLog.quantity := quantity l;
       AnimalLog.note := note l;
       AnimalLog.valueAtTime := valueAtTime l |}.
End NewAnimalLog.

Module InventoryItem.
Record t := mk
    { id : string;
      name : string;
      sku : string;
      description : string;
      quantity : Q;
      unitCost : Q;
      assetTerm : AssetTerm }.
End InventoryItem.

(** [Omit<InventoryItem, 'id' | 'quantity'>] *)
Module NewInventoryItem.
Record t := mk
    { name : string;
      sku : string;
      description : string;
      unitCost : Q;
      assetTerm : AssetTerm }.

  (** [{ ...i, id, quantity }] *)
Definition withIdQuantity (i : t) (id : string) (q : Q) : InventoryItem.t :=
    {| InventoryItem.id := id;
       InventoryItem.name := name i;
       InventoryItem.sku := sku i;
       InventoryItem.description := description i;
       InventoryItem.quantity := q;
       InventoryItem.unitCost := unitCost i;
       InventoryItem.assetTerm := assetTerm i |}.
End NewInventoryItem.

Module InventoryMovement.
Record t := mk
    { id : string;
      itemId : string;
      type : MovementType;
      quantity : Q;
      note : string;
      date : string;
      unitCostAtTime : Q }.
End InventoryMovement.

(** [Omit<InventoryMovement, 'id'>] *)
Module NewInventoryMovement.
Record t := mk
    { itemId : string;
      type : MovementType;
      quantity : Q;
      note : string;
      date : string;
      unitCostAtTime : Q }.

Definition withId (m : t) (id : string) : InventoryMovement.t :=
    {| InventoryMovement.id := id;
       InventoryMovement.itemId := itemId m;
       InventoryMovement.type := type m;
       InventoryMovement.quantity := quantity m;
       InventoryMovement.note := note m;
       InventoryMovement.date := date m;
       InventoryMovement.unitCostAtTime := unitCostAtTime m |}.
End NewInventoryMovement.

Module Asset.
Record t := mk
    { id : string;
      name : string;
      category : AssetCategory;
      purchaseDate : string;
      purchasePrice : Q;
      currentValue : Q;
      description : string }.
End Asset.

Module Liability.
Record t := mk
    { id : string;
      name : string;
      category : LiabilityCategory;
      originalAmount : Q;
      currentBalance : Q;
      interestRate : Q;
      dueDate : option string;
      installmentAmount : option Q;
      paymentFrequency : option PaymentFrequency;
      description : string }.

  (** [{ ...l, currentBalance: b }] *)
Definition withCurrentBalance (l : t) (b : Q) : t :=
    {| id := id l; name := name l; category := category l;
       originalAmount := originalAmount l; currentBalance := b;
       interestRate := interestRate l; dueDate := dueDate l;
       installmentAmount := installmentAmount l;
       paymentFrequency := paymentFrequency l;
       description := description l |}.
End Liability.

(** [Omit<Account, 'id'>] *)
Module NewAccount.
Record t := mk { name : string; type : AccountType; initialBalance : Q }.

(** [{ ...a, id }] *)
Definition withId (a : t) (id : string) : Account.t :=
  {| Account.id := id;
     Account.name := name a;
     Account.type := type a;
     Account.initialBalance := initialBalance a |}.
End NewAccount.

(** [Omit<Liability, 'id'>] *)
Module NewLiability.
Record t := mk
  { name : string;
    category : LiabilityCategory;
    originalAmount : Q;
    currentBalance : Q;
    interestRate : Q;
    dueDate : option string;
    installmentAmount : option Q;
    paymentFrequency : option PaymentFrequency;
    description : string }.

(** [{ ...l, id }] *)
Definition withId (l : t) (id : string) : Liability.t :=
  {| Liability.id := id;
     Liability.name := name l;
     Liability.category := category l;
     Liability.originalAmount := originalAmount l;
     Liability.currentBalance := currentBalance l;
     Liability.interestRate := interestRate l;
     Liability.dueDate := dueDate l;
     Liability.installmentAmount := installmentAmount l;
     Liability.paymentFrequency := paymentFrequency l;
     Liability.description := description l |}.
End NewLiability.

(** [Omit<Category, 'id'>] *)
Module NewCategory.
Record t := mk { name : string; type : TransactionType; color : string }.

(** [{ ...c, id }] *)
Definition withId (c : t) (id : string) : Category.t :=
  {| Category.id := id;
     Category.name := name c;
     Category.type := type c;
     Category.color := color c |}.
End NewCategory.

(** [Omit<Asset, 'id'>] *)
Module NewAsset.
Record t := mk
  { name : string;
    category : AssetCategory;
    purchaseDate : string;
    purchasePrice : Q;
    currentValue : Q;
    description : string }.

(** [{ ...a, id }] *)
Definition withId (a : t) (id : string) : Asset.t :=
  {| Asset.id := id;
     Asset.name := name a;
     Asset.category := category a;
     Asset.purchaseDate := purchaseDate a;
     Asset.purchasePrice := purchasePrice a;
     Asset.currentValue := currentValue a;
     Asset.description := description a |}.
End NewAsset.

(** ** services/apiService.ts: the snapshot *)

Module FarmData.
Record t := mk
    { transactions : list Transaction.t;
      categories : list Category.t;
      accounts : list Account.t;
      animalSpecies : list AnimalSpecies.t;
      animalLogs : list AnimalLog.t;
      inventoryItems : list InventoryItem.t;
      inventoryMovements : list InventoryMovement.t;
      assets : list Asset.t;
      liabilities : list Liability.t;
      sidebarConfig : list NavItemConfig.t;
      isSidebarCollapsed : bool }.
End FarmData.

(** [Partial<FarmData>]: an absent key is [None]. *)
Module PartialFarmData.
Record t := mk
    { transactions : option (list Transaction.t);
      categories : option (list Category.t);
      accounts : option (list Account.t);
      animalSpecies : option (list AnimalSpecies.t);
      animalLogs : option (list AnimalLog.t);
      inventoryItems : option (list InventoryItem.t);
      inventoryMovements : option (list InventoryMovement.t);
      assets : option (list Asset.t);
      liabilities : option (list Liability.t);
      sidebarConfig : option (list NavItemConfig.t);
      isSidebarCollapsed : option bool }.

  (** [{}] *)
Definition empty : t :=
    mk None None None None None None None None None None None.
End PartialFarmData.

(** The object literals [{ key: value }] handed to [updateData]. *)
Module Only.
Import PartialFarmData.

Definition transactions (v : list Transaction.t) : PartialFarmData.t :=
  mk (Some v) None None None None None None None None None None.

Definition accounts (v : list Account.t) : PartialFarmData.t :=
  mk None None (Some v) None None None None None None None None.

Definition animalSpecies (v : list AnimalSpecies.t) : PartialFarmData.t :=
  mk None None None (Some v) None None None None None None None.

Definition inventoryItems (v : list InventoryItem.t) : PartialFarmData.t :=
  mk None None None None None (Some v) None None None None None.

Definition liabilities (v : list Liability.t) : PartialFarmData.t :=
  mk None None None None None None None None (Some v) None None.

Definition categories (v : list Category.t) : PartialFarmData.t :=
  mk None (Some v) None None None None None None None None None.

Definition assets (v : list Asset.t) : PartialFarmData.t :=
  mk None None None None None None None (Some v) None None None.

Definition sidebarConfig (v : list NavItemConfig.t) : PartialFarmData.t :=
  mk None None None None None None None None None (Some v) None.

Definition isSidebarCollapsed (v : bool) : PartialFarmData.t :=
  mk None None None None None None None None None None (Some v).
End Only.

(** ** App.tsx: the event reducers *)

Module App.
Import FarmData.

Definition override {A} (old : A) (new : option A) : A :=
    match new with Some v => v | None => old end.

  (** [setData(prev => ({ ...prev, ...updates }))] *)
Definition updateData (updates : PartialFarmData.t) (prev : FarmData.t)
    : FarmData.t :=
    {| transactions :=
         override (transactions prev) (PartialFarmData.transactions updates);
       categories :=
         override (categories prev) (PartialFarmData.categories updates);
       accounts :=
         override (accounts prev) (PartialFarmData.accounts updates);
       animalSpecies :=
         override (animalSpecies prev) (PartialFarmData.animalSpecies updates);
       animalLogs :=
         override (animalLogs prev) (PartialFarmData.animalLogs updates);
       inventoryItems :=
         override (inventoryItems prev)
           (PartialFarmData.inventoryItems updates);
       inventoryMovements :=
         override (inventoryMovements prev)
           (PartialFarmData.inventoryMovements updates);
       assets := override (assets prev) (PartialFarmData.assets updates);
       liabilities :=
         override (liabilities prev) (PartialFarmData.liabilities updates);
       sidebarConfig :=
         override (sidebarConfig prev) (PartialFarmData.sidebarConfig updates);
       isSidebarCollapsed :=
         override (isSidebarCollapsed prev)
           (PartialFarmData.isSidebarCollapsed updates) |}.

Section Handlers.
    (** The snapshot of the render in which the handlers were created. *)
Variable data : FarmData.t.

Definition handleAddTransaction (uuid : string) (t : NewTransaction.t)
      : FarmData.t -> FarmData.t :=
      updateData
        {| PartialFarmData.transactions :=
             Some (transactions data ++ [NewTransaction.withId t uuid]);
           PartialFarmData.categories := None;
           PartialFarmData.accounts := None;
           PartialFarmData.animalSpecies := None;
           PartialFarmData.animalLogs := None;
           PartialFarmData.inventoryItems := None;
           PartialFarmData.inventoryMovements := None;
           PartialFarmData.assets := None;
           PartialFarmData.liabilities := None;
           PartialFarmData.sidebarConfig := None;
           PartialFarmData.isSidebarCollapsed := None |}.

    (** [onUpdate] of the /liabilities route. *)
Definition onUpdateLiability (l : Liability.t)
      : FarmData.t -> FarmData.t :=
      updateData
        {| PartialFarmData.transactions := None;
           PartialFarmData.categories := None;
           PartialFarmData.accounts := None;
           PartialFarmData.animalSpecies := None;
           PartialFarmData.animalLogs := None;
           PartialFarmData.inventoryItems := None;
           PartialFarmData.inventoryMovements := None;
           PartialFarmData.assets := None;
           PartialFarmData.liabilities :=
             Some (map (fun x =>
                          if (Liability.id x =? Liability.id l)%string
                          then l else x)
                       (liabilities data));
           PartialFarmData.sidebarConfig := None;
           PartialFarmData.isSidebarCollapsed := None |}.

    (** [onAddSpecies] of the /animals route. *)
Definition onAddSpecies (uuid : string) (s : NewAnimalSpecies.t)
      : FarmData.t -> FarmData.t :=
      updateData
        {| PartialFarmData.transactions := None;
           PartialFarmData.categories := None;
           PartialFarmData.accounts := None;
           PartialFarmData.animalSpecies :=
             Some (animalSpecies data
                     ++ [NewAnimalSpecies.withIdCount s uuid 0]);
           PartialFarmData.animalLogs := None;
           PartialFarmData.inventoryItems := None;
           PartialFarmData.inventoryMovements := None;
           PartialFarmData.assets := None;
           PartialFarmData.liabilities := None;
           PartialFarmData.sidebarConfig := None;
           PartialFarmData.isSidebarCollapsed := None |}.

    (** [onAddItem] of the /inventory route. *)
Definition onAddItem (uuid : string) (i : NewInventoryItem.t)
      : FarmData.t -> FarmData.t :=
      updateData
        {| PartialFarmData.transactions := None;
           PartialFarmData.categories := None;
           PartialFarmData.accounts := None;
           PartialFarmData.animalSpecies := None;
           PartialFarmData.animalLogs := None;
           PartialFarmData.inventoryItems :=
             Some (inventoryItems data
                     ++ [NewInventoryItem.withIdQuantity i uuid 0]);
           PartialFarmData.inventoryMovements := None;
           PartialFarmData.assets := None;
           PartialFarmData.liabilities := None;
           PartialFarmData.sidebarConfig := None;
           PartialFarmData.isSidebarCollapsed := None |}.

    (** [onRecordMovement] of the /inventory route. *)
Definition onRecordMovement (uuid : string) (m : NewInventoryMovement.t)
      : FarmData.t -> FarmData.t :=
      updateData
        {| PartialFarmData.transactions := None;
           PartialFarmData.categories := None;
           PartialFarmData.accounts := None;
           PartialFarmData.animalSpecies := None;
           PartialFarmData.animalLogs := None;
           PartialFarmData.inventoryItems := None;
           PartialFarmData.inventoryMovements :=
             Some (inventoryMovements data
                     ++ [NewInventoryMovement.withId m uuid]);
           PartialFarmData.assets := None;
           PartialFarmData.liabilities := None;
           PartialFarmData.sidebarConfig := None;
           PartialFarmData.isSidebarCollapsed := None |}.
Definition handleUpdateTransaction (t : Transaction.t)
  : FarmData.t -> FarmData.t :=
  updateData
    (Only.transactions
       (map (fun x =>
               if (Transaction.id x =? Transaction.id t)%string then t else x)
            (transactions data))).

Definition handleDeleteTransaction (id : string) : FarmData.t -> FarmData.t :=
  updateData
    (Only.transactions
       (filter (fun t => negb (Transaction.id t =? id)%string)
               (transactions data))).

(** [onAdd], [onUpdate] and [onDelete] of the /accounts route. *)
Definition onAddAccount (uuid : string) (a : NewAccount.t)
  : FarmData.t -> FarmData.t :=
  updateData (Only.accounts (accounts data ++ [NewAccount.withId a uuid])).

Definition onUpdateAccount (a : Account.t) : FarmData.t -> FarmData.t :=
  updateData
    (Only.accounts
       (map (fun x => if (Account.id x =? Account.id a)%string then a else x)
            (accounts data))).

Definition onDeleteAccount (id : string) : FarmData.t -> FarmData.t :=
  updateData
    (Only.accounts
       (filter (fun x => negb (Account.id x =? id)%string) (accounts data))).

(** [onUpdateSpecies] and [onDeleteSpecies] of the /animals route. *)
Definition onUpdateSpecies (s : AnimalSpecies.t) : FarmData.t -> FarmData.t :=
  updateData
    (Only.animalSpecies
       (map (fun x =>
               if (AnimalSpecies.id x =? AnimalSpecies.id s)%string
               then s else x)
            (animalSpecies data))).

Definition onDeleteSpecies (id : string) : FarmData.t -> FarmData.t :=
  updateData
    (Only.animalSpecies
       (filter (fun x => negb (AnimalSpecies.id x =? id)%string)
               (animalSpecies data))).

(** [onUpdateItem] and [onDeleteItem] of the /inventory route. *)
Definition onUpdateItem (i : InventoryItem.t) : FarmData.t -> FarmData.t :=
  updateData
    (Only.inventoryItems
       (map (fun x =>
               if (InventoryItem.id x =? InventoryItem.id i)%string
               then i else x)
            (inventoryItems data))).

Definition onDeleteItem (id : string) : FarmData.t -> FarmData.t :=
  updateData
    (Only.inventoryItems
       (filter (fun x => negb (InventoryItem.id x =? id)%string)
               (inventoryItems data))).

(** [onAdd] and [onDelete] of the /liabilities route. *)
Definition onAddLiability (uuid : string) (l : NewLiability.t)
  : FarmData.t -> FarmData.t :=
  updateData
    (Only.liabilities (liabilities data ++ [NewLiability.withId l uuid])).

Definition onDeleteLiability (id : string) : FarmData.t -> FarmData.t :=
  updateData
    (Only.liabilities
       (filter (fun x => negb (Liability.id x =? id)%string)
               (liabilities data))).

(** [onUpdateSidebar] and [onToggleCollapse] of the /settings route. *)
Definition onUpdateSidebar (cfg : list NavItemConfig.t)
  : FarmData.t -> FarmData.t :=
  updateData (Only.sidebarConfig cfg).

Definition onToggleCollapse : FarmData.t -> FarmData.t :=
  updateData (Only.isSidebarCollapsed (negb (isSidebarCollapsed data))).

(** [onAdd], [onDelete] and [onUpdate] of the /assets route. *)
Definition onAddAsset (uuid : string) (a : NewAsset.t)
  : FarmData.t -> FarmData.t :=
  updateData (Only.assets (assets data ++ [NewAsset.withId a uuid])).

Definition onDeleteAsset (id : string) : FarmData.t -> FarmData.t :=
  updateData
    (Only.assets (filter (fun x => negb (Asset.id x =? id)%string) (assets data))).

Definition onUpdateAsset (a : Asset.t) : FarmData.t -> FarmData.t :=
  updateData
    (Only.assets
       (map (fun x => if (Asset.id x =? Asset.id a)%string then a else x)
            (assets data))).

(** [onAddCategory], [onUpdateCategory] and [onDeleteCategory] of the
    /settings route. *)
Definition onAddCategory (uuid : string) (c : NewCategory.t)
  : FarmData.t -> FarmData.t :=
  updateData (Only.categories (categories data ++ [NewCategory.withId c uuid])).

Definition onUpdateCategory (c : Category.t) : FarmData.t -> FarmData.t :=
  updateData
    (Only.categories
       (map (fun x => if (Category.id x =? Category.id c)%string then c else x)
            (categories data))).

Definition onDeleteCategory (id : string) : FarmData.t -> FarmData.t :=
  updateData
    (Only.categories
       (filter (fun x => negb (Category.id x =? id)%string) (categories data))).
End Handlers.

  (** [handleRecordAnimalLog] reads nothing of the render: its updater
      works on [prev] alone. *)
Definition handleRecordAnimalLog (uuid : string) (l : NewAnimalLog.t)
    : FarmData.t -> FarmData.t :=
    let isAdd :=
      match NewAnimalLog.type l with
      | BOUGHT | BIRTH => true
      | SOLD | DEATH => false
      end in
    let changeAmount :=
      if isAdd then NewAnimalLog.quantity l else - NewAnimalLog.quantity l in
    fun prev =>
      {| transactions := transactions prev;
         categories := categories prev;
         accounts := accounts prev;
         animalSpecies :=
           map (fun s =>
                  if (AnimalSpecies.id s =? NewAnimalLog.speciesId l)%string
                  then AnimalSpecies.withCount s
                         (Math.max 0 (AnimalSpecies.count s + changeAmount))
                  else s)
               (animalSpecies prev);
         animalLogs := animalLogs prev ++ [NewAnimalLog.withId l uuid];
         inventoryItems := inventoryItems prev;
         inventoryMovements := inventoryMovements prev;
         assets := assets prev;
         liabilities := liabilities prev;
         sidebarConfig := sidebarConfig prev;
         isSidebarCollapsed := isSidebarCollapsed prev |}.

(** Every callback through which a page changes [App]'s state: those of
    the routes, and [setData] itself, which [Settings] is handed as
    [onImportData] (restore from a backup, refresh from the cloud) and
    which the effect of a sign-in calls with the snapshot pulled. *)
Inductive Event :=
| AddTransaction (uuid : string) (t : NewTransaction.t)
| UpdateTransaction (t : Transaction.t)
| DeleteTransaction (id : string)
| AddAccount (uuid : string) (a : NewAccount.t)
| UpdateAccount (a : Account.t)
| DeleteAccount (id : string)
| AddSpecies (uuid : string) (s : NewAnimalSpecies.t)
| UpdateSpecies (s : AnimalSpecies.t)
| RecordLog (uuid : string) (l : NewAnimalLog.t)
| DeleteSpecies (id : string)
| AddItem (uuid : string) (i : NewInventoryItem.t)
| UpdateItem (i : InventoryItem.t)
| RecordMovement (uuid : string) (m : NewInventoryMovement.t)
| DeleteItem (id : string)
| AddAsset (uuid : string) (a : NewAsset.t)
| DeleteAsset (id : string)
| UpdateAsset (a : Asset.t)
| AddLiability (uuid : string) (l : NewLiability.t)
| DeleteLiability (id : string)
| UpdateLiability (l : Liability.t)
| AddCategory (uuid : string) (c : NewCategory.t)
| UpdateCategory (c : Category.t)
| DeleteCategory (id : string)
| UpdateSidebar (cfg : list NavItemConfig.t)
| ToggleCollapse
| SetData (snapshot : FarmData.t).

(** The state updater an event queues, [data] being the snapshot of the
    render whose callbacks receive it. *)
Definition dispatch (data : FarmData.t) (e : Event)
  : FarmData.t -> FarmData.t :=
  match e with
  | AddTransaction uuid t => handleAddTransaction data uuid t
  | UpdateTransaction t => handleUpdateTransaction data t
  | DeleteTransaction id => handleDeleteTransaction data id
  | AddAccount uuid a => onAddAccount data uuid a
  | UpdateAccount a => onUpdateAccount data a
  | DeleteAccount id => onDeleteAccount data id
  | AddSpecies uuid s => onAddSpecies data uuid s
  | UpdateSpecies s => onUpdateSpecies data s
  | RecordLog uuid l => handleRecordAnimalLog uuid l
  | DeleteSpecies id => onDeleteSpecies data id
  | AddItem uuid i => onAddItem data uuid i
  | UpdateItem i => onUpdateItem data i
  | RecordMovement uuid m => onRecordMovement data uuid m
  | DeleteItem id => onDeleteItem data id
  | AddAsset uuid a => onAddAsset data uuid a
  | DeleteAsset id => onDeleteAsset data id
  | UpdateAsset a => onUpdateAsset data a
  | AddLiability uuid l => onAddLiability data uuid l
  | DeleteLiability id => onDeleteLiability data id
  | UpdateLiability l => onUpdateLiability data l
  | AddCategory uuid c => onAddCategory data uuid c
  | UpdateCategory c => onUpdateCategory data c
  | DeleteCategory id => onDeleteCategory data id
  | UpdateSidebar cfg => onUpdateSidebar cfg
  | ToggleCollapse => onToggleCollapse data
  | SetData snapshot => fun _ => snapshot
  end.
End App.

(** ** Dates

    A [Date] is its time value: milliseconds since the epoch, UTC.  The
    offset of local time is taken constant: the zone has no daylight
    saving, or none of the days looked at is across a change (across one,
    [setDate] keeps the local time of day and the instant moves by the
    hour of the change).  The calendar enters through [monthStart]
    alone. *)

Module JSDate.

Definition msPerDay : Z := 86400000.

Definition Day (t : Z) : Z := (t / msPerDay)%Z.

Definition TimeWithinDay (t : Z) : Z := (t mod msPerDay)%Z.

Section Local.
(** Offset of local time from UTC, in milliseconds. *)
Variable LocalTZA : Z.
(** The day number of the first day of the month a day lies in. *)
Variable monthStart : Z -> Z.

Definition LocalTime (t : Z) : Z := (t + LocalTZA)%Z.

Definition UTC (t : Z) : Z := (t - LocalTZA)%Z.

(** [d.getDate()]: the day of the month, in local time. *)
Definition getDate (t : Z) : Z :=
  (Day (LocalTime t) - monthStart (Day (LocalTime t)) + 1)%Z.

(** [d.setHours(0, 0, 0, 0)]: local midnight of the same local day. *)
Definition setHoursZero (t : Z) : Z :=
  UTC (Day (LocalTime t) * msPerDay)%Z.

(** [d.setDate(date)]: the day of the month is replaced, the local month
    and the local time of day are kept; a [date] past the end of the
    month runs into the following months. *)
Definition setDate (t : Z) (date : Z) : Z :=
  UTC ((monthStart (Day (LocalTime t)) + date - 1) * msPerDay
       + TimeWithinDay (LocalTime t))%Z.
End Local.

(** The local calendar day, as a day number, of an instant. *)
Definition localDay (LocalTZA : Z) (t : Z) : Z := Day (LocalTime LocalTZA t).

(** The time value of a date-only string [YYYY-MM-DD] that denotes day
    number [d]: midnight UTC. *)
Definition dateOnly (d : Z) : Z := (d * msPerDay)%Z.

End JSDate.

(** The due-date test shared by [Dashboard] and [LiabilityManager]:
    [if (!l.dueDate || l.currentBalance <= 0) return false;
     const due = new Date(l.dueDate); return due <= thirtyDaysFromNow;]
    [Date_parse] gives the time value of [new Date(s)], [None] for an
    invalid date, which compares false. *)
Definition dueWithin (Date_parse : string -> option Z) (thirtyDaysFromNow : Z)
  (l : Liability.t) : bool :=
  match Liability.dueDate l with
  | None => false
  | Some dueDate =>
      if negb (truthy_string dueDate) || le (Liability.currentBalance l) 0
      then false
      else
        match Date_parse dueDate with
        | Some due => (due <=? thirtyDaysFromNow)%Z
        | None => false
        end
  end.

(** ** LiabilityManager.tsx: the payment form *)

Module LiabilityManager.

Record State := mkState
  { showPayModal : option Liability.t;
    paymentAmount : string;
    paymentDate : string;
    paymentCategory : string;
    paymentAccount : string }.

(** The [max] attribute of the amount input of the payment form. *)
Definition amountMax (l : Liability.t) : Q := Liability.currentBalance l.

Section Component.
(** [parseFloat] on the content of a numeric input. *)
Variable parseFloat : string -> Q.
(** The snapshot of the render: [onUpdate] and [onAddTransaction] are the
    closures [App] passes down in that render. *)
Variable data : FarmData.t.

(** [handleRecordPayment]: the component state after the call and the
    state updaters queued on [App]'s [setData], composed in call order. *)
Definition handleRecordPayment (uuid : string) (st : State)
  : State * (FarmData.t -> FarmData.t) :=
  match showPayModal st with
  | None => (st, fun prev => prev)
  | Some l =>
      if negb (truthy_string (paymentAmount st))
         || negb (truthy_string (paymentAccount st))
      then (st, fun prev => prev)
      else
        let amount := parseFloat (paymentAmount st) in
        let newBalance := Math.max 0 (Liability.currentBalance l - amount) in
        let onUpdate :=
          App.onUpdateLiability data
            (Liability.withCurrentBalance l newBalance) in
        let onAddTransaction :=
          App.handleAddTransaction data uuid
            {| NewTransaction.date := paymentDate st;
               NewTransaction.description :=
                 ("Payment towards: " ++ Liability.name l)%string;
               NewTransaction.amount := amount;
               NewTransaction.categoryId := paymentCategory st;
               NewTransaction.accountId := paymentAccount st;
               NewTransaction.type := EXPENSE |} in
        ({| showPayModal := None;
            paymentAmount := "";
            paymentDate := paymentDate st;
            paymentCategory := paymentCategory st;
            paymentAccount := paymentAccount st |},
         fun prev => onAddTransaction (onUpdate prev))
  end.
End Component.

Record Stats := mkStats { totalBalance : Q; avgInterest : Q; dueSoonCount : nat }.

Section Stats.
Variable LocalTZA : Z.
Variable monthStart : Z -> Z.
Variable Date_parse : string -> option Z.
(** The instant read by [new Date()]. *)
Variable clock : Z.

Definition stats (liabilities : list Liability.t) : Stats :=
  let totalBalance :=
    fold_left (fun sum l => sum + Liability.currentBalance l) liabilities 0 in
  let avgInterest :=
    if (0 <? List.length liabilities)%nat
    then fold_left (fun sum l => sum + Liability.interestRate l) liabilities 0
         / inject_Z (Z.of_nat (List.length liabilities))
    else 0 in
  let now := clock in
  let thirtyDaysFromNow :=
    JSDate.setDate LocalTZA monthStart clock
      (JSDate.getDate LocalTZA monthStart now + 30) in
  let dueSoonCount :=
    List.length (filter (dueWithin Date_parse thirtyDaysFromNow) liabilities)
  in
  {| totalBalance := totalBalance;
     avgInterest := avgInterest;
     dueSoonCount := dueSoonCount |}.
End Stats.

Section PayModal.
(** [n.toString()] on a number. *)
Variable Number_toString : Q -> string.
(** The [categories] and [accounts] props are those of the snapshot. *)
Variable data : FarmData.t.

(** [handleOpenPayModal] *)
Definition handleOpenPayModal (liability : Liability.t) (st : State) : State :=
  let defaultAmount :=
    match Liability.installmentAmount liability with
    | Some installmentAmount =>
        if gt installmentAmount 0
        then Math.min installmentAmount (Liability.currentBalance liability)
        else Liability.currentBalance liability
    | None => Liability.currentBalance liability
    end in
  let expenseCats :=
    filter (fun c => match Category.type c with
                     | EXPENSE => true
                     | INCOME => false
                     end)
           (FarmData.categories data) in
  {| showPayModal := Some liability;
     paymentAmount := Number_toString defaultAmount;
     paymentDate := paymentDate st;
     paymentCategory :=
       match expenseCats with
       | c :: _ => Category.id c
       | [] => paymentCategory st
       end;
     paymentAccount :=
       match FarmData.accounts data with
       | a :: _ => Account.id a
       | [] => paymentAccount st
       end |}.
End PayModal.

Section DateStatus.
Variable LocalTZA : Z.
Variable monthStart : Z -> Z.
Variable Date_parse : string -> option Z.
(** The instant read by the [new Date()] of one call. *)
Variable clock : Z.

(** [getDateStatus(dueDate, balance)]; an invalid date compares false
    both times. *)
Definition getDateStatus (dueDate : option string) (balance : Q) : string :=
  match dueDate with
  | None => "normal"
  | Some dueDate =>
      if negb (truthy_string dueDate) || le balance 0 then "normal"
      else
        let now := JSDate.setHoursZero LocalTZA clock in
        match Date_parse dueDate with
        | None => "normal"
        | Some parsed =>
            let due := JSDate.setHoursZero LocalTZA parsed in
            if (due <? now)%Z then "overdue"
            else
              let sevenDaysFromNow :=
                JSDate.setDate LocalTZA monthStart clock
                  (JSDate.getDate LocalTZA monthStart now + 7) in
              if (due <=? sevenDaysFromNow)%Z then "soon" else "normal"
        end
  end.
End DateStatus.

(** [handleEditClick]: the form a liability is edited in. *)
Definition handleEditClick (l : Liability.t) : NewLiability.t :=
  {| NewLiability.name := Liability.name l;
     NewLiability.category := Liability.category l;
     NewLiability.originalAmount := Liability.originalAmount l;
     NewLiability.currentBalance := Liability.currentBalance l;
     NewLiability.interestRate := Liability.interestRate l;
     NewLiability.dueDate :=
       Some match Liability.dueDate l with
            | Some d => if truthy_string d then d else ""
            | None => ""
            end;
     NewLiability.installmentAmount :=
       Some match Liability.installmentAmount l with
            | Some i => if Qeq_bool i 0 then 0 else i
            | None => 0
            end;
     NewLiability.paymentFrequency :=
       Some match Liability.paymentFrequency l with
            | Some f => f
            | None => MONTHLY
            end;
     NewLiability.description := Liability.description l |}.

Section Form.
Variable data : FarmData.t.

(** [handleSubmit]: [{ ...editingLiability, ...newLiability }] keeps the
    id alone of the liability edited. *)
Definition handleSubmit (uuid : string) (editingLiability : option Liability.t)
  (newLiability : NewLiability.t) : FarmData.t -> FarmData.t :=
  match editingLiability with
  | Some editing =>
      App.onUpdateLiability data
        (NewLiability.withId newLiability (Liability.id editing))
  | None => App.onAddLiability data uuid newLiability
  end.
End Form.
End LiabilityManager.

(** ** InventoryManager.tsx: the movement form *)

Module InventoryManager.

(** The [newMovement] form state. *)
Record MovementForm := mkForm
  { itemId : string;
    type : MovementType;
    quantity : Q;
    note : string;
    date : string }.

Section Component.
Variable data : FarmData.t.

(** [handleRecordMovement]: [None] when the handler returns before calling
    [onRecordMovement], else the state updater it queues. *)
Definition handleRecordMovement (uuid : string) (newMovement : MovementForm)
  : option (FarmData.t -> FarmData.t) :=
  match
    find (fun i => (InventoryItem.id i =? itemId newMovement)%string)
         (FarmData.inventoryItems data)
  with
  | None => None
  | Some item =>
      Some (App.onRecordMovement data uuid
              {| NewInventoryMovement.itemId := itemId newMovement;
                 NewInventoryMovement.type := type newMovement;
                 NewInventoryMovement.quantity := quantity newMovement;
                 NewInventoryMovement.note := note newMovement;
                 NewInventoryMovement.date := date newMovement;
                 NewInventoryMovement.unitCostAtTime :=
                   InventoryItem.unitCost item |})
  end.
End Component.

(** The [newItem] form state: [Omit<InventoryItem, 'id' | 'quantity'>]. *)
Section ItemForm.
Variable data : FarmData.t.

(** [{ ...editingItem, ...newItem }] *)
Definition merge (editingItem : InventoryItem.t) (newItem : NewInventoryItem.t)
  : InventoryItem.t :=
  NewInventoryItem.withIdQuantity newItem (InventoryItem.id editingItem)
    (InventoryItem.quantity editingItem).

(** [handleAddItem] *)
Definition handleAddItem (uuid : string) (editingItem : option InventoryItem.t)
  (newItem : NewInventoryItem.t) : FarmData.t -> FarmData.t :=
  match editingItem with
  | Some editing => App.onUpdateItem data (merge editing newItem)
  | None => App.onAddItem data uuid newItem
  end.
End ItemForm.

Definition inventoryValue (items : list InventoryItem.t) : Q :=
  fold_left
    (fun sum item =>
       sum + InventoryItem.quantity item * InventoryItem.unitCost item)
    items 0.
End InventoryManager.

(** ** More JavaScript: strings, sorting, own keys *)

Module JS.

(** [s.includes(sub)] *)
Definition includes (s sub : string) : bool :=
  match String.index 0 sub s with
  | Some _ => true
  | None => false
  end.

(** [Array.prototype.sort] is stable: insertion, from the right, before
    the first element the comparator does not put in front. [before x y]
    says that the comparator puts [y] no earlier than [x]. *)
Fixpoint insert {A} (before : A -> A -> bool) (x : A) (sorted : list A)
  : list A :=
  match sorted with
  | [] => [x]
  | y :: rest =>
      if before x y then x :: y :: rest else y :: insert before x rest
  end.

Fixpoint sort {A} (before : A -> A -> bool) (xs : list A) : list A :=
  match xs with
  | [] => []
  | x :: rest => insert before x (sort before rest)
  end.

(** The value of a decimal digit. *)
Definition digit (c : Ascii.ascii) : option N :=
  let n := Ascii.N_of_ascii c in
  if ((48 <=? n) && (n <=? 57))%N then Some (n - 48)%N else None.

Fixpoint digits (s : string) (acc : N) : option N :=
  match s with
  | EmptyString => Some acc
  | String c rest =>
      match digit c with
      | Some d => digits rest (10 * acc + d)%N
      | None => None
      end
  end.

(** A property key that is an array index: a canonical decimal numeral
    below [2^32 - 1]. *)
Definition arrayIndex (k : string) : option N :=
  match k with
  | EmptyString => None
  | String c rest =>
      if (Ascii.eqb c "0"%char && negb (rest =? "")%string)%bool then None
      else
        match digits k 0 with
        | Some n => if (n <? 4294967295)%N then Some n else None
        | None => None
        end
  end.

Definition isIndex {A} (e : string * A) : bool :=
  match arrayIndex (fst e) with Some _ => true | None => false end.

Definition indexOf {A} (e : string * A) : N :=
  match arrayIndex (fst e) with Some n => n | None => 0%N end.

(** [Object.entries(o)] of an object whose properties were created in the
    order of [o]: the array-index keys in ascending order, then the other
    keys in creation order. *)
Definition entries {A} (o : list (string * A)) : list (string * A) :=
  sort (fun x y => (indexOf x <=? indexOf y)%N) (filter isIndex o)
  ++ filter (fun e => negb (isIndex e)) o.

(** [Object.keys(o)] and [Object.values(o)] *)
Definition keys {A} (o : list (string * A)) : list string :=
  map fst (entries o).

Definition values {A} (o : list (string * A)) : list A :=
  map snd (entries o).

(** The names an object literal [{}] inherits from [Object.prototype]:
    a read of one of them on an object that has no such own property
    gives a function or an object, not [undefined]. *)
Definition inherited : list string :=
  [ "constructor"; "hasOwnProperty"; "isPrototypeOf";
    "propertyIsEnumerable"; "toLocaleString"; "toString"; "valueOf";
    "__proto__"; "__defineGetter__"; "__defineSetter__";
    "__lookupGetter__"; "__lookupSetter__" ].

Definition plainKey (k : string) : bool :=
  negb (existsb (fun i => (i =? k)%string) inherited).

End JS.

(** ** Numbers as the engine adds them

    A finite binary64 number is a rational [m * 2^e] with [|m| < 2^53] and
    [e >= -1074]; the sum of two numbers is the exact sum rounded to the
    nearest such rational, ties to the even [m].  Overflow to an infinity
    (magnitudes from [2^1024]) is outside the model. *)

Module Binary64.

(** [floor(log2(n/d))] *)
Definition ilog2 (n d : positive) : Z :=
  let k := (Z.log2 (Zpos n) - Z.log2 (Zpos d))%Z in
  if (if (0 <=? k)%Z then (Zpos d * 2 ^ k <=? Zpos n)%Z
      else (Zpos d <=? Zpos n * 2 ^ (- k))%Z)
  then k else (k - 1)%Z.

(** The integer nearest to [n/d], the even one of two equally near. *)
Definition nearestEven (n : Z) (d : positive) : Z :=
  let f := (n / Zpos d)%Z in
  match (2 * (n mod Zpos d) ?= Zpos d)%Z with
  | Lt => f
  | Gt => (f + 1)%Z
  | Eq => if Z.even f then f else (f + 1)%Z
  end.

Definition pow2 (e : Z) : Q :=
  if (0 <=? e)%Z then inject_Z (2 ^ e) else 1 # Z.to_pos (2 ^ (- e)).

(** The binary64 number nearest to [x]. *)
Definition round (x : Q) : Q :=
  let q := Qred x in
  match Qnum q with
  | Z0 => 0
  | Zpos n | Zneg n =>
      let e := Z.max (ilog2 n (Qden q) - 52) (-1074) in
      let m :=
        if (0 <=? e)%Z
        then nearestEven (Qnum q) (Qden q * Z.to_pos (2 ^ e))
        else nearestEven (Qnum q * 2 ^ (- e)) (Qden q) in
      inject_Z m * pow2 e
  end.

(** [a + b] and [a - b] on numbers. *)
Definition add (a b : Q) : Q := round (a + b).

Definition sub (a b : Q) : Q := round (a - b).

(** [Number.isInteger(x)] *)
Definition isInteger (x : Q) : bool := Qeq_bool x (inject_Z (Qfloor x)).

(** The sum of the absolute values of whole numbers. *)
Definition magnitude (values : list Q) : Z :=
  fold_right (fun v s => (Z.abs (Qfloor v) + s)%Z) 0%Z values.

(** Whole numbers whose absolute values add up to less than [2^53]: no
    sum or difference of some of them, in any order, rounds. *)
Definition exact (values : list Q) : bool :=
  forallb isInteger values && (magnitude values <? 2 ^ 53)%Z.

End Binary64.

(** ** AccountRegistry.tsx: derived balances *)

Module AccountRegistry.

(** A [Record<string, number>]: keys in insertion order, one binding per
    key. *)
Definition Balances := list (string * Q).

(** The own property [k] is set to [v], created last when new. *)
Fixpoint define (balances : Balances) (k : string) (v : Q) : Balances :=
  match balances with
  | [] => [(k, v)]
  | (k', v') :: rest =>
      if (k' =? k)%string then (k', v) :: rest
      else (k', v') :: define rest k v
  end.

(** [balances[k] = v] on an object literal, [v] a number.  The key
    [__proto__] is the accessor of [Object.prototype], whose setter
    ignores a value that is not an object: no property is created. *)
Definition assign (balances : Balances) (k : string) (v : Q) : Balances :=
  if (k =? "__proto__")%string then balances else define balances k v.

(** The own property [k] of [balances]: what [balances[k]] reads for a
    key that [Object.prototype] does not define. *)
Fixpoint lookup (balances : Balances) (k : string) : option Q :=
  match balances with
  | [] => None
  | (k', v') :: rest => if (k' =? k)%string then Some v' else lookup rest k
  end.

(** The body of [accounts.forEach]: the final value of [balance], the
    additions being exact. *)
Definition accountBalance (acc : Account.t) (transactions : list Transaction.t)
  : Q :=
  let accTransactions :=
    filter (fun t => (Transaction.accountId t =? Account.id acc)%string)
           transactions in
  fold_left
    (fun balance t =>
       match Transaction.type t with
       | INCOME => balance + Transaction.amount t
       | EXPENSE => balance - Transaction.amount t
       end)
    accTransactions (Account.initialBalance acc).

Definition accountBalances (accounts : list Account.t)
  (transactions : list Transaction.t) : Balances :=
  fold_left
    (fun balances acc =>
       assign balances (Account.id acc) (accountBalance acc transactions))
    accounts [].

(** The same loop with the arithmetic of the engine, every sum and
    difference rounded to binary64. *)
Module Rounded.
Definition accountBalance (acc : Account.t) (transactions : list Transaction.t)
  : Q :=
  let accTransactions :=
    filter (fun t => (Transaction.accountId t =? Account.id acc)%string)
           transactions in
  fold_left
    (fun balance t =>
       match Transaction.type t with
       | INCOME => Binary64.add balance (Transaction.amount t)
       | EXPENSE => Binary64.sub balance (Transaction.amount t)
       end)
    accTransactions (Account.initialBalance acc).

Definition accountBalances (accounts : list Account.t)
  (transactions : list Transaction.t) : Balances :=
  fold_left
    (fun balances acc =>
       assign balances (Account.id acc) (accountBalance acc transactions))
    accounts [].
End Rounded.

(** [Object.values(accountBalances).reduce((sum, b) => sum + b, 0)] *)
Definition totalLiquidity (accounts : list Account.t)
  (transactions : list Transaction.t) : Q :=
  fold_left (fun sum b => sum + b)
    (JS.values (accountBalances accounts transactions)) 0.

Section Form.
Variable data : FarmData.t.

(** [handleSubmit]: the updater queued for the form data, when an account
    is being edited and when not. *)
Definition handleSubmit (uuid : string) (editingAccount : option Account.t)
  (formData : NewAccount.t) : FarmData.t -> FarmData.t :=
  match editingAccount with
  | Some editing =>
      App.onUpdateAccount data (NewAccount.withId formData (Account.id editing))
  | None => App.onAddAccount data uuid formData
  end.
End Form.

End AccountRegistry.

(** ** Dashboard.tsx: aggregates *)

Module Dashboard.

Record Summary := mkSummary { income : Q; expense : Q }.

(** [summary]: the totals by type; like the other totals of this module,
    with exact additions. *)
Definition summary (transactions : list Transaction.t) : Summary :=
  fold_left
    (fun acc t =>
       match Transaction.type t with
       | INCOME =>
           {| income := income acc + Transaction.amount t;
              expense := expense acc |}
       | EXPENSE =>
           {| income := income acc;
              expense := expense acc + Transaction.amount t |}
       end)
    transactions {| income := 0; expense := 0 |}.

(** The numeric part of [performanceMetrics]; [topExpenses], the fourth
    component, is a display list no statement below reads. *)
Record PerformanceMetrics := mkMetrics
  { grossMargin : Q; breakevenProgress : Q; gapToBreakeven : Q }.

Definition performanceMetrics (summary : Summary) : PerformanceMetrics :=
  let revenue := income summary in
  let expenses := expense summary in
  {| grossMargin :=
       if gt revenue 0 then ((revenue - expenses) / revenue) * 100 else 0;
     breakevenProgress :=
       if gt expenses 0 then Math.min ((revenue / expenses) * 100) 100
       else if gt revenue 0 then 100 else 0;
     gapToBreakeven := Math.max 0 (expenses - revenue) |}.

Record DebtSummary := mkDebt
  { totalOutstanding : Q;
    upcoming : list Liability.t;
    totalAmountDueSoon : Q }.

(** The amount one upcoming liability adds to [totalAmountDueSoon]:
    [l.installmentAmount && l.installmentAmount > 0
       ? Math.min(l.installmentAmount, l.currentBalance)
       : l.currentBalance] *)
Definition amountDue (l : Liability.t) : Q :=
  match Liability.installmentAmount l with
  | Some installmentAmount =>
      if gt installmentAmount 0
      then Math.min installmentAmount (Liability.currentBalance l)
      else Liability.currentBalance l
  | None => Liability.currentBalance l
  end.

Section DebtSummary.
Variable LocalTZA : Z.
Variable monthStart : Z -> Z.
Variable Date_parse : string -> option Z.
(** The instant read by the two [new Date()] of one evaluation. *)
Variable clock : Z.

Definition thirtyDaysFromNow : Z :=
  let now := JSDate.setHoursZero LocalTZA clock in
  JSDate.setDate LocalTZA monthStart clock
    (JSDate.getDate LocalTZA monthStart now + 30).

Definition debtSummary (liabilities : list Liability.t) : DebtSummary :=
  let totalOutstanding :=
    fold_left (fun sum l => sum + Liability.currentBalance l) liabilities 0 in
  let upcoming := filter (dueWithin Date_parse thirtyDaysFromNow) liabilities in
  let totalAmountDueSoon :=
    fold_left (fun sum l => sum + amountDue l) upcoming 0 in
  {| totalOutstanding := totalOutstanding;
     upcoming := upcoming;
     totalAmountDueSoon := totalAmountDueSoon |}.
End DebtSummary.

(** The name a transaction is grouped under:
    [categories.find(c => c.id === t.categoryId)?.name || 'Other'] *)
Definition categoryName (categories : list Category.t) (t : Transaction.t)
  : string :=
  match
    find (fun c => (Category.id c =? Transaction.categoryId t)%string)
         categories
  with
  | Some c => if truthy_string (Category.name c) then Category.name c
              else "Other"
  | None => "Other"
  end.

(** [data[cat] || 0], for a key [cat] that [Object.prototype] does not
    define (see [JS.plainKey]). *)
Definition orZero (v : option Q) : Q :=
  match v with
  | Some x => if Qeq_bool x 0 then 0 else x
  | None => 0
  end.

(** The dictionary [expenseData] of [performanceMetrics], which is the
    [data] of [categoryData]: expense totals by category name. *)
Definition expenseData (transactions : list Transaction.t)
  (categories : list Category.t) : AccountRegistry.Balances :=
  fold_left
    (fun data t =>
       let cat := categoryName categories t in
       AccountRegistry.assign data cat
         (orZero (AccountRegistry.lookup data cat) + Transaction.amount t))
    (filter (fun t => match Transaction.type t with
                      | EXPENSE => true
                      | INCOME => false
                      end)
            transactions)
    [].

(** [topExpenses] of [performanceMetrics]: the entries sorted by value,
    largest first, and cut to three. *)
Definition topExpenses (transactions : list Transaction.t)
  (categories : list Category.t) : list (string * Q) :=
  firstn 3
    (JS.sort (fun x y => Qle_bool (snd y) (snd x))
       (JS.entries (expenseData transactions categories))).

Record Slice := mkSlice { name : string; value : Q; color : option string }.

Fixpoint indexed {A} (xs : list A) (from : nat) : list (A * nat) :=
  match xs with
  | [] => []
  | x :: rest => (x, from) :: indexed rest (S from)
  end.

(** [categoryData]: one slice per own key of [data], [data[name]] being
    the value of the entry of that key.  [COLORS] is the palette of
    [constants.tsx]; [COLORS[i]] is [undefined] ([None]) past its end. *)
Definition categoryData (COLORS : list string)
  (transactions : list Transaction.t) (categories : list Category.t)
  : list Slice :=
  let data := expenseData transactions categories in
  map (fun ei =>
         {| name := fst (fst ei);
            value := snd (fst ei);
            color := nth_error COLORS (snd ei mod List.length COLORS) |})
      (indexed (JS.entries data) 0).
End Dashboard.

(** ** App.tsx: the debounced push

    [setTimeout]/[clearTimeout] are a table of pending timeouts ordered by
    due time; time is a number of milliseconds.  A run of the effect
    [useEffect(..., [data, user])] happens after each render in which
    [data] or [user] changed: first the cleanup the previous run returned,
    then the body. *)

Module Sync.

Record User := mkUser { name : string; email : string }.

(** A pending timeout of the push effect: its id, the time it is due, and
    the [user.email] and [data] its callback closes over. *)
Record Timeout := mkTimeout
  { timeoutId : positive; due : Z; key : string; payload : FarmData.t }.

(** A call [ApiService.pushData(email, data)] and the time it was made. *)
Record PushCall := mkPush
  { at_ : Z; pushEmail : string; pushData : FarmData.t }.

Record World := mkWorld
  { user : option User;
    data : FarmData.t;
    syncTimeoutRef : option positive;
    hasCleanup : bool;
    timeouts : list Timeout;
    nextId : positive;
    pushes : list PushCall }.

Definition quiescence : Z := 2000.

(** [clearTimeout(id)] *)
Definition clearTimeout (id : positive) (w : World) : World :=
  {| user := user w; data := data w; syncTimeoutRef := syncTimeoutRef w;
     hasCleanup := hasCleanup w;
     timeouts := filter (fun x => negb (timeoutId x =? id)%positive) (timeouts w);
     nextId := nextId w; pushes := pushes w |}.

(** [if (syncTimeoutRef.current) clearTimeout(syncTimeoutRef.current)] *)
Definition clearPending (w : World) : World :=
  match syncTimeoutRef w with
  | Some id => clearTimeout id w
  | None => w
  end.

Fixpoint schedule (x : Timeout) (pending : list Timeout) : list Timeout :=
  match pending with
  | [] => [x]
  | y :: rest =>
      if (due y <=? due x)%Z then y :: schedule x rest else x :: y :: rest
  end.

(** [syncTimeoutRef.current = setTimeout(push, 2000)] at time [now]. *)
Definition setTimeoutPush (now : Z) (u : User) (w : World) : World :=
  {| user := user w; data := data w;
     syncTimeoutRef := Some (nextId w);
     hasCleanup := hasCleanup w;
     timeouts :=
       schedule
         {| timeoutId := nextId w; due := (now + quiescence)%Z;
            key := email u; payload := data w |}
         (timeouts w);
     nextId := Pos.succ (nextId w); pushes := pushes w |}.

Definition withCleanup (b : bool) (w : World) : World :=
  {| user := user w; data := data w; syncTimeoutRef := syncTimeoutRef w;
     hasCleanup := b; timeouts := timeouts w; nextId := nextId w;
     pushes := pushes w |}.

(** One run of the push effect at time [now]. *)
Definition runEffect (now : Z) (w : World) : World :=
  let w := if hasCleanup w then clearPending w else w in
  match user w with
  | None => withCleanup false w
  | Some u => withCleanup true (setTimeoutPush now u (clearPending w))
  end.

Definition expired (t : Z) (x : Timeout) : bool := (due x <=? t)%Z.

(** Every timeout due by [t] runs its callback, in due order. *)
Definition fire (t : Z) (w : World) : World :=
  {| user := user w; data := data w; syncTimeoutRef := syncTimeoutRef w;
     hasCleanup := hasCleanup w;
     timeouts := filter (fun x => negb (expired t x)) (timeouts w);
     nextId := nextId w;
     pushes :=
       pushes w
       ++ map (fun x => {| at_ := due x; pushEmail := key x;
                           pushData := payload x |})
              (filter (expired t) (timeouts w)) |}.

Inductive Event :=
| SetData (d : FarmData.t)
| SetUser (u : option User).

Definition apply (e : Event) (w : World) : World :=
  match e with
  | SetData d =>
      {| user := user w; data := d; syncTimeoutRef := syncTimeoutRef w;
         hasCleanup := hasCleanup w; timeouts := timeouts w;
         nextId := nextId w; pushes := pushes w |}
  | SetUser u =>
      {| user := u; data := data w; syncTimeoutRef := syncTimeoutRef w;
         hasCleanup := hasCleanup w; timeouts := timeouts w;
         nextId := nextId w; pushes := pushes w |}
  end.

(** A state change at time [t]: the timeouts due by then have run, the
    state is set, the render's effect runs. *)
Definition step (te : Z * Event) (w : World) : World :=
  runEffect (fst te) (apply (snd te) (fire (fst te) w)).

Definition run (events : list (Z * Event)) (w : World) : World :=
  fold_left (fun w te => step te w) events w.

(** A mutation: the time it happens and the snapshot it produces. *)
Definition mutations (ms : list (Z * FarmData.t)) : list (Z * Event) :=
  map (fun m => (fst m, SetData (snd m))) ms.

(** Each mutation comes no earlier than the previous one and within the
    quiescence window of it. *)
Fixpoint chained (t : Z) (ms : list (Z * FarmData.t)) : Prop :=
  match ms with
  | [] => True
  | m :: rest =>
      (t <= fst m)%Z /\ (fst m < t + quiescence)%Z /\ chained (fst m) rest
  end.

(** One push is pending: the one the effect scheduled at time [t] for
    snapshot [d]; [sent] are the pushes made so far. *)
Definition armed (u : User) (t : Z) (d : FarmData.t) (sent : list PushCall)
  (w : World) : Prop :=
  user w = Some u /\ data w = d /\ hasCleanup w = true
  /\ pushes w = sent
  /\ exists id,
      syncTimeoutRef w = Some id
      /\ timeouts w
         = [ {| timeoutId := id; due := (t + quiescence)%Z;
                key := email u; payload := d |} ].

End Sync.

(** ** JSON values

    What [JSON.parse] returns and [JSON.stringify] writes.  The text of a
    backup file is not modelled: a file is the value its text parses to,
    or unparsable.  Numbers are finite: [JSON.stringify] writes [NaN] and
    the infinities as [null], so a state that holds one (the liability
    form stores [NaN] for an emptied instalment input) does not come back
    from a file as it was, and is outside the model. *)

Module Json.

#[local] Unset Elimination Schemes.
Inductive t :=
| Null
| Bool (b : bool)
| Num (n : Q)
| Str (s : string)
| Arr (xs : list t)
| Obj (fields : list (string * t)).
#[local] Set Elimination Schemes.

Fixpoint assoc (k : string) (fields : list (string * t)) : option t :=
  match fields with
  | [] => None
  | (k', v) :: rest => if (k' =? k)%string then Some v else assoc k rest
  end.

(** The outcome of evaluating an expression that may throw. *)
Inductive Completion (A : Type) :=
| Normal (a : A)
| Throw (message : string).
Arguments Normal {A} a.
Arguments Throw {A} message.

Definition bind {A B} (c : Completion A) (f : A -> Completion B)
  : Completion B :=
  match c with
  | Normal a => f a
  | Throw m => Throw m
  end.

(** The own properties an object spread [{...v}] copies. *)
Definition own (v : t) (k : string) : option t :=
  match v with
  | Obj fields => assoc k fields
  | _ => None
  end.

(** [v.k], for a key [k] no prototype defines: [undefined] ([None]) on a
    missing key and on a primitive or an array, a [TypeError] on [null]. *)
Definition get (TypeError_message : string) (v : t) (k : string)
  : Completion (option t) :=
  match v with
  | Null => Throw TypeError_message
  | _ => Normal (own v k)
  end.

(** Truthiness of a value that may be [undefined]. *)
Definition truthy (v : option t) : bool :=
  match v with
  | None => false
  | Some Null => false
  | Some (Bool b) => b
  | Some (Num n) => negb (Qeq_bool n 0)
  | Some (Str s) => truthy_string s
  | Some (Arr _) => true
  | Some (Obj _) => true
  end.

(** An object literal as [JSON.stringify] writes it: a key whose value is
    [undefined] is left out. *)
Fixpoint object (bindings : list (string * option t)) : list (string * t) :=
  match bindings with
  | [] => []
  | (k, Some v) :: rest => (k, v) :: object rest
  | (_, None) :: rest => object rest
  end.

End Json.

(** ** The object a typed snapshot is

    [toJSON] gives, for each interface of [types.ts], the JSON value of a
    record of that type: enums are their string values, an optional
    field left [undefined] has no key. *)

Module ToJSON.
Import Json.

Definition transactionType (x : TransactionType) : t :=
  Str match x with INCOME => "INCOME" | EXPENSE => "EXPENSE" end.

Definition accountType (x : AccountType) : t :=
  Str match x with
      | CHECKING => "CHECKING" | SAVINGS => "SAVINGS"
      | CASH => "CASH" | CREDIT => "CREDIT"
      end.

Definition populationChange (x : PopulationChange) : t :=
  Str match x with
      | BOUGHT => "BOUGHT" | BIRTH => "BIRTH"
      | SOLD => "SOLD" | DEATH => "DEATH"
      end.

Definition movementType (x : MovementType) : t :=
  Str match x with IN => "IN" | OUT => "OUT" end.

Definition assetTerm (x : AssetTerm) : t :=
  Str match x with
      | SHORT_TERM => "SHORT_TERM" | LONG_TERM => "LONG_TERM"
      end.

Definition assetCategory (x : AssetCategory) : t :=
  Str match x with
      | EQUIPMENT => "EQUIPMENT" | VEHICLE => "VEHICLE"
      | REAL_ESTATE => "REAL_ESTATE" | TECHNOLOGY => "TECHNOLOGY"
      | LIVESTOCK => "LIVESTOCK" | INVENTORY => "INVENTORY"
      | OTHER_ASSET => "OTHER"
      end.

Definition liabilityCategory (x : LiabilityCategory) : t :=
  Str match x with
      | LOAN => "LOAN" | CREDIT_CARD => "CREDIT_CARD"
      | MORTGAGE => "MORTGAGE" | ACCOUNTS_PAYABLE => "ACCOUNTS_PAYABLE"
      | OTHER => "OTHER"
      end.

Definition paymentFrequency (x : PaymentFrequency) : t :=
  Str match x with
      | MONTHLY => "MONTHLY" | YEARLY => "YEARLY" | ONE_TIME => "ONE-TIME"
      end.

Definition category (x : Category.t) : t :=
  Obj [ ("id", Str (Category.id x)); ("name", Str (Category.name x));
        ("type", transactionType (Category.type x));
        ("color", Str (Category.color x)) ].

Definition account (x : Account.t) : t :=
  Obj [ ("id", Str (Account.id x)); ("name", Str (Account.name x));
        ("type", accountType (Account.type x));
        ("initialBalance", Num (Account.initialBalance x)) ].

Definition transaction (x : Transaction.t) : t :=
  Obj [ ("id", Str (Transaction.id x)); ("date", Str (Transaction.date x));
        ("description", Str (Transaction.description x));
        ("amount", Num (Transaction.amount x));
        ("categoryId", Str (Transaction.categoryId x));
        ("accountId", Str (Transaction.accountId x));
        ("type", transactionType (Transaction.type x)) ].

Definition navItemConfig (x : NavItemConfig.t) : t :=
  Obj [ ("id", Str (NavItemConfig.id x));
        ("visible", Bool (NavItemConfig.visible x)) ].

Definition animalSpecies (x : AnimalSpecies.t) : t :=
  Obj [ ("id", Str (AnimalSpecies.id x)); ("name", Str (AnimalSpecies.name x));
        ("tag", Str (AnimalSpecies.tag x));
        ("breed", Str (AnimalSpecies.breed x));
        ("count", Num (AnimalSpecies.count x));
        ("estimatedValue", Num (AnimalSpecies.estimatedValue x)) ].

Definition animalLog (x : AnimalLog.t) : t :=
  Obj [ ("id", Str (AnimalLog.id x));
        ("speciesId", Str (AnimalLog.speciesId x));
        ("date", Str (AnimalLog.date x));
        ("type", populationChange (AnimalLog.type x));
        ("quantity", Num (AnimalLog.quantity x));
        ("note", Str (AnimalLog.note x));
        ("valueAtTime", Num (AnimalLog.valueAtTime x)) ].

Definition inventoryItem (x : InventoryItem.t) : t :=
  Obj [ ("id", Str (InventoryItem.id x)); ("name", Str (InventoryItem.name x));
        ("sku", Str (InventoryItem.sku x));
        ("description", Str (InventoryItem.description x));
        ("quantity", Num (InventoryItem.quantity x));
        ("unitCost", Num (InventoryItem.unitCost x));
        ("assetTerm", assetTerm (InventoryItem.assetTerm x)) ].

Definition inventoryMovement (x : InventoryMovement.t) : t :=
  Obj [ ("id", Str (InventoryMovement.id x));
        ("itemId", Str (InventoryMovement.itemId x));
        ("type", movementType (InventoryMovement.type x));
        ("quantity", Num (InventoryMovement.quantity x));
        ("note", Str (InventoryMovement.note x));
        ("date", Str (InventoryMovement.date x));
        ("unitCostAtTime", Num (InventoryMovement.unitCostAtTime x)) ].

Definition asset (x : Asset.t) : t :=
  Obj [ ("id", Str (Asset.id x)); ("name", Str (Asset.name x));
        ("category", assetCategory (Asset.category x));
        ("purchaseDate", Str (Asset.purchaseDate x));
        ("purchasePrice", Num (Asset.purchasePrice x));
        ("currentValue", Num (Asset.currentValue x));
        ("description", Str (Asset.description x)) ].

Definition liability (x : Liability.t) : t :=
  Obj (object
    [ ("id", Some (Str (Liability.id x)));
      ("name", Some (Str (Liability.name x)));
      ("category", Some (liabilityCategory (Liability.category x)));
      ("originalAmount", Some (Num (Liability.originalAmount x)));
      ("currentBalance", Some (Num (Liability.currentBalance x)));
      ("interestRate", Some (Num (Liability.interestRate x)));
      ("dueDate", option_map Str (Liability.dueDate x));
      ("installmentAmount", option_map Num (Liability.installmentAmount x));
      ("paymentFrequency",
        option_map paymentFrequency (Liability.paymentFrequency x));
      ("description", Some (Str (Liability.description x))) ]).

Definition farmData (x : FarmData.t) : t :=
  Obj [ ("transactions", Arr (map transaction (FarmData.transactions x)));
        ("categories", Arr (map category (FarmData.categories x)));
        ("accounts", Arr (map account (FarmData.accounts x)));
        ("animalSpecies", Arr (map animalSpecies (FarmData.animalSpecies x)));
        ("animalLogs", Arr (map animalLog (FarmData.animalLogs x)));
        ("inventoryItems", Arr (map inventoryItem (FarmData.inventoryItems x)));
        ("inventoryMovements",
          Arr (map inventoryMovement (FarmData.inventoryMovements x)));
        ("assets", Arr (map asset (FarmData.assets x)));
        ("liabilities", Arr (map liability (FarmData.liabilities x)));
        ("sidebarConfig", Arr (map navItemConfig (FarmData.sidebarConfig x)));
        ("isSidebarCollapsed", Bool (FarmData.isSidebarCollapsed x)) ].

Definition user (x : Sync.User) : t :=
  Obj [ ("name", Str (Sync.name x)); ("email", Str (Sync.email x)) ].

End ToJSON.

(** ** services/apiService.ts

    [localStorage] is a table from keys to stored texts; a stored text is
    the JSON value it parses to.  The simulated latency is left out. *)

Module ApiService.

Definition Storage := list (string * Json.t).

Definition STORAGE_PREFIX : string := "farm_cloud_v1:".

(** [localStorage.setItem(key, value)] *)
Fixpoint setItem (key : string) (value : Json.t) (storage : Storage)
  : Storage :=
  match storage with
  | [] => [(key, value)]
  | (k, v) :: rest =>
      if (k =? key)%string then (k, value) :: rest
      else (k, v) :: setItem key value rest
  end.

(** [localStorage.getItem(key)], [null] being [None]. *)
Definition getItem (key : string) (storage : Storage) : option Json.t :=
  Json.assoc key storage.

Definition pushData (email : string) (data : Json.t) (storage : Storage)
  : Storage :=
  let key := (STORAGE_PREFIX ++ email)%string in
  setItem key data storage.

Definition pullData (email : string) (storage : Storage) : option Json.t :=
  let key := (STORAGE_PREFIX ++ email)%string in
  match getItem key storage with
  | None => None
  | Some saved => Some saved
  end.
End ApiService.

(** ** Settings.tsx: backup and restore

    The React state [data] of [App] is whatever object [setData] was last
    given; [onImportData] is [setData] and is handed the parsed file as it
    is.  So here a snapshot is a JSON value, and the props of [Settings]
    are the own properties of [data]. *)

Module Settings.

Record State := mkState { importError : option string; isImporting : bool }.

(** The file picked for restore, as [JSON.parse] sees its text: a
    [SyntaxError] with its message, or a value. *)
Inductive FileContent :=
| Unparsable (message : string)
| Parsed (v : Json.t).

(** The keys of [FarmData]. *)
Definition FarmDataKeys : list string :=
  [ "transactions"; "categories"; "accounts"; "animalSpecies"; "animalLogs";
    "inventoryItems"; "inventoryMovements"; "assets"; "liabilities";
    "sidebarConfig"; "isSidebarCollapsed" ].

(** What the readers of a snapshot see of it: its value at each key of
    [FarmData]. *)
Definition farmData (data : Json.t) : list (string * option Json.t) :=
  map (fun k => (k, Json.own data k)) FarmDataKeys.

Section Component.
(** The message of the engine's [TypeError] for a property read on
    [null]. *)
Variable TypeError_message : string.
(** [App]'s state, spread into the props, and the [user] prop. *)
Variable data : Json.t.
Variable user : Json.t.

(** [handleExport]: the content of the downloaded file, for props whose
    numbers are finite; [timestamp] is [new Date().toISOString()]. *)
Definition handleExport (timestamp : string) : FileContent :=
  let backupData :=
    [ ("version", Some (Json.Str "1.3"));
      ("timestamp", Some (Json.Str timestamp));
      ("user", Some user);
      ("transactions", Json.own data "transactions");
      ("categories", Json.own data "categories");
      ("accounts", Json.own data "accounts");
      ("animalSpecies", Json.own data "animalSpecies");
      ("animalLogs", Json.own data "animalLogs");
      ("inventoryItems", Json.own data "inventoryItems");
      ("inventoryMovements", Json.own data "inventoryMovements");
      ("assets", Json.own data "assets");
      ("liabilities", Json.own data "liabilities");
      ("sidebarConfig", Json.own data "sidebarConfig");
      ("isSidebarCollapsed", Json.own data "isSidebarCollapsed") ] in
  Parsed (Json.Obj (Json.object backupData)).

(** The [try] block of [reader.onload]: [Normal (Some d)] when
    [onImportData(d)] is called, [Normal None] when the user declines the
    confirmation. *)
Definition tryImport (content : FileContent) (confirm : bool)
  : Json.Completion (option Json.t) :=
  match content with
  | Unparsable message => Json.Throw message
  | Parsed d =>
      Json.bind (Json.get TypeError_message d "transactions") (fun transactions =>
      if negb (Json.truthy transactions)
      then Json.Throw "Invalid backup file format."
      else
        Json.bind (Json.get TypeError_message d "categories") (fun categories =>
        if negb (Json.truthy categories)
        then Json.Throw "Invalid backup file format."
        else if confirm then Json.Normal (Some d) else Json.Normal None))
  end.

(** The dialogs [reader.onload] opens, in order: the confirmation, which
    comes after every [throw] of the [try] block, and the alert of a
    restore.  The [catch] block opens none. *)
Definition dialogs (file : option FileContent) (confirm : bool)
  : list string :=
  match file with
  | None => []
  | Some content =>
      match tryImport content confirm with
      | Json.Throw _ => []
      | Json.Normal (Some _) =>
          [ "Warning: Restoring from backup will replace ALL current data. Do you wish to proceed?";
            "Data restored successfully!" ]
      | Json.Normal None =>
          [ "Warning: Restoring from backup will replace ALL current data. Do you wish to proceed?" ]
      end
  end.

(** The Restore Backup card, the one place of the page that belongs to
    the restore: a heading, the hidden file input and its label.  No JSX
    of [Settings] reads [importError] or [isImporting]. *)
Definition restoreCard (st : State) : list string :=
  [ "Restore Backup"; "Select File" ].

(** [handleImport]: the component state and [App]'s state once the file
    has been read.  [file] is [event.target.files?.[0]]; [confirm] is the
    answer to the confirmation dialog. *)
Definition handleImport (file : option FileContent) (confirm : bool)
  (st : State) : State * Json.t :=
  match file with
  | None => (st, data)
  | Some content =>
      match tryImport content confirm with
      | Json.Throw message =>
          ({| importError := Some message; isImporting := false |}, data)
      | Json.Normal (Some d) =>
          ({| importError := None; isImporting := false |}, d)
      | Json.Normal None =>
          ({| importError := None; isImporting := false |}, data)
      end
  end.
End Component.

Section CloudPull.
(** [user.email] *)
Variable email : string.
Variable storage : ApiService.Storage.

(** [handleCloudPull]: [App]'s state after the call; [confirm] is the
    answer to the confirmation dialog. *)
Definition handleCloudPull (confirm : bool) (data : Json.t) : Json.t :=
  if negb confirm then data
  else
    match ApiService.pullData email storage with
    | Some pulled => if Json.truthy (Some pulled) then pulled else data
    | None => data
    end.
End CloudPull.

(** [toggleVisibility]: the argument of [onUpdateSidebar]. *)
Definition toggleVisibility (sidebarConfig : list NavItemConfig.t)
  (id : string) : list NavItemConfig.t :=
  map (fun item =>
         if (NavItemConfig.id item =? id)%string
         then {| NavItemConfig.id := NavItemConfig.id item;
                 NavItemConfig.visible := negb (NavItemConfig.visible item) |}
         else item)
      sidebarConfig.

Inductive Direction := up | down.

(** [xs[i]] on an array whose elements may be [undefined]. *)
Definition read {A} (xs : list (option A)) (i : nat) : option A :=
  nth i xs None.

(** [xs[i] = v]: past the end the array grows, the skipped places being
    [undefined]. *)
Fixpoint write {A} (xs : list (option A)) (i : nat) (v : option A)
  : list (option A) :=
  match i, xs with
  | O, [] => [v]
  | O, _ :: rest => v :: rest
  | S i, [] => None :: write [] i v
  | S i, x :: rest => x :: write rest i v
  end.

(** [moveItem]: the argument of [onUpdateSidebar], [None] when the
    function returns before calling it.  [index] is the index of a row. *)
Definition moveItem (sidebarConfig : list NavItemConfig.t) (index : nat)
  (direction : Direction) : option (list (option NavItemConfig.t)) :=
  let newConfig := map Some sidebarConfig in
  let targetIndex :=
    match direction with
    | up => (Z.of_nat index - 1)%Z
    | down => (Z.of_nat index + 1)%Z
    end in
  if (targetIndex <? 0)%Z
     || (Z.of_nat (List.length newConfig) <=? targetIndex)%Z
  then None
  else
    let target := Z.to_nat targetIndex in
    let temp := read newConfig index in
    let newConfig := write newConfig index (read newConfig target) in
    let newConfig := write newConfig target temp in
    Some newConfig.
End Settings.

(** ** AnimalManager.tsx *)

Module AnimalManager.

(** The [newLog] form state. *)
Record LogForm := mkLog
  { speciesId : string;
    type : PopulationChange;
    quantity : Q;
    note : string;
    date : string }.

(** [{ ...editingSpecies, ...newSpecies }] *)
Definition merge (editingSpecies : AnimalSpecies.t)
  (newSpecies : NewAnimalSpecies.t) : AnimalSpecies.t :=
  NewAnimalSpecies.withIdCount newSpecies (AnimalSpecies.id editingSpecies)
    (AnimalSpecies.count editingSpecies).

Section Component.
Variable data : FarmData.t.

(** [handleAddSpecies] *)
Definition handleAddSpecies (uuid : string)
  (editingSpecies : option AnimalSpecies.t) (newSpecies : NewAnimalSpecies.t)
  : FarmData.t -> FarmData.t :=
  match editingSpecies with
  | Some editing => App.onUpdateSpecies data (merge editing newSpecies)
  | None => App.onAddSpecies data uuid newSpecies
  end.

(** [handleRecordLog]: [None] when the handler returns before calling
    [onRecordLog]. *)
Definition handleRecordLog (uuid : string) (newLog : LogForm)
  : option (FarmData.t -> FarmData.t) :=
  match
    find (fun s => (AnimalSpecies.id s =? speciesId newLog)%string)
         (FarmData.animalSpecies data)
  with
  | None => None
  | Some item =>
      Some (App.handleRecordAnimalLog uuid
              {| NewAnimalLog.speciesId := speciesId newLog;
                 NewAnimalLog.date := date newLog;
                 NewAnimalLog.type := type newLog;
                 NewAnimalLog.quantity := quantity newLog;
                 NewAnimalLog.note := note newLog;
                 NewAnimalLog.valueAtTime := AnimalSpecies.estimatedValue item |})
  end.
End Component.

Definition totalLivestockValue (species : list AnimalSpecies.t) : Q :=
  fold_left
    (fun sum s => sum + AnimalSpecies.count s * AnimalSpecies.estimatedValue s)
    species 0.

Definition totalAnimalCount (species : list AnimalSpecies.t) : Q :=
  fold_left (fun sum s => sum + AnimalSpecies.count s) species 0.

Record MortalityStats := mkMortality
  { totalRecentDeaths : Q; sheepDeaths : Q }.

Section Mortality.
(** [s.toLowerCase()] *)
Variable toLowerCase : string -> string.
Variable Date_parse : string -> option Z.
(** The instant [oneYearAgo.setFullYear(oneYearAgo.getFullYear() - 1)]
    leaves in [oneYearAgo]. *)
Variable oneYearAgo : Z.

Definition mortalityStats (logs : list AnimalLog.t)
  (species : list AnimalSpecies.t) : MortalityStats :=
  let recentDeathLogs :=
    filter (fun log =>
              match AnimalLog.type log with DEATH => true | _ => false end
              && match Date_parse (AnimalLog.date log) with
                 | Some t => (oneYearAgo <=? t)%Z
                 | None => false
                 end)
           logs in
  let totalRecentDeaths :=
    fold_left (fun sum log => sum + AnimalLog.quantity log) recentDeathLogs 0 in
  let sheepSpeciesIds :=
    map AnimalSpecies.id
      (filter (fun s => JS.includes (toLowerCase (AnimalSpecies.name s)) "sheep")
              species) in
  let sheepDeaths :=
    fold_left (fun sum log => sum + AnimalLog.quantity log)
      (filter (fun log =>
                 existsb (fun id => (id =? AnimalLog.speciesId log)%string)
                         sheepSpeciesIds)
              recentDeathLogs)
      0 in
  {| totalRecentDeaths := totalRecentDeaths; sheepDeaths := sheepDeaths |}.
End Mortality.
End AnimalManager.

(** ** TransactionForm.tsx, TransactionList.tsx and [TransactionPage] *)

Module TransactionForm.

Record State := mkState
  { description : string;
    amount : string;
    type : TransactionType;
    categoryId : string;
    accountId : string;
    date : string }.

(** [handleSubmit]: the argument of [onSubmit], [None] when the handler
    returns before calling it. *)
Definition handleSubmit (parseFloat : string -> Q) (st : State)
  : option NewTransaction.t :=
  if negb (truthy_string (description st)) || negb (truthy_string (amount st))
     || negb (truthy_string (categoryId st))
     || negb (truthy_string (accountId st))
  then None
  else
    Some {| NewTransaction.date := date st;
            NewTransaction.description := description st;
            NewTransaction.amount := parseFloat (amount st);
            NewTransaction.categoryId := categoryId st;
            NewTransaction.accountId := accountId st;
            NewTransaction.type := type st |}.
End TransactionForm.

Module TransactionPage.

Definition sameType (a b : TransactionType) : bool :=
  match a, b with
  | INCOME, INCOME | EXPENSE, EXPENSE => true
  | _, _ => false
  end.

(** [transactions.filter(t => t.type === type)] *)
Definition filteredTransactions (type : TransactionType)
  (transactions : list Transaction.t) : list Transaction.t :=
  filter (fun t => sameType (Transaction.type t) type) transactions.

(** [handleSubmit] *)
Definition handleSubmit (data : FarmData.t) (uuid : string)
  (editingTransaction : option Transaction.t) (t : NewTransaction.t)
  : FarmData.t -> FarmData.t :=
  match editingTransaction with
  | Some editing =>
      App.handleUpdateTransaction data
        (NewTransaction.withId t (Transaction.id editing))
  | None => App.handleAddTransaction data uuid t
  end.
End TransactionPage.

Module SearchBar.

Record SearchFilters := mkFilters
  { date : string; type : string; price : string; query : string }.

End SearchBar.

Module TransactionList.

Section Component.
Variable toLowerCase : string -> string.
Variable parseFloat : string -> Q.

Definition filteredTransactions (filters : SearchBar.SearchFilters)
  (transactions : list Transaction.t) (categories : list Category.t)
  (accounts : list Account.t) : list Transaction.t :=
  filter
    (fun t =>
       let category :=
         find (fun c => (Category.id c =? Transaction.categoryId t)%string)
              categories in
       let account :=
         find (fun a => (Account.id a =? Transaction.accountId t)%string)
              accounts in
       let q := toLowerCase (SearchBar.query filters) in
       let matchesQuery :=
         JS.includes (toLowerCase (Transaction.description t)) q
         || match category with
            | Some c => JS.includes (toLowerCase (Category.name c)) q
            | None => false
            end
         || match account with
            | Some a => JS.includes (toLowerCase (Account.name a)) q
            | None => false
            end in
       let matchesDate :=
         negb (truthy_string (SearchBar.date filters))
         || (Transaction.date t =? SearchBar.date filters)%string in
       let matchesType :=
         negb (truthy_string (SearchBar.type filters))
         || match category with
            | Some c => (Category.name c =? SearchBar.type filters)%string
            | None => false
            end in
       let matchesPrice :=
         negb (truthy_string (SearchBar.price filters))
         || le (parseFloat (SearchBar.price filters)) (Transaction.amount t) in
       matchesQuery && matchesDate && matchesType && matchesPrice)
    transactions.
End Component.
End TransactionList.

(** ** The specification's formulas *)

(** The population a log leaves, in the words of the specification:
    [max(0, count + quantity)] for BOUGHT and BIRTH,
    [max(0, count - quantity)] for SOLD and DEATH. *)
Definition populationAfter (type : PopulationChange) (count quantity : Q) : Q :=
  match type with
  | BOUGHT | BIRTH => Qmax 0 (count + quantity)
  | SOLD | DEATH => Qmax 0 (count - quantity)
  end.

(** [Σ] over a list of numbers. *)
Fixpoint Qsum (xs : list Q) : Q :=
  match xs with
  | [] => 0
  | x :: rest => x + Qsum rest
  end.

(** The transactions of a given type on an account. *)
Definition onAccount (type : TransactionType) (A : Account.t)
  (t : Transaction.t) : bool :=
  (Transaction.accountId t =? Account.id A)%string
  && match type, Transaction.type t with
     | INCOME, INCOME | EXPENSE, EXPENSE => true
     | _, _ => false
     end.

(** [Σ(income in T on A)] and [Σ(expense in T on A)]. *)
Definition sumOn (type : TransactionType) (A : Account.t)
  (T : list Transaction.t) : Q :=
  Qsum (map Transaction.amount (filter (onAccount type A) T)).

(** The numbers the balance of an account is computed from: its initial
    balance and the amounts of the transactions on it. *)
Definition operands (A : Account.t) (T : list Transaction.t) : list Q :=
  Account.initialBalance A
  :: map Transaction.amount
       (filter (fun t => (Transaction.accountId t =? Account.id A)%string) T).

(** The share of one upcoming liability in the total due soon:
    [min(installmentAmount, currentBalance)] when [installmentAmount > 0],
    [currentBalance] otherwise. *)
Definition dueSoonShare (l : Liability.t) : Q :=
  match Liability.installmentAmount l with
  | Some installmentAmount =>
      if Qlt_le_dec 0 installmentAmount
      then Qmin installmentAmount (Liability.currentBalance l)
      else Liability.currentBalance l
  | None => Liability.currentBalance l
  end.

(** Logs recorded one after the other, each with the id it is given. *)
Definition recordAll (logs : list (string * NewAnimalLog.t))
  (prev : FarmData.t) : FarmData.t :=
  fold_left (fun st ul => App.handleRecordAnimalLog (fst ul) (snd ul) st)
    logs prev.

(** The count a species of id [id] is left with by a series of logs: the
    running total, clamped at each log that names the species. *)
Definition countAfter (id : string) (logs : list (string * NewAnimalLog.t))
  (count : Q) : Q :=
  fold_left
    (fun c ul =>
       if (id =? NewAnimalLog.speciesId (snd ul))%string
       then populationAfter (NewAnimalLog.type (snd ul)) c
              (NewAnimalLog.quantity (snd ul))
       else c)
    logs count.

(** The signed quantity of a log. *)
Definition signedQuantity (l : NewAnimalLog.t) : Q :=
  match NewAnimalLog.type l with
  | BOUGHT | BIRTH => NewAnimalLog.quantity l
  | SOLD | DEATH => - NewAnimalLog.quantity l
  end.

(** The sum of the signed quantities of the logs that name a species. *)
Definition netChange (id : string) (logs : list (string * NewAnimalLog.t))
  : Q :=
  Qsum (map (fun ul => signedQuantity (snd ul))
          (filter (fun ul => (id =? NewAnimalLog.speciesId (snd ul))%string)
                  logs)).

(** The state the push effect keeps between events: at most one timeout
    is pending, it is the one [syncTimeoutRef] names, and its callback
    holds the email of the user signed in and the current snapshot. *)
Definition tidy (w : Sync.World) : Prop :=
  Sync.timeouts w = []
  \/ exists x u,
      Sync.timeouts w = [x]
      /\ Sync.syncTimeoutRef w = Some (Sync.timeoutId x)
      /\ Sync.hasCleanup w = true
      /\ Sync.user w = Some u
      /\ Sync.key x = Sync.email u
      /\ Sync.payload x = Sync.data w.

(** An entry comes no later than another in a list sorted by value,
    largest first. *)
Definition larger (x y : string * Q) : Prop := snd y <= snd x.

(** ** Sample data *)

Module Sample.

Definition empty : FarmData.t :=
  {| FarmData.transactions := [];
     FarmData.categories := [];
     FarmData.accounts := [];
     FarmData.animalSpecies := [];
     FarmData.animalLogs := [];
     FarmData.inventoryItems := [];
     FarmData.inventoryMovements := [];
     FarmData.assets := [];
     FarmData.liabilities := [];
     FarmData.sidebarConfig := [];
     FarmData.isSidebarCollapsed := false |}.

(** [parseFloat] on the numerals the samples type into a form. *)
Definition parseFloat (s : string) : Q :=
  if (s =? "40")%string then 40
  else if (s =? "150")%string then 150
  else 0.

Definition cow : AnimalSpecies.t :=
  {| AnimalSpecies.id := "s1"; AnimalSpecies.name := "Cow";
     AnimalSpecies.tag := "C"; AnimalSpecies.breed := "Angus";
     AnimalSpecies.count := 10; AnimalSpecies.estimatedValue := 900 |}.

Definition herd : FarmData.t :=
  {| FarmData.transactions := [];
     FarmData.categories := [];
     FarmData.accounts := [];
     FarmData.animalSpecies := [cow];
     FarmData.animalLogs := [];
     FarmData.inventoryItems := [];
     FarmData.inventoryMovements := [];
     FarmData.assets := [];
     FarmData.liabilities := [];
     FarmData.sidebarConfig := [];
     FarmData.isSidebarCollapsed := false |}.

Definition sold12 : NewAnimalLog.t :=
  {| NewAnimalLog.speciesId := "s1"; NewAnimalLog.date := "2024-05-01";
     NewAnimalLog.type := SOLD; NewAnimalLog.quantity := 12;
     NewAnimalLog.note := ""; NewAnimalLog.valueAtTime := 900 |}.

Definition feed : InventoryItem.t :=
  {| InventoryItem.id := "i1"; InventoryItem.name := "Feed";
     InventoryItem.sku := "F-1"; InventoryItem.description := "";
     InventoryItem.quantity := 0; InventoryItem.unitCost := 2;
     InventoryItem.assetTerm := SHORT_TERM |}.

Definition stock : FarmData.t :=
  {| FarmData.transactions := [];
     FarmData.categories := [];
     FarmData.accounts := [];
     FarmData.animalSpecies := [];
     FarmData.animalLogs := [];
     FarmData.inventoryItems := [feed];
     FarmData.inventoryMovements := [];
     FarmData.assets := [];
     FarmData.liabilities := [];
     FarmData.sidebarConfig := [];
     FarmData.isSidebarCollapsed := false |}.

Definition restock : InventoryManager.MovementForm :=
  {| InventoryManager.itemId := "i1"; InventoryManager.type := IN;
     InventoryManager.quantity := 3; InventoryManager.note := "";
     InventoryManager.date := "2024-05-01" |}.

Definition loan : Liability.t :=
  {| Liability.id := "l1"; Liability.name := "Tractor loan";
     Liability.category := LOAN; Liability.originalAmount := 500;
     Liability.currentBalance := 100; Liability.interestRate := 5;
     Liability.dueDate := Some "1970-01-31";
     Liability.installmentAmount := Some 40;
     Liability.paymentFrequency := Some MONTHLY;
     Liability.description := "" |}.

Definition debts : FarmData.t :=
  {| FarmData.transactions := [];
     FarmData.categories := [];
     FarmData.accounts := [];
     FarmData.animalSpecies := [];
     FarmData.animalLogs := [];
     FarmData.inventoryItems := [];
     FarmData.inventoryMovements := [];
     FarmData.assets := [];
     FarmData.liabilities := [loan];
     FarmData.sidebarConfig := [];
     FarmData.isSidebarCollapsed := false |}.

(** The payment form with [typed] in the amount input. *)
Definition payForm (typed : string) : LiabilityManager.State :=
  {| LiabilityManager.showPayModal := Some loan;
     LiabilityManager.paymentAmount := typed;
     LiabilityManager.paymentDate := "1970-01-15";
     LiabilityManager.paymentCategory := "c1";
     LiabilityManager.paymentAccount := "a1" |}.

(** [new Date(s)] on the date-only strings of the samples: midnight UTC of
    the day, counted from 1970-01-01 as day 0. *)
Definition Date_parse (s : string) : option Z :=
  if (s =? "1970-01-31")%string then Some (JSDate.dateOnly 30)
  else if (s =? "1970-02-01")%string then Some (JSDate.dateOnly 31)
  else None.

(** As [loan], due a day later. *)
Definition lateLoan : Liability.t :=
  {| Liability.id := "l2"; Liability.name := "Seed credit";
     Liability.category := ACCOUNTS_PAYABLE; Liability.originalAmount := 80;
     Liability.currentBalance := 80; Liability.interestRate := 0;
     Liability.dueDate := Some "1970-02-01";
     Liability.installmentAmount := None;
     Liability.paymentFrequency := None;
     Liability.description := "" |}.

(** Months of thirty days: enough of a calendar for the samples. *)
Definition monthStart (d : Z) : Z := (30 * (d / 30))%Z.

(** Noon UTC on 1970-01-01. *)
Definition noon : Z := 43200000.

Definition checking : Account.t :=
  {| Account.id := "a1"; Account.name := "Checking";
     Account.type := CHECKING; Account.initialBalance := 1000 |}.

Definition savings : Account.t :=
  {| Account.id := "a2"; Account.name := "Savings";
     Account.type := SAVINGS; Account.initialBalance := 400 |}.

Definition ledger : list Transaction.t :=
  [ {| Transaction.id := "t1"; Transaction.date := "2024-05-01";
       Transaction.description := "Milk"; Transaction.amount := 250;
       Transaction.categoryId := "c1"; Transaction.accountId := "a1";
       Transaction.type := INCOME |};
    {| Transaction.id := "t2"; Transaction.date := "2024-05-02";
       Transaction.description := "Feed"; Transaction.amount := 75;
       Transaction.categoryId := "c2"; Transaction.accountId := "a1";
       Transaction.type := EXPENSE |};
    {| Transaction.id := "t3"; Transaction.date := "2024-05-03";
       Transaction.description := "Eggs"; Transaction.amount := 20;
       Transaction.categoryId := "c1"; Transaction.accountId := "a2";
       Transaction.type := INCOME |} ].

(** An account opened empty, and three takings of 0.1, 0.2 and 0.3, each
    the binary64 number the numeral denotes. *)
Definition till : Account.t :=
  {| Account.id := "a1"; Account.name := "Till";
     Account.type := CASH; Account.initialBalance := 0 |}.

Definition taking (id : string) (amount : Q) : Transaction.t :=
  {| Transaction.id := id; Transaction.date := "2024-05-01";
     Transaction.description := "Eggs";
     Transaction.amount := Binary64.round amount;
     Transaction.categoryId := "c1"; Transaction.accountId := "a1";
     Transaction.type := INCOME |}.

Definition takings : list Transaction.t :=
  [ taking "t1" (1 # 10); taking "t2" (2 # 10); taking "t3" (3 # 10) ].

Definition farmer : Sync.User :=
  {| Sync.name := "Ada"; Sync.email := "ada@farm.example" |}.

(** Signed in, no push pending. *)
Definition atRest : Sync.World :=
  {| Sync.user := Some farmer; Sync.data := empty;
     Sync.syncTimeoutRef := None; Sync.hasCleanup := false;
     Sync.timeouts := []; Sync.nextId := 1%positive; Sync.pushes := [] |}.

(** Signed in, the push of [herd] pending since time 0. *)
Definition herdPending : Sync.World :=
  Sync.step (0%Z, Sync.SetData herd) atRest.

(** A backup file with no [categories]. *)
Definition noCategories : Json.t :=
  Json.Obj [ ("version", Json.Str "1.3"); ("transactions", Json.Arr []) ].

(** A snapshot with the ledger and its account. *)
Definition books : FarmData.t :=
  {| FarmData.transactions := ledger;
     FarmData.categories :=
       [ Category.mk "c1" "Sales" INCOME "#0f0";
         Category.mk "c2" "Feed" EXPENSE "#f00" ];
     FarmData.accounts := [checking];
     FarmData.animalSpecies := [cow];
     FarmData.animalLogs := [];
     FarmData.inventoryItems := [feed];
     FarmData.inventoryMovements := [];
     FarmData.assets := [];
     FarmData.liabilities := [loan; lateLoan];
     FarmData.sidebarConfig :=
       [ NavItemConfig.mk "dashboard" true; NavItemConfig.mk "income" true;
         NavItemConfig.mk "reports" false ];
     FarmData.isSidebarCollapsed := false |}.

(** Three expenses: feed twice, and a vet bill under a category the
    snapshot does not have. *)
Definition outgoings : list Transaction.t :=
  [ Transaction.mk "t2" "2024-05-02" "Feed" 75 "c2" "a1" EXPENSE;
    Transaction.mk "t4" "2024-05-03" "Vet" 30 "c9" "a1" EXPENSE;
    Transaction.mk "t5" "2024-05-04" "Hay" 12 "c2" "a1" EXPENSE ].

(** Seven bales in stock, and a snapshot with the cows and the bales but
    no log and no movement. *)
Definition bales : InventoryItem.t :=
  {| InventoryItem.id := "i2"; InventoryItem.name := "Bales";
     InventoryItem.sku := "B-1"; InventoryItem.description := "";
     InventoryItem.quantity := 7; InventoryItem.unitCost := 4;
     InventoryItem.assetTerm := SHORT_TERM |}.

Definition barn : FarmData.t :=
  {| FarmData.transactions := [];
     FarmData.categories := [Category.mk "c1" "Sales" INCOME "#0f0"];
     FarmData.accounts := [];
     FarmData.animalSpecies := [cow];
     FarmData.animalLogs := [];
     FarmData.inventoryItems := [bales];
     FarmData.inventoryMovements := [];
     FarmData.assets := [];
     FarmData.liabilities := [];
     FarmData.sidebarConfig := [];
     FarmData.isSidebarCollapsed := false |}.

Definition hay : NewTransaction.t :=
  NewTransaction.mk "2024-05-04" "Hay" 12 "c2" "a1" EXPENSE.

Definition lostCow : AnimalLog.t :=
  AnimalLog.mk "g7" "s1" "1970-01-31" DEATH 2 "" 900.

End Sample.

(** * Properties *)

(** ** Event reducers *)

Lemma updateData_empty (prev : FarmData.t) :
  App.updateData PartialFarmData.empty prev = prev.
Proof. destruct prev; reflexivity. Qed.

(** C10, as the code has it: adding a species, and adding an inventory
    item, appends one record whose [count], respectively [quantity], is
    [0], whatever the fields the caller supplies; the creation interface
    takes no count or quantity.  And whatever changes the state next, a
    species found with a count other than zero was in the snapshot
    before, or is named by the log recorded, or is the record of an
    explicit update, or comes with the snapshot that replaces the state
    (a restored backup, a pull from the cloud); likewise an item with a
    quantity other than zero. *)
Theorem created_count_and_quantity_are_zero
  (data prev : FarmData.t) (uuid : string)
  (s : NewAnimalSpecies.t) (i : NewInventoryItem.t) :
  (exists created,
      FarmData.animalSpecies (App.onAddSpecies data uuid s prev)
      = FarmData.animalSpecies data ++ [created]
      /\ AnimalSpecies.count created = 0
      /\ AnimalSpecies.id created = uuid
      /\ AnimalSpecies.name created = NewAnimalSpecies.name s
      /\ AnimalSpecies.tag created = NewAnimalSpecies.tag s
      /\ AnimalSpecies.breed created = NewAnimalSpecies.breed s
      /\ AnimalSpecies.estimatedValue created
         = NewAnimalSpecies.estimatedValue s)
  /\ (exists created,
      FarmData.inventoryItems (App.onAddItem data uuid i prev)
      = FarmData.inventoryItems data ++ [created]
      /\ InventoryItem.quantity created = 0
      /\ InventoryItem.id created = uuid
      /\ InventoryItem.name created = NewInventoryItem.name i
      /\ InventoryItem.sku created = NewInventoryItem.sku i
      /\ InventoryItem.description created = NewInventoryItem.description i
      /\ InventoryItem.unitCost created = NewInventoryItem.unitCost i
      /\ InventoryItem.assetTerm created = NewInventoryItem.assetTerm i)
  /\ (forall e x,
        In x (FarmData.animalSpecies (App.dispatch data e prev)) ->
        ~ AnimalSpecies.count x == 0 ->
        In x (FarmData.animalSpecies data)
        \/ In x (FarmData.animalSpecies prev)
        \/ (exists id l,
              e = App.RecordLog id l
              /\ AnimalSpecies.id x = NewAnimalLog.speciesId l)
        \/ e = App.UpdateSpecies x
        \/ (exists snapshot,
              e = App.SetData snapshot
              /\ In x (FarmData.animalSpecies snapshot)))
  /\ (forall e x,
        In x (FarmData.inventoryItems (App.dispatch data e prev)) ->
        ~ InventoryItem.quantity x == 0 ->
        In x (FarmData.inventoryItems data)
        \/ In x (FarmData.inventoryItems prev)
        \/ (exists id m,
              e = App.RecordMovement id m
              /\ InventoryItem.id x = NewInventoryMovement.itemId m)
        \/ e = App.UpdateItem x
        \/ (exists snapshot,
              e = App.SetData snapshot
              /\ In x (FarmData.inventoryItems snapshot))).
Proof.
  split; [|split; [|split]].
  - exists (NewAnimalSpecies.withIdCount s uuid 0). cbn. repeat split.
  - exists (NewInventoryItem.withIdQuantity i uuid 0). cbn. repeat split.
  - intros e x Hin Hcount.
    destruct e; cbn in Hin; try (right; left; exact Hin).
    + apply in_app_or in Hin. destruct Hin as [Hin|[<-|[]]];
        [left; exact Hin|].
      exfalso. apply Hcount. reflexivity.
    + apply in_map_iff in Hin. destruct Hin as (y & E & Hy).
      destruct (AnimalSpecies.id y =? AnimalSpecies.id s0)%string.
      * subst x. right; right; right; left. reflexivity.
      * subst y. left. exact Hy.
    + apply in_map_iff in Hin. destruct Hin as (y & E & Hy).
      destruct (AnimalSpecies.id y =? NewAnimalLog.speciesId l)%string eqn:Ey.
      * right; right; left. exists uuid0, l. split; [reflexivity|].
        subst x. cbn. apply String.eqb_eq. exact Ey.
      * subst y. right; left. exact Hy.
    + apply filter_In in Hin. left. apply Hin.
    + right; right; right; right. exists snapshot. split; [reflexivity|].
      exact Hin.
  - intros e x Hin Hquantity.
    destruct e; cbn in Hin; try (right; left; exact Hin).
    + apply in_app_or in Hin. destruct Hin as [Hin|[<-|[]]];
        [left; exact Hin|].
      exfalso. apply Hquantity. reflexivity.
    + apply in_map_iff in Hin. destruct Hin as (y & E & Hy).
      destruct (InventoryItem.id y =? InventoryItem.id i0)%string.
      * subst x. right; right; right; left. reflexivity.
      * subst y. left. exact Hy.
    + apply filter_In in Hin. left. apply Hin.
    + right; right; right; right. exists snapshot. split; [reflexivity|].
      exact Hin.
Qed.

(** C10, as stated, fails: on a fresh state, restoring a backup brings in
    ten cows and seven bales, with no log, no movement and no edit. *)
Lemma nonzero_count_from_a_restored_backup :
  let exported :=
    Settings.handleExport (ToJSON.farmData Sample.barn)
      (ToJSON.user Sample.farmer) "2024-05-01T06:00:00.000Z" in
  let restored :=
    snd (Settings.handleImport "TypeError" (ToJSON.farmData Sample.empty)
           (Some exported) true
           {| Settings.importError := None; Settings.isImporting := false |})
  in
  (Json.own restored "animalSpecies"
   = Some (Json.Arr [ToJSON.animalSpecies Sample.cow])
   /\ AnimalSpecies.count Sample.cow = 10
   /\ Json.own restored "animalLogs" = Some (Json.Arr []))
  /\ (Json.own restored "inventoryItems"
      = Some (Json.Arr [ToJSON.inventoryItem Sample.bales])
      /\ InventoryItem.quantity Sample.bales = 7
      /\ Json.own restored "inventoryMovements" = Some (Json.Arr []))
  /\ ~ (forall e x,
          In x (FarmData.animalSpecies
                  (App.dispatch Sample.empty e Sample.empty)) ->
          ~ AnimalSpecies.count x == 0 ->
          In x (FarmData.animalSpecies Sample.empty)
          \/ (exists id l, e = App.RecordLog id l)
          \/ (exists edited, e = App.UpdateSpecies edited))
  /\ ~ (forall e x,
          In x (FarmData.inventoryItems
                  (App.dispatch Sample.empty e Sample.empty)) ->
          ~ InventoryItem.quantity x == 0 ->
          In x (FarmData.inventoryItems Sample.empty)
          \/ (exists id m, e = App.RecordMovement id m)
          \/ (exists edited, e = App.UpdateItem edited)).
Proof.
  cbv zeta. split; [repeat split|]. split; [repeat split|]. split.
  - intros H.
    destruct (H (App.SetData Sample.barn) Sample.cow)
      as [[]|[(? & ? & E)|(? & E)]]; try discriminate E.
    + left. reflexivity.
    + cbn. discriminate.
  - intros H.
    destruct (H (App.SetData Sample.barn) Sample.bales)
      as [[]|[(? & ? & E)|(? & E)]]; try discriminate E.
    + left. reflexivity.
    + cbn. discriminate.
Qed.

Lemma populationAfter_nonneg (type : PopulationChange) (count quantity : Q) :
  0 <= populationAfter type count quantity.
Proof. destruct type; apply Q.le_max_l. Qed.

Lemma map_no_match {A} (p : A -> bool) (f : A -> A) (xs : list A) :
  forallb (fun x => negb (p x)) xs = true ->
  map (fun x => if p x then f x else x) xs = xs.
Proof.
  induction xs as [|x xs IH]; cbn; intros H; [reflexivity|].
  apply andb_true_iff in H. destruct H as [Hx Hxs].
  apply negb_true_iff in Hx. rewrite Hx, (IH Hxs). reflexivity.
Qed.

(** C3: recording an animal log appends the log, with each of its fields
    and the id it is given, to [animalLogs] whether or not its
    [speciesId] names a species; every species of that id gets
    the count [max(0, count + quantity)] (BOUGHT, BIRTH) or
    [max(0, count - quantity)] (SOLD, DEATH), which is never negative, and
    the other species are as before; with no species of that id the
    species list is unchanged.  Ten cows and a SOLD log of twelve leave
    zero. *)
Theorem handleRecordAnimalLog_clamps
  (uuid : string) (l : NewAnimalLog.t) (prev : FarmData.t) :
  let next := App.handleRecordAnimalLog uuid l prev in
  let named s := (AnimalSpecies.id s =? NewAnimalLog.speciesId l)%string in
  FarmData.animalLogs next
  = FarmData.animalLogs prev
    ++ [ {| AnimalLog.id := uuid;
            AnimalLog.speciesId := NewAnimalLog.speciesId l;
            AnimalLog.date := NewAnimalLog.date l;
            AnimalLog.type := NewAnimalLog.type l;
            AnimalLog.quantity := NewAnimalLog.quantity l;
            AnimalLog.note := NewAnimalLog.note l;
            AnimalLog.valueAtTime := NewAnimalLog.valueAtTime l |} ]
  /\ FarmData.animalSpecies next
     = map (fun s =>
              if named s
              then {| AnimalSpecies.id := AnimalSpecies.id s;
                      AnimalSpecies.name := AnimalSpecies.name s;
                      AnimalSpecies.tag := AnimalSpecies.tag s;
                      AnimalSpecies.breed := AnimalSpecies.breed s;
                      AnimalSpecies.count :=
                        populationAfter (NewAnimalLog.type l)
                          (AnimalSpecies.count s) (NewAnimalLog.quantity l);
                      AnimalSpecies.estimatedValue :=
                        AnimalSpecies.estimatedValue s |}
              else s)
           (FarmData.animalSpecies prev)
  /\ Forall (fun s => named s = true -> 0 <= AnimalSpecies.count s)
       (FarmData.animalSpecies next)
  /\ (forallb (fun s => negb (named s)) (FarmData.animalSpecies prev) = true ->
      FarmData.animalSpecies next = FarmData.animalSpecies prev)
  /\ map AnimalSpecies.count
       (FarmData.animalSpecies
          (App.handleRecordAnimalLog uuid Sample.sold12 Sample.herd))
     = [0].
Proof.
  cbv zeta.
  assert (Hmap :
    FarmData.animalSpecies (App.handleRecordAnimalLog uuid l prev)
    = map (fun s =>
             if (AnimalSpecies.id s =? NewAnimalLog.speciesId l)%string
             then AnimalSpecies.withCount s
                    (populationAfter (NewAnimalLog.type l)
                       (AnimalSpecies.count s) (NewAnimalLog.quantity l))
             else s)
          (FarmData.animalSpecies prev)).
  { unfold App.handleRecordAnimalLog, populationAfter, Math.max; cbn.
    destruct (NewAnimalLog.type l); reflexivity. }
  split; [reflexivity|]. split; [exact Hmap|]. split; [|split].
  - rewrite Hmap. apply Forall_forall. intros s Hin Hs.
    apply in_map_iff in Hin. destruct Hin as [s0 [Heq Hin]].
    destruct (AnimalSpecies.id s0 =? NewAnimalLog.speciesId l)%string eqn:E.
    + subst s. cbn. apply populationAfter_nonneg.
    + subst s0. rewrite E in Hs. discriminate.
  - intros Hnone. rewrite Hmap.
    apply (map_no_match
             (fun s => (AnimalSpecies.id s =? NewAnimalLog.speciesId l)%string)).
    exact Hnone.
  - vm_compute. reflexivity.
Qed.

(** Recording a movement never touches the items. *)
Lemma onRecordMovement_items
  (data prev : FarmData.t) (uuid : string) (m : NewInventoryMovement.t) :
  FarmData.inventoryItems (App.onRecordMovement data uuid m prev)
  = FarmData.inventoryItems prev
  /\ FarmData.inventoryMovements (App.onRecordMovement data uuid m prev)
     = FarmData.inventoryMovements data ++ [NewInventoryMovement.withId m uuid].
Proof. split; reflexivity. Qed.

(** C2, on the code: for an item just created, with quantity zero,
    recording an IN movement of three appends the movement and leaves the
    item at zero, where [max(0, 0 + 3)] is three. *)
Theorem recorded_movement_leaves_quantity :
  exists update,
    InventoryManager.handleRecordMovement Sample.stock "m1" Sample.restock
    = Some update
    /\ map InventoryMovement.itemId
         (FarmData.inventoryMovements (update Sample.stock)) = ["i1"]
    /\ map InventoryMovement.quantity
         (FarmData.inventoryMovements (update Sample.stock)) = [3]
    /\ map InventoryItem.quantity
         (FarmData.inventoryItems (update Sample.stock)) = [0]
    /\ ~ 0 == Qmax 0 (0 + 3).
Proof.
  eexists. split; [reflexivity|]. split; [reflexivity|].
  split; [reflexivity|]. split; [reflexivity|]. vm_compute. discriminate.
Qed.

(** ** Liability payments *)

Lemma max_zero_is_clamped_decrease (balance amount : Q) :
  Math.max 0 (balance - amount) == balance - Math.min amount balance.
Proof.
  unfold Math.max, Math.min.
  destruct (Q.max_spec 0 (balance - amount)) as [[H1 E1]|[H1 E1]];
  destruct (Q.min_spec amount balance) as [[H2 E2]|[H2 E2]];
  rewrite E1, E2; lra.
Qed.

Lemma min_within_max (amount bound : Q) :
  amount <= bound -> amount == Math.min amount bound.
Proof. intros H. unfold Math.min. symmetry. apply Q.min_l. exact H. Qed.

Lemma truthy_string_false (s : string) :
  truthy_string s = false <-> s = "".
Proof.
  unfold truthy_string. rewrite negb_false_iff. apply String.eqb_eq.
Qed.

(** C1: a submitted payment queues both effects on the snapshot or
    neither.  Neither when no liability is being paid or the amount or the
    account is empty: the snapshot is left as it is.  Otherwise both:
    every liability with the id of the paid one becomes that liability
    with balance [max(0, currentBalance - amount)], which is the balance
    less [min(amount, currentBalance)] and not negative, whatever the
    amount; and the transactions gain one EXPENSE, dated at the payment
    date, described "Payment towards: " followed by the liability's name,
    against the chosen category and account, of the amount entered, which
    is the clamped amount [min(amount, currentBalance)] for every amount
    the payment form submits: its amount input has the liability's
    current balance as [max]. *)
Theorem handleRecordPayment_both_or_neither
  (parseFloat : string -> Q) (data : FarmData.t) (uuid : string)
  (st : LiabilityManager.State) :
  let update :=
    snd (LiabilityManager.handleRecordPayment parseFloat data uuid st) in
  let amount := parseFloat (LiabilityManager.paymentAmount st) in
  ((LiabilityManager.showPayModal st = None
    \/ LiabilityManager.paymentAmount st = ""
    \/ LiabilityManager.paymentAccount st = "")
   /\ forall prev, update prev = prev)
  \/
  (exists l newBalance payment,
      LiabilityManager.showPayModal st = Some l
      /\ LiabilityManager.paymentAmount st <> ""
      /\ LiabilityManager.paymentAccount st <> ""
      /\ FarmData.liabilities (update data)
         = map (fun x =>
                  if (Liability.id x =? Liability.id l)%string
                  then {| Liability.id := Liability.id l;
                          Liability.name := Liability.name l;
                          Liability.category := Liability.category l;
                          Liability.originalAmount := Liability.originalAmount l;
                          Liability.currentBalance := newBalance;
                          Liability.interestRate := Liability.interestRate l;
                          Liability.dueDate := Liability.dueDate l;
                          Liability.installmentAmount :=
                            Liability.installmentAmount l;
                          Liability.paymentFrequency :=
                            Liability.paymentFrequency l;
                          Liability.description := Liability.description l |}
                  else x)
               (FarmData.liabilities data)
      /\ newBalance = Math.max 0 (Liability.currentBalance l - amount)
      /\ newBalance
         == Liability.currentBalance l
            - Math.min amount (Liability.currentBalance l)
      /\ 0 <= newBalance
      /\ FarmData.transactions (update data)
         = FarmData.transactions data ++ [payment]
      /\ payment
         = {| Transaction.id := uuid;
              Transaction.date := LiabilityManager.paymentDate st;
              Transaction.description :=
                ("Payment towards: " ++ Liability.name l)%string;
              Transaction.amount := amount;
              Transaction.categoryId := LiabilityManager.paymentCategory st;
              Transaction.accountId := LiabilityManager.paymentAccount st;
              Transaction.type := EXPENSE |}
      /\ (amount <= LiabilityManager.amountMax l ->
          Transaction.amount payment
          == Math.min amount (Liability.currentBalance l))).
Proof.
  cbv zeta. unfold LiabilityManager.handleRecordPayment.
  destruct (LiabilityManager.showPayModal st) as [l|] eqn:Hmodal.
  2:{ left. split; [left; reflexivity|]. reflexivity. }
  destruct (truthy_string (LiabilityManager.paymentAmount st)) eqn:Ham.
  2:{ left. apply truthy_string_false in Ham. cbn.
      split; [right; left; exact Ham|]. reflexivity. }
  destruct (truthy_string (LiabilityManager.paymentAccount st)) eqn:Hac.
  2:{ left. apply truthy_string_false in Hac. cbn.
      split; [right; right; exact Hac|]. reflexivity. }
  right. cbn.
  eexists l, _, _. split; [reflexivity|].
  split. { intros E. apply truthy_string_false in E. congruence. }
  split. { intros E. apply truthy_string_false in E. congruence. }
  split; [reflexivity|]. split; [reflexivity|].
  split; [apply max_zero_is_clamped_decrease|].
  split; [apply Q.le_max_l|].
  split; [reflexivity|]. split; [reflexivity|].
  cbn. apply min_within_max.
Qed.

(** Forty paid on a balance of a hundred: sixty are left, and an EXPENSE
    of forty is recorded. *)
Example handleRecordPayment_of_forty :
  let update :=
    snd (LiabilityManager.handleRecordPayment Sample.parseFloat Sample.debts
           "t1" (Sample.payForm "40")) in
  map Transaction.amount (FarmData.transactions (update Sample.debts)) = [40]
  /\ map Liability.currentBalance (FarmData.liabilities (update Sample.debts))
     = [Math.max 0 (100 - 40)].
Proof. split; reflexivity. Qed.

(** The bound on the amount is the form's, not the handler's: handed 150
    on a balance of 100, an amount the form does not submit, the handler
    brings the balance to zero and records an EXPENSE of 150. *)
Remark handleRecordPayment_does_not_clamp_the_amount :
  let update :=
    snd (LiabilityManager.handleRecordPayment Sample.parseFloat Sample.debts
           "t1" (Sample.payForm "150")) in
  map Liability.currentBalance (FarmData.liabilities (update Sample.debts))
  = [0]
  /\ map Transaction.amount (FarmData.transactions (update Sample.debts))
     = [150].
Proof. split; vm_compute; reflexivity. Qed.

(** ** Account balances *)

Section AccountBalance.
Import AccountRegistry.

Lemma lookup_define (balances : Balances) (k k' : string) (v : Q) :
  lookup (define balances k v) k'
  = if (k =? k')%string then Some v else lookup balances k'.
Proof.
  induction balances as [|[k0 v0] rest IH]; cbn.
  - reflexivity.
  - destruct (k0 =? k)%string eqn:E0; cbn.
    + apply String.eqb_eq in E0. subst k0.
      destruct (k =? k')%string; reflexivity.
    + rewrite IH. destruct (k0 =? k')%string eqn:E1; [|reflexivity].
      apply String.eqb_eq in E1. subst k0. rewrite String.eqb_sym, E0.
      reflexivity.
Qed.

Lemma lookup_assign (balances : Balances) (k k' : string) (v : Q) :
  lookup (assign balances k v) k'
  = if (k =? "__proto__")%string then lookup balances k'
    else if (k =? k')%string then Some v else lookup balances k'.
Proof.
  unfold assign. destruct (k =? "__proto__")%string; [reflexivity|].
  apply lookup_define.
Qed.

(** A table filled account by account binds an id other than [__proto__]
    to the balance of the last account of that id, and [__proto__] to
    nothing. *)
Lemma table_lookup (balance : Account.t -> Q) (accounts : list Account.t)
  (k : string) :
  lookup
    (fold_left (fun balances acc => assign balances (Account.id acc) (balance acc))
       accounts [])
    k
  = if (k =? "__proto__")%string then None
    else option_map balance
           (find (fun a => (Account.id a =? k)%string) (rev accounts)).
Proof.
  induction accounts as [|a accounts IH] using rev_ind.
  - cbn. destruct (k =? "__proto__")%string; reflexivity.
  - rewrite fold_left_app, rev_app_distr. cbn.
    rewrite lookup_assign, IH.
    destruct (Account.id a =? "__proto__")%string eqn:Ep.
    + destruct (k =? "__proto__")%string eqn:Ek; [reflexivity|].
      destruct (Account.id a =? k)%string eqn:E; [|reflexivity].
      apply String.eqb_eq in Ep, E. rewrite <- E, Ep in Ek. discriminate.
    + destruct (Account.id a =? k)%string eqn:E; [|reflexivity].
      apply String.eqb_eq in E. rewrite <- E, Ep. reflexivity.
Qed.

Lemma running_balance (A : Account.t) (T : list Transaction.t) (start : Q) :
  fold_left
    (fun balance t =>
       match Transaction.type t with
       | INCOME => balance + Transaction.amount t
       | EXPENSE => balance - Transaction.amount t
       end)
    (filter (fun t => (Transaction.accountId t =? Account.id A)%string) T)
    start
  == start + sumOn INCOME A T - sumOn EXPENSE A T.
Proof.
  revert start. unfold sumOn, onAccount.
  induction T as [|t T IH]; intros start; cbn.
  - lra.
  - destruct (Transaction.accountId t =? Account.id A)%string; cbn.
    + rewrite IH. destruct (Transaction.type t); cbn; lra.
    + apply IH.
Qed.

Lemma sumOn_Permutation (type : TransactionType) (A : Account.t)
  (T T' : list Transaction.t) :
  Permutation T T' -> sumOn type A T == sumOn type A T'.
Proof.
  unfold sumOn. induction 1 as [|t T T' _ IH|t u T|T T' T'' _ IH1 _ IH2].
  - reflexivity.
  - cbn. destruct (onAccount type A t); cbn; lra.
  - cbn. destruct (onAccount type A t), (onAccount type A u); cbn; lra.
  - lra.
Qed.

Lemma accountBalance_Permutation (A : Account.t) (T T' : list Transaction.t) :
  Permutation T T' -> accountBalance A T' == accountBalance A T.
Proof.
  intros HP. unfold accountBalance. rewrite !running_balance.
  rewrite (sumOn_Permutation INCOME A T T' HP).
  rewrite (sumOn_Permutation EXPENSE A T T' HP). reflexivity.
Qed.

(** *** Rounding *)

Lemma round_compat (x y : Q) : x == y -> Binary64.round x = Binary64.round y.
Proof.
  intros H. unfold Binary64.round. rewrite (Qred_complete x y H). reflexivity.
Qed.

Lemma Qred_inject_Z (z : Z) : Qred (inject_Z z) = inject_Z z.
Proof. apply Qcanon.Qred_identity. cbn. apply Z.gcd_1_r. Qed.

Lemma nearestEven_1 (n : Z) : Binary64.nearestEven n 1 = n.
Proof.
  unfold Binary64.nearestEven. rewrite Z.mod_1_r, Z.div_1_r. reflexivity.
Qed.

Lemma ilog2_1 (n : positive) : Binary64.ilog2 n 1 = Z.log2 (Zpos n).
Proof.
  unfold Binary64.ilog2. change (Z.log2 1) with 0%Z. rewrite Z.sub_0_r.
  generalize (Z.log2_nonneg (Zpos n)) (Z.log2_spec (Zpos n) eq_refl).
  generalize (Z.log2 (Zpos n)). intros k Hk [Hlo _].
  destruct (Z.leb_spec 0 k) as [_|]; [|lia].
  destruct (Z.leb_spec (1 * 2 ^ k) (Zpos n)); [reflexivity|lia].
Qed.

(** A whole number below [2^53] in absolute value is a binary64 number:
    rounding leaves it as it is. *)
Lemma round_small_integer (z : Z) :
  (Z.abs z < 2 ^ 53)%Z -> Binary64.round (inject_Z z) == inject_Z z.
Proof.
  intros Hz. unfold Binary64.round. rewrite Qred_inject_Z.
  cbn [Qnum Qden inject_Z].
  assert (H : forall n, (Z.pos n < 2 ^ 53)%Z ->
            forall s : Z,
            let e := Z.max (Binary64.ilog2 n 1 - 52) (-1074) in
            inject_Z
              (if (0 <=? e)%Z
               then Binary64.nearestEven s (1 * Z.to_pos (2 ^ e))
               else Binary64.nearestEven (s * 2 ^ (- e)) 1)
            * Binary64.pow2 e == inject_Z s).
  { intros n Hn s. rewrite ilog2_1.
    pose proof (Z.log2_nonneg (Zpos n)) as Hk.
    assert (Hk' : (Z.log2 (Zpos n) < 53)%Z).
    { apply Z.log2_lt_pow2; lia. }
    rewrite Z.max_l by lia.
    set (e := (Z.log2 (Z.pos n) - 52)%Z). cbv zeta.
    assert (He : (-52 <= e <= 0)%Z) by (unfold e; lia).
    unfold Binary64.pow2.
    destruct (Z.leb_spec 0 e) as [H0|H0].
    - replace e with 0%Z by lia. cbn.
      rewrite nearestEven_1. unfold Qeq. cbn. lia.
    - rewrite nearestEven_1.
      assert (Hp : (0 < 2 ^ (- e))%Z) by (apply Z.pow_pos_nonneg; lia).
      unfold Qeq. cbn [Qnum Qden inject_Z Qmult].
      rewrite Pos.mul_1_l, Z2Pos.id by exact Hp. lia. }
  destruct z as [|n|n]; [reflexivity| |]; apply H; lia.
Qed.

Lemma round_integer (x : Q) (z : Z) :
  x == inject_Z z -> (Z.abs z < 2 ^ 53)%Z -> Binary64.round x == x.
Proof.
  intros Hx Hz. rewrite (round_compat x (inject_Z z) Hx), Hx.
  apply round_small_integer. exact Hz.
Qed.

Lemma isInteger_spec (x : Q) :
  Binary64.isInteger x = true -> x == inject_Z (Qfloor x).
Proof. unfold Binary64.isInteger. apply Qeq_bool_eq. Qed.

(** The sum and the difference of two whole numbers are exact when the
    result is below [2^53] in absolute value. *)
Lemma add_exact (a b : Q) (za zb : Z) :
  a == inject_Z za -> b == inject_Z zb -> (Z.abs (za + zb) < 2 ^ 53)%Z ->
  Binary64.add a b == a + b.
Proof.
  intros Ha Hb Hz. unfold Binary64.add.
  apply (round_integer _ (za + zb)); [|exact Hz].
  rewrite Ha, Hb, inject_Z_plus. reflexivity.
Qed.

Lemma sub_exact (a b : Q) (za zb : Z) :
  a == inject_Z za -> b == inject_Z zb -> (Z.abs (za - zb) < 2 ^ 53)%Z ->
  Binary64.sub a b == a - b.
Proof.
  intros Ha Hb Hz. unfold Binary64.sub.
  apply (round_integer _ (za - zb)); [|exact Hz].
  rewrite Ha, Hb. unfold Z.sub. rewrite inject_Z_plus, inject_Z_opp.
  reflexivity.
Qed.

Lemma magnitude_nonneg (values : list Q) :
  (0 <= Binary64.magnitude values)%Z.
Proof.
  unfold Binary64.magnitude. induction values as [|v values IH]; cbn; lia.
Qed.

Lemma magnitude_cons (v : Q) (values : list Q) :
  Binary64.magnitude (v :: values)
  = (Z.abs (Qfloor v) + Binary64.magnitude values)%Z.
Proof. reflexivity. Qed.

Lemma exact_cons (v : Q) (values : list Q) :
  Binary64.exact (v :: values) = true ->
  v == inject_Z (Qfloor v)
  /\ forallb Binary64.isInteger values = true
  /\ (Z.abs (Qfloor v) + Binary64.magnitude values < 2 ^ 53)%Z.
Proof.
  unfold Binary64.exact. cbn [forallb]. rewrite magnitude_cons.
  rewrite !andb_true_iff, Z.ltb_lt.
  intros [[Hv Hall] Hm]. split; [apply isInteger_spec; exact Hv|].
  split; assumption.
Qed.

Lemma exact_Permutation (xs ys : list Q) :
  Permutation xs ys -> Binary64.exact xs = Binary64.exact ys.
Proof.
  intros HP. unfold Binary64.exact. f_equal.
  - induction HP as [|x xs ys _ IH|x y xs|xs ys zs _ IH1 _ IH2]; cbn.
    + reflexivity.
    + rewrite IH. reflexivity.
    + destruct (Binary64.isInteger x), (Binary64.isInteger y); reflexivity.
    + congruence.
  - f_equal. unfold Binary64.magnitude.
    induction HP as [|x xs ys _ IH|x y xs|xs ys zs _ IH1 _ IH2]; cbn; lia.
Qed.

Lemma filter_Permutation {A} (p : A -> bool) (xs ys : list A) :
  Permutation xs ys -> Permutation (filter p xs) (filter p ys).
Proof.
  induction 1 as [|x xs ys _ IH|x y xs|xs ys zs _ IH1 _ IH2]; cbn.
  - constructor.
  - destruct (p x); [constructor|]; exact IH.
  - destruct (p x), (p y); try reflexivity. constructor.
  - etransitivity; eassumption.
Qed.

Lemma operands_Permutation (A : Account.t) (T T' : list Transaction.t) :
  Permutation T T' -> Permutation (operands A T) (operands A T').
Proof.
  intros HP. unfold operands. constructor. apply Permutation_map.
  apply filter_Permutation. exact HP.
Qed.

(** On whole numbers that stay below [2^53] no step of the loop rounds:
    the engine's running balance is the exact one. *)
Lemma rounded_fold_exact (L : list Transaction.t) (b : Q) (zb : Z) :
  b == inject_Z zb ->
  forallb Binary64.isInteger (map Transaction.amount L) = true ->
  (Z.abs zb + Binary64.magnitude (map Transaction.amount L) < 2 ^ 53)%Z ->
  fold_left
    (fun balance t =>
       match Transaction.type t with
       | INCOME => Binary64.add balance (Transaction.amount t)
       | EXPENSE => Binary64.sub balance (Transaction.amount t)
       end) L b
  == fold_left
       (fun balance t =>
          match Transaction.type t with
          | INCOME => balance + Transaction.amount t
          | EXPENSE => balance - Transaction.amount t
          end) L b.
Proof.
  revert b zb. induction L as [|t L IH]; intros b zb Hb Hall Hm.
  - reflexivity.
  - cbn [map forallb] in Hall, Hm. rewrite magnitude_cons in Hm.
    apply andb_true_iff in Hall. destruct Hall as [Ht Hall].
    apply isInteger_spec in Ht.
    pose proof (magnitude_nonneg (map Transaction.amount L)) as Hnn.
    set (za := Qfloor (Transaction.amount t)) in *.
    assert (compat : forall x y, x == y ->
              fold_left
                (fun balance t =>
                   match Transaction.type t with
                   | INCOME => balance + Transaction.amount t
                   | EXPENSE => balance - Transaction.amount t
                   end) L x
              == fold_left
                   (fun balance t =>
                      match Transaction.type t with
                      | INCOME => balance + Transaction.amount t
                      | EXPENSE => balance - Transaction.amount t
                      end) L y).
    { clear. induction L as [|u L IHL]; intros x y Hxy; cbn; [exact Hxy|].
      apply IHL. destruct (Transaction.type u); rewrite Hxy; reflexivity. }
    cbn. destruct (Transaction.type t).
    + assert (Hs : Binary64.add b (Transaction.amount t)
                   == b + Transaction.amount t).
      { apply (add_exact _ _ zb za Hb Ht). lia. }
      rewrite (IH _ (zb + za)%Z); [apply compat; exact Hs|
        rewrite Hs, Hb, Ht, inject_Z_plus; reflexivity|exact Hall|lia].
    + assert (Hs : Binary64.sub b (Transaction.amount t)
                   == b - Transaction.amount t).
      { apply (sub_exact _ _ zb za Hb Ht). lia. }
      rewrite (IH _ (zb - za)%Z); [apply compat; exact Hs| |exact Hall|lia].
      rewrite Hs, Hb, Ht. unfold Z.sub.
      rewrite inject_Z_plus, inject_Z_opp. reflexivity.
Qed.

(** Likewise a running total, as [reduce((sum, x) => sum + x, 0)]
    computes it. *)
Lemma rounded_sum_exact (xs : list Q) (b : Q) (zb : Z) :
  b == inject_Z zb ->
  forallb Binary64.isInteger xs = true ->
  (Z.abs zb + Binary64.magnitude xs < 2 ^ 53)%Z ->
  fold_left Binary64.add xs b == b + Qsum xs.
Proof.
  revert b zb. induction xs as [|x xs IH]; intros b zb Hb Hall Hm.
  - cbn. lra.
  - cbn [forallb] in Hall. rewrite magnitude_cons in Hm.
    apply andb_true_iff in Hall. destruct Hall as [Hx Hall].
    apply isInteger_spec in Hx.
    pose proof (magnitude_nonneg xs) as Hnn.
    set (zx := Qfloor x) in *.
    assert (Hs : Binary64.add b x == b + x).
    { apply (add_exact _ _ zb zx Hb Hx). lia. }
    cbn. rewrite (IH _ (zb + zx)%Z); [rewrite Hs; lra| |exact Hall|lia].
    rewrite Hs, Hb, Hx, inject_Z_plus. reflexivity.
Qed.

Lemma rounded_accountBalance_exact (A : Account.t) (T : list Transaction.t) :
  Binary64.exact (operands A T) = true ->
  Rounded.accountBalance A T == accountBalance A T.
Proof.
  intros H. apply exact_cons in H. destruct H as (Hb & Hall & Hm).
  unfold Rounded.accountBalance, accountBalance.
  apply (rounded_fold_exact _ _ _ Hb Hall Hm).
Qed.

(** C4, as the code has it: when the initial balance of an account and
    the amounts of the transactions on it are whole numbers whose absolute
    values add up to less than [2^53], so that no addition of the loop
    rounds, the derived balance of the account is its initial balance plus
    the sum of the amounts of the INCOME transactions on the account minus
    the sum of the amounts of the EXPENSE transactions on it, and is the
    same for every reordering of the transactions.  The table of balances
    holds, under an id other than [__proto__], the balance so derived of
    the last account of that id, and nothing under [__proto__]. *)
Theorem accountBalance_is_signed_sum
  (accounts : list Account.t) (A : Account.t) (T T' : list Transaction.t) :
  Permutation T T' ->
  Binary64.exact (operands A T) = true ->
  Rounded.accountBalance A T
  == Account.initialBalance A + sumOn INCOME A T - sumOn EXPENSE A T
  /\ Rounded.accountBalance A T' == Rounded.accountBalance A T
  /\ (forall k,
        lookup (Rounded.accountBalances accounts T) k
        = if (k =? "__proto__")%string then None
          else option_map (fun a => Rounded.accountBalance a T)
                 (find (fun a => (Account.id a =? k)%string) (rev accounts))).
Proof.
  intros HP HT.
  assert (HT' : Binary64.exact (operands A T') = true).
  { rewrite <- (exact_Permutation _ _ (operands_Permutation A T T' HP)).
    exact HT. }
  split; [|split].
  - rewrite (rounded_accountBalance_exact A T HT). apply running_balance.
  - rewrite (rounded_accountBalance_exact A T HT),
      (rounded_accountBalance_exact A T' HT').
    apply accountBalance_Permutation. exact HP.
  - intros k. apply table_lookup.
Qed.

Lemma accountBalance_is_signed_sum_witness :
  Permutation Sample.ledger (rev Sample.ledger)
  /\ Binary64.exact (operands Sample.checking Sample.ledger) = true
  /\ Rounded.accountBalance Sample.checking (rev Sample.ledger) == 1175
  /\ lookup (Rounded.accountBalances [Sample.checking] Sample.ledger) "a1"
     = Some (Rounded.accountBalance Sample.checking Sample.ledger).
Proof.
  assert (HP : Permutation Sample.ledger (rev Sample.ledger)).
  { apply Permutation_rev. }
  assert (HT : Binary64.exact (operands Sample.checking Sample.ledger) = true).
  { reflexivity. }
  split; [exact HP|]. split; [exact HT|].
  destruct (accountBalance_is_signed_sum [Sample.checking] Sample.checking
              Sample.ledger (rev Sample.ledger) HP HT)
    as (Hsum & Hperm & Htable).
  split.
  - rewrite Hperm, Hsum. vm_compute. reflexivity.
  - rewrite Htable. reflexivity.
Defined.

(** C4, as stated, fails on amounts that are not whole: takings of 0.1,
    0.2 and 0.3 on an empty account give 0.6000000000000001 in that order
    and 0.6 in the reverse order, and the first is not the sum of the
    three amounts. *)
Lemma accountBalance_depends_on_the_order :
  Permutation Sample.takings (rev Sample.takings)
  /\ ~ Rounded.accountBalance Sample.till (rev Sample.takings)
       == Rounded.accountBalance Sample.till Sample.takings
  /\ ~ Rounded.accountBalance Sample.till Sample.takings
       == Account.initialBalance Sample.till
          + sumOn INCOME Sample.till Sample.takings
          - sumOn EXPENSE Sample.till Sample.takings.
Proof.
  split; [apply Permutation_rev|]. split; vm_compute; discriminate.
Qed.
End AccountBalance.

(** ** Dashboard metrics *)

Lemma summary_nil :
  Dashboard.summary [] = {| Dashboard.income := 0; Dashboard.expense := 0 |}.
Proof. reflexivity. Qed.

(** C5, as the code has it: with income 0 and expense 0 the gross margin
    is 0 and the breakeven progress is 0; with income 0 and expense 100
    the gross margin is 0, the breakeven progress 0 and the gap to
    breakeven 100; with income 100 and expense 0 the gross margin is 100,
    the breakeven progress 100 and the gap 0. *)
Theorem performanceMetrics_boundaries :
  let metrics income expense :=
    Dashboard.performanceMetrics
      {| Dashboard.income := income; Dashboard.expense := expense |} in
  (Dashboard.grossMargin (metrics 0 0) == 0
   /\ Dashboard.breakevenProgress (metrics 0 0) == 0)
  /\ (Dashboard.grossMargin (metrics 0 100) == 0
      /\ Dashboard.breakevenProgress (metrics 0 100) == 0
      /\ Dashboard.gapToBreakeven (metrics 0 100) == 100)
  /\ (Dashboard.grossMargin (metrics 100 0) == 100
      /\ Dashboard.breakevenProgress (metrics 100 0) == 100
      /\ Dashboard.gapToBreakeven (metrics 100 0) == 0).
Proof. cbv zeta. repeat split; vm_compute; reflexivity. Qed.

(** C5, as stated, fails at income 0 and expense 0: the breakeven
    progress there is not 100. *)
Lemma breakevenProgress_without_activity_is_not_100 :
  ~ Dashboard.breakevenProgress
      (Dashboard.performanceMetrics
         {| Dashboard.income := 0; Dashboard.expense := 0 |})
    == 100.
Proof. vm_compute. discriminate. Qed.

(** ** Debt summary *)

Lemma fold_left_Qsum {A} (f : A -> Q) (xs : list A) (start : Q) :
  fold_left (fun sum x => sum + f x) xs start == start + Qsum (map f xs).
Proof.
  revert start. induction xs as [|x xs IH]; intros start; cbn.
  - lra.
  - rewrite IH. lra.
Qed.

Lemma gt_iff (a b : Q) : gt a b = true <-> b < a.
Proof.
  unfold gt. rewrite negb_true_iff, <- not_true_iff_false, Qle_bool_iff.
  split; [apply Qnot_le_lt|apply Qlt_not_le].
Qed.

Lemma amountDue_is_dueSoonShare (l : Liability.t) :
  Dashboard.amountDue l = dueSoonShare l.
Proof.
  unfold Dashboard.amountDue, dueSoonShare, Math.min.
  destruct (Liability.installmentAmount l) as [i|]; [|reflexivity].
  destruct (Qlt_le_dec 0 i) as [H|H].
  - apply gt_iff in H. rewrite H. reflexivity.
  - destruct (gt i 0) eqn:E; [|reflexivity].
    apply gt_iff in E. lra.
Qed.

Section DueSoon.
Variable LocalTZA : Z.
Variable monthStart : Z -> Z.
Variable Date_parse : string -> option Z.
Variable clock : Z.

(** Whatever the time zone and the calendar, the threshold is thirty
    days after the instant of evaluation. *)
Lemma thirtyDaysFromNow_is_clock_plus_30_days :
  Dashboard.thirtyDaysFromNow LocalTZA monthStart clock
  = (clock + 30 * JSDate.msPerDay)%Z.
Proof.
  unfold Dashboard.thirtyDaysFromNow, JSDate.setDate, JSDate.getDate,
    JSDate.setHoursZero, JSDate.UTC, JSDate.LocalTime.
  replace (JSDate.Day (JSDate.Day (clock + LocalTZA) * JSDate.msPerDay
                       - LocalTZA + LocalTZA))
    with (JSDate.Day (clock + LocalTZA)).
  2:{ replace (JSDate.Day (clock + LocalTZA) * JSDate.msPerDay
               - LocalTZA + LocalTZA)%Z
        with (JSDate.Day (clock + LocalTZA) * JSDate.msPerDay)%Z by lia.
      generalize (JSDate.Day (clock + LocalTZA)). intros day.
      unfold JSDate.Day. rewrite Z.div_mul; [reflexivity|discriminate]. }
  unfold JSDate.Day, JSDate.TimeWithinDay.
  pose proof (Z.div_mod (clock + LocalTZA) JSDate.msPerDay) as H.
  assert (Hm : JSDate.msPerDay <> 0%Z) by discriminate.
  specialize (H Hm). lia.
Qed.

Lemma stats_thirtyDaysFromNow :
  JSDate.setDate LocalTZA monthStart clock
    (JSDate.getDate LocalTZA monthStart clock + 30)
  = (clock + 30 * JSDate.msPerDay)%Z.
Proof.
  unfold JSDate.setDate, JSDate.getDate, JSDate.UTC, JSDate.LocalTime,
    JSDate.Day, JSDate.TimeWithinDay.
  pose proof (Z.div_mod (clock + LocalTZA) JSDate.msPerDay) as H.
  assert (Hm : JSDate.msPerDay <> 0%Z) by discriminate.
  specialize (H Hm). lia.
Qed.

Lemma dateOnly_within (d : Z) :
  (JSDate.dateOnly d <= clock + 30 * JSDate.msPerDay
   <-> d <= JSDate.Day clock + 30)%Z.
Proof.
  unfold JSDate.dateOnly, JSDate.Day, JSDate.msPerDay.
  pose proof (Z.div_mod clock 86400000 ltac:(discriminate)) as H.
  pose proof (Z.mod_pos_bound clock 86400000 ltac:(reflexivity)) as B.
  lia.
Qed.

Lemma dueWithin_balance (threshold : Z) (l : Liability.t) :
  dueWithin Date_parse threshold l = true -> 0 < Liability.currentBalance l.
Proof.
  unfold dueWithin. destruct (Liability.dueDate l) as [s|]; [|discriminate].
  destruct (truthy_string s); cbn; [|discriminate].
  destruct (le (Liability.currentBalance l) 0) eqn:E; [discriminate|].
  intros _. unfold le in E.
  apply not_true_iff_false in E. rewrite Qle_bool_iff in E.
  apply Qnot_le_lt. exact E.
Qed.

Lemma dueWithin_dateOnly (threshold : Z) (l : Liability.t) (s : string)
  (due : Z) :
  Liability.dueDate l = Some s -> s <> "" -> Date_parse s = Some due ->
  0 < Liability.currentBalance l ->
  dueWithin Date_parse threshold l = (due <=? threshold)%Z.
Proof.
  intros Hs Hne Hp Hb. unfold dueWithin. rewrite Hs.
  destruct (truthy_string s) eqn:E.
  2:{ apply truthy_string_false in E. contradiction. }
  cbn. destruct (le (Liability.currentBalance l) 0) eqn:E0.
  { unfold le in E0. apply Qle_bool_iff in E0. lra. }
  rewrite Hp. reflexivity.
Qed.

(** In the debt summary evaluated at an instant, in a zone whose offset
    does not change over the thirty days, no liability with a
    balance of zero or less is upcoming, whatever its due date; a
    liability of positive balance with a date-only due date is upcoming
    exactly when that date is at most thirty days after the day of the
    evaluation, so one due thirty days after is included and one due
    thirty-one days after is not; the total due soon is the sum over the
    upcoming liabilities of [min(installmentAmount, currentBalance)] when
    [installmentAmount > 0] and of [currentBalance] otherwise; and the
    count of [LiabilityManager] is the number of upcoming liabilities.
    The day of the evaluation is the UTC day of the instant, a date-only
    string being read as midnight UTC. *)
Theorem debtSummary_due_soon
  (liabilities : list Liability.t) (l : Liability.t) (s : string) (d : Z) :
  In l liabilities ->
  0 < Liability.currentBalance l ->
  Liability.dueDate l = Some s -> s <> "" ->
  Date_parse s = Some (JSDate.dateOnly d) ->
  let today := JSDate.Day clock in
  let debt :=
    Dashboard.debtSummary LocalTZA monthStart Date_parse clock liabilities in
  Forall (fun x => 0 < Liability.currentBalance x) (Dashboard.upcoming debt)
  /\ (In l (Dashboard.upcoming debt) <-> (d <= today + 30)%Z)
  /\ (d = (today + 30)%Z -> In l (Dashboard.upcoming debt))
  /\ (d = (today + 31)%Z -> ~ In l (Dashboard.upcoming debt))
  /\ Dashboard.totalAmountDueSoon debt
     == Qsum (map dueSoonShare (Dashboard.upcoming debt))
  /\ LiabilityManager.dueSoonCount
       (LiabilityManager.stats LocalTZA monthStart Date_parse clock liabilities)
     = List.length (Dashboard.upcoming debt).
Proof.
  intros Hin Hb Hs Hne Hp. cbv zeta.
  unfold Dashboard.debtSummary, LiabilityManager.stats. cbn.
  rewrite stats_thirtyDaysFromNow, thirtyDaysFromNow_is_clock_plus_30_days.
  assert (Hiff :
    In l (filter (dueWithin Date_parse (clock + 30 * JSDate.msPerDay)%Z)
            liabilities)
    <-> (d <= JSDate.Day clock + 30)%Z).
  { rewrite filter_In, (dueWithin_dateOnly _ l s _ Hs Hne Hp Hb).
    rewrite Z.leb_le, dateOnly_within. tauto. }
  split; [|split; [exact Hiff|split; [|split; [|split]]]].
  - apply Forall_forall. intros x Hx. apply filter_In in Hx.
    apply (dueWithin_balance _ x (proj2 Hx)).
  - intros ->. apply Hiff. lia.
  - intros -> H. apply Hiff in H. lia.
  - rewrite fold_left_Qsum.
    rewrite (map_ext _ _ amountDue_is_dueSoonShare). lra.
  - reflexivity.
Qed.
End DueSoon.

(** C6, on the code: counted from the local calendar day, which is the
    day [now.setHours(0, 0, 0, 0)] and [now.getDate()] read, the boundary
    moves with the time zone.  Eight hours west of UTC, at 20:00 local
    time on 1970-01-01, a liability of positive balance due 1970-02-01,
    thirty-one days after, is upcoming and is counted by
    [LiabilityManager]; twelve hours east of UTC, at 01:00 local time on
    1970-01-02, the same liability, due thirty days after, is not
    upcoming.  At UTC it is upcoming on 1970-01-02 and not on
    1970-01-01. *)
Theorem debtSummary_boundary_moves_with_the_zone :
  let hour := 3600000%Z in
  let due := Liability.dueDate Sample.lateLoan in
  let upcoming LocalTZA clock :=
    Dashboard.upcoming
      (Dashboard.debtSummary LocalTZA Sample.monthStart Sample.Date_parse
         clock [Sample.lateLoan]) in
  let dueSoonCount LocalTZA clock :=
    LiabilityManager.dueSoonCount
      (LiabilityManager.stats LocalTZA Sample.monthStart Sample.Date_parse
         clock [Sample.lateLoan]) in
  0 < Liability.currentBalance Sample.lateLoan
  /\ option_map Sample.Date_parse due = Some (Some (JSDate.dateOnly 31))
  /\ (let west := (- 8 * hour)%Z in
      let evening := (28 * hour)%Z in
      JSDate.localDay west evening = 0%Z
      /\ JSDate.TimeWithinDay (JSDate.LocalTime west evening) = (20 * hour)%Z
      /\ upcoming west evening = [Sample.lateLoan]
      /\ dueSoonCount west evening = 1%nat)
  /\ (let east := (12 * hour)%Z in
      let night := (13 * hour)%Z in
      JSDate.localDay east night = 1%Z
      /\ JSDate.TimeWithinDay (JSDate.LocalTime east night) = (1 * hour)%Z
      /\ upcoming east night = []
      /\ dueSoonCount east night = 0%nat)
  /\ (upcoming 0%Z (24 * hour)%Z = [Sample.lateLoan]
      /\ upcoming 0%Z (23 * hour)%Z = []).
Proof. cbv zeta. repeat split. Qed.

Lemma debtSummary_due_soon_witness :
  In Sample.loan [Sample.loan; Sample.lateLoan]
  /\ 0 < Liability.currentBalance Sample.loan
  /\ Sample.Date_parse "1970-01-31" = Some (JSDate.dateOnly 30)
  /\ In Sample.loan
       (Dashboard.upcoming
          (Dashboard.debtSummary 0%Z Sample.monthStart Sample.Date_parse
             Sample.noon [Sample.loan; Sample.lateLoan])).
Proof.
  assert (Hin : In Sample.loan [Sample.loan; Sample.lateLoan])
    by (left; reflexivity).
  assert (Hb : 0 < Liability.currentBalance Sample.loan) by reflexivity.
  assert (Hp : Sample.Date_parse "1970-01-31" = Some (JSDate.dateOnly 30))
    by reflexivity.
  assert (Hne : "1970-01-31" <> "") by discriminate.
  repeat (split; [assumption|]).
  apply (debtSummary_due_soon 0%Z Sample.monthStart Sample.Date_parse
           Sample.noon [Sample.loan; Sample.lateLoan] Sample.loan
           "1970-01-31" 30%Z Hin Hb eq_refl Hne Hp).
  reflexivity.
Defined.

(** ** Debounced push *)

Section Debounce.
Import Sync.

Lemma last_cons_default {A} (xs : list A) (x d : A) :
  last (x :: xs) d = last xs x.
Proof.
  revert x d. induction xs as [|y xs IH]; intros x d; [reflexivity|].
  change (last (x :: y :: xs) d) with (last (y :: xs) d).
  rewrite !IH. reflexivity.
Qed.

Lemma step_from_rest (u : User) (w : World) (t : Z) (d : FarmData.t) :
  user w = Some u -> timeouts w = [] ->
  armed u t d (pushes w) (step (t, SetData d) w).
Proof.
  destruct w as [usr dat ref cl tos nid sent]. cbn. intros -> ->.
  unfold step, runEffect, armed; cbn.
  rewrite app_nil_r.
  destruct cl; cbn; destruct ref; cbn; repeat split; eauto.
Qed.

Lemma step_rearms (u : User) (w : World) (t0 t : Z) (d0 d : FarmData.t)
  (sent : list PushCall) :
  armed u t0 d0 sent w ->
  (t0 <= t < t0 + quiescence)%Z ->
  armed u t d sent (step (t, SetData d) w).
Proof.
  destruct w as [usr dat ref cl tos nid sent0]. unfold armed; cbn.
  intros (-> & -> & -> & -> & id & -> & ->) Ht.
  unfold step, runEffect, fire, expired; cbn.
  assert (E : (t0 + quiescence <=? t)%Z = false) by (apply Z.leb_gt; lia).
  rewrite E; cbn. rewrite Pos.eqb_refl; cbn. rewrite app_nil_r.
  repeat split. eauto.
Qed.

Lemma run_rearms (u : User) (sent : list PushCall)
  (ms : list (Z * FarmData.t)) :
  forall (w : World) (t0 : Z) (d0 : FarmData.t),
    armed u t0 d0 sent w ->
    chained t0 ms ->
    armed u (fst (last ms (t0, d0))) (snd (last ms (t0, d0))) sent
      (run (mutations ms) w).
Proof.
  induction ms as [|m ms IH]; intros w t0 d0 Hw Hc.
  - exact Hw.
  - destruct Hc as (H1 & H2 & Hc). destruct m as [t d].
    change (run (mutations ((t, d) :: ms)) w)
      with (run (mutations ms) (step (t, SetData d) w)).
    replace (last ((t, d) :: ms) (t0, d0)) with (last ms (t, d)).
    + apply IH; [|exact Hc].
      apply (step_rearms u w t0 t d0 d sent Hw). cbn in H1, H2. lia.
    + symmetry. apply last_cons_default.
Qed.

Lemma armed_fires_once (u : User) (w : World) (t T : Z) (d : FarmData.t)
  (sent : list PushCall) :
  armed u t d sent w ->
  (t + quiescence <= T)%Z ->
  pushes (fire T w)
  = sent ++ [ {| at_ := (t + quiescence)%Z; pushEmail := email u;
                 pushData := d |} ]
  /\ timeouts (fire T w) = [].
Proof.
  destruct w as [usr dat ref cl tos nid sent0]. unfold armed; cbn.
  intros (-> & -> & -> & -> & id & -> & ->) HT.
  unfold expired; cbn.
  assert (E : (t + quiescence <=? T)%Z = true) by (apply Z.leb_le; lia).
  rewrite E. split; reflexivity.
Qed.

Lemma logout_cancels (u : User) (w : World) (t t' T : Z) (d : FarmData.t)
  (sent : list PushCall) :
  armed u t d sent w ->
  (t <= t' < t + quiescence)%Z ->
  pushes (fire T (step (t', SetUser None) w)) = sent
  /\ timeouts (step (t', SetUser None) w) = [].
Proof.
  destruct w as [usr dat ref cl tos nid sent0]. unfold armed; cbn.
  intros (-> & -> & -> & -> & id & -> & ->) Ht.
  unfold step, runEffect, fire, expired; cbn.
  assert (E : (t + quiescence <=? t')%Z = false) by (apply Z.leb_gt; lia).
  rewrite E; cbn. rewrite Pos.eqb_refl; cbn. rewrite !app_nil_r.
  split; reflexivity.
Qed.

(** C7: starting with a user signed in and no push pending, a sequence of
    mutations, each within the 2-second window of the one before, is
    followed by exactly one push, made when the window of the last one
    closes and carrying the snapshot of the last one; signing out inside
    that window cancels the pending push, and none is made afterwards. *)
Theorem debounced_push_fires_once
  (u : User) (w : World) (first : Z * FarmData.t)
  (rest : list (Z * FarmData.t)) (T : Z) :
  user w = Some u ->
  timeouts w = [] ->
  chained (fst first) rest ->
  (fst (last rest first) + quiescence <= T)%Z ->
  pushes (fire T (run (mutations (first :: rest)) w))
  = pushes w
    ++ [ {| at_ := (fst (last rest first) + quiescence)%Z;
            pushEmail := email u;
            pushData := snd (last rest first) |} ]
  /\ forall t T',
      (fst (last rest first) <= t < fst (last rest first) + quiescence)%Z ->
      pushes
        (fire T' (step (t, SetUser None) (run (mutations (first :: rest)) w)))
      = pushes w.
Proof.
  intros Hu Hq Hc HT. destruct first as [t1 d1].
  change (run (mutations ((t1, d1) :: rest)) w)
    with (run (mutations rest) (step (t1, SetData d1) w)).
  pose proof (step_from_rest u w t1 d1 Hu Hq) as H1.
  pose proof (run_rearms u (pushes w) rest _ t1 d1 H1 Hc) as HN.
  split.
  - apply (armed_fires_once u _ _ T _ _ HN HT).
  - intros t T' Ht. apply (logout_cancels u _ _ t T' _ _ HN Ht).
Qed.
End Debounce.

Lemma debounced_push_fires_once_witness :
  Sync.chained 0 [(500%Z, Sample.herd); (1900%Z, Sample.stock)]
  /\ Sync.pushes
       (Sync.fire 5000
          (Sync.run
             (Sync.mutations
                [(0%Z, Sample.debts); (500%Z, Sample.herd);
                 (1900%Z, Sample.stock)])
             Sample.atRest))
     = [ {| Sync.at_ := 3900; Sync.pushEmail := "ada@farm.example";
            Sync.pushData := Sample.stock |} ].
Proof.
  assert (Hc : Sync.chained 0 [(500%Z, Sample.herd); (1900%Z, Sample.stock)]).
  { cbn. unfold Sync.quiescence. lia. }
  split; [exact Hc|].
  assert (HT : (fst (last [(500%Z, Sample.herd); (1900%Z, Sample.stock)]
                       (0%Z, Sample.debts))
                + Sync.quiescence <= 5000)%Z).
  { cbn. unfold Sync.quiescence. lia. }
  destruct (debounced_push_fires_once Sample.farmer Sample.atRest
              (0%Z, Sample.debts)
              [(500%Z, Sample.herd); (1900%Z, Sample.stock)]
              5000%Z eq_refl eq_refl Hc HT) as [H _].
  rewrite H. reflexivity.
Defined.

(** ** Backup and restore *)

(** C9, on the code: a backup file whose value has no [transactions] or
    no [categories], or a falsy one, is rejected before any mutation: the
    snapshot is the one before, whatever the answer to the confirmation,
    and the message "Invalid backup file format." (the engine's
    [TypeError] message when the file is [null]) is stored in
    [importError].  Nothing shows it: no dialog is opened, and the Restore
    Backup card is what it was. *)
Theorem handleImport_rejects_incomplete_backup
  (TypeError_message : string) (data d : Json.t) (confirm : bool)
  (st : Settings.State) :
  Json.truthy (Json.own d "transactions") = false
  \/ Json.truthy (Json.own d "categories") = false ->
  let result :=
    Settings.handleImport TypeError_message data
      (Some (Settings.Parsed d)) confirm st in
  snd result = data
  /\ Settings.importError (fst result)
     = Some match d with
            | Json.Null => TypeError_message
            | _ => "Invalid backup file format."
            end
  /\ Settings.dialogs TypeError_message (Some (Settings.Parsed d)) confirm = []
  /\ Settings.restoreCard (fst result) = Settings.restoreCard st.
Proof.
  intros H. cbv zeta.
  unfold Settings.handleImport, Settings.dialogs, Settings.tryImport.
  destruct d; cbn in *; try (repeat split; reflexivity).
  destruct H as [H|H]; rewrite H; cbn.
  - repeat split; reflexivity.
  - destruct (Json.truthy (Json.assoc "transactions" fields)); cbn;
      repeat split; reflexivity.
Qed.

Lemma handleImport_rejects_incomplete_backup_witness :
  Json.truthy (Json.own Sample.noCategories "categories") = false
  /\ Settings.handleImport "TypeError" (ToJSON.farmData Sample.herd)
       (Some (Settings.Parsed Sample.noCategories)) true
       {| Settings.importError := None; Settings.isImporting := false |}
     = ({| Settings.importError := Some "Invalid backup file format.";
           Settings.isImporting := false |},
        ToJSON.farmData Sample.herd)
  /\ Settings.dialogs "TypeError"
       (Some (Settings.Parsed Sample.noCategories)) true
     = [].
Proof.
  assert (H : Json.truthy (Json.own Sample.noCategories "transactions") = false
              \/ Json.truthy (Json.own Sample.noCategories "categories")
                 = false) by (right; reflexivity).
  split; [reflexivity|].
  destruct (handleImport_rejects_incomplete_backup "TypeError"
              (ToJSON.farmData Sample.herd) Sample.noCategories true
              {| Settings.importError := None; Settings.isImporting := false |}
              H) as (Hdata & Herr & Hdialogs & _).
  split; [|exact Hdialogs].
  destruct (Settings.handleImport "TypeError" (ToJSON.farmData Sample.herd)
              (Some (Settings.Parsed Sample.noCategories)) true
              {| Settings.importError := None; Settings.isImporting := false |})
    as [[err importing] state] eqn:E.
  cbn in Hdata, Herr. subst state err.
  vm_compute in E. injection E as <-. reflexivity.
Defined.

(** An unparsable file is rejected as well. *)
Lemma handleImport_rejects_unparsable
  (TypeError_message message : string) (data : Json.t) (confirm : bool)
  (st : Settings.State) :
  Settings.handleImport TypeError_message data
    (Some (Settings.Unparsable message)) confirm st
  = ({| Settings.importError := Some message;
        Settings.isImporting := false |}, data).
Proof. reflexivity. Qed.



(** * Further properties of the code *)

(** ** Transactions *)

Lemma filter_other_ids {A} (id : A -> string) (k : string) (xs : list A) :
  ~ In k (map id xs) ->
  filter (fun x => negb (id x =? k)%string) xs = xs.
Proof.
  induction xs as [|x xs IH]; cbn; intros H; [reflexivity|].
  destruct (id x =? k)%string eqn:E.
  - apply String.eqb_eq in E. exfalso. apply H. left. exact E.
  - cbn. rewrite IH; [reflexivity|]. intros Hin. apply H. right. exact Hin.
Qed.

Lemma replace_other_ids {A} (id : A -> string) (y : A) (xs : list A) :
  ~ In (id y) (map id xs) ->
  map (fun x => if (id x =? id y)%string then y else x) xs = xs.
Proof.
  induction xs as [|x xs IH]; cbn; intros H; [reflexivity|].
  destruct (id x =? id y)%string eqn:E.
  - apply String.eqb_eq in E. exfalso. apply H. left. exact E.
  - rewrite IH; [reflexivity|]. intros Hin. apply H. right. exact Hin.
Qed.

Lemma replace_keeps_ids {A} (id : A -> string) (y : A) (xs : list A) :
  map id (map (fun x => if (id x =? id y)%string then y else x) xs)
  = map id xs.
Proof.
  induction xs as [|x xs IH]; cbn; [reflexivity|].
  rewrite IH. destruct (id x =? id y)%string eqn:E; [|reflexivity].
  apply String.eqb_eq in E. rewrite E. reflexivity.
Qed.

(** X1: deleting a transaction just added, under an id no other
    transaction has, gives back the transactions as they were. *)
Theorem delete_after_add_restores
  (data : FarmData.t) (uuid : string) (t : NewTransaction.t) :
  ~ In uuid (map Transaction.id (FarmData.transactions data)) ->
  let added := App.handleAddTransaction data uuid t data in
  FarmData.transactions (App.handleDeleteTransaction added uuid added)
  = FarmData.transactions data.
Proof.
  intros Hfresh. cbn. rewrite filter_app. cbn. rewrite String.eqb_refl. cbn.
  rewrite app_nil_r. apply (filter_other_ids Transaction.id). exact Hfresh.
Qed.

Lemma delete_after_add_restores_witness :
  ~ In "t9" (map Transaction.id (FarmData.transactions Sample.books))
  /\ FarmData.transactions
       (App.handleDeleteTransaction
          (App.handleAddTransaction Sample.books "t9" Sample.hay Sample.books)
          "t9"
          (App.handleAddTransaction Sample.books "t9" Sample.hay Sample.books))
     = Sample.ledger.
Proof.
  assert (Hfresh :
    ~ In "t9" (map Transaction.id (FarmData.transactions Sample.books))).
  { cbn. intros [H|[H|[H|[]]]]; discriminate H. }
  split; [exact Hfresh|].
  apply (delete_after_add_restores Sample.books "t9" Sample.hay Hfresh).
Defined.

(** X2: updating a transaction keeps the ids of the transactions, in
    order; every transaction of the id updated becomes the new one, and
    an update under an id no transaction has changes nothing. *)
Theorem update_keeps_ids_and_order
  (data prev : FarmData.t) (t : Transaction.t) :
  let next := App.handleUpdateTransaction data t prev in
  map Transaction.id (FarmData.transactions next)
  = map Transaction.id (FarmData.transactions data)
  /\ Forall (fun x => Transaction.id x = Transaction.id t -> x = t)
       (FarmData.transactions next)
  /\ (~ In (Transaction.id t) (map Transaction.id (FarmData.transactions data))
      -> FarmData.transactions next = FarmData.transactions data).
Proof.
  cbn. split; [apply (replace_keeps_ids Transaction.id)|]. split.
  - apply Forall_forall. intros x Hin Hid. apply in_map_iff in Hin.
    destruct Hin as (x0 & Hx & _).
    destruct (Transaction.id x0 =? Transaction.id t)%string eqn:E.
    + symmetry. exact Hx.
    + subst x0. apply String.eqb_neq in E. contradiction.
  - apply (replace_other_ids Transaction.id).
Qed.

(** X3: of two updaters made in one render for the same collection the
    later replaces the earlier: two transactions added from one render
    leave the second alone.  Updaters for different collections both
    apply, and [handleRecordAnimalLog], which works on the state it is
    given, keeps both logs. *)
Theorem updaters_of_one_render
  (data prev : FarmData.t) (u1 u2 : string) (t1 t2 : NewTransaction.t)
  (l : Liability.t) (g1 g2 : NewAnimalLog.t) :
  FarmData.transactions
    (App.handleAddTransaction data u2 t2
       (App.handleAddTransaction data u1 t1 prev))
  = FarmData.transactions data ++ [NewTransaction.withId t2 u2]
  /\ (let next :=
        App.handleAddTransaction data u1 t1 (App.onUpdateLiability data l prev)
      in
      FarmData.transactions next
      = FarmData.transactions data ++ [NewTransaction.withId t1 u1]
      /\ FarmData.liabilities next
         = FarmData.liabilities
             (App.onUpdateLiability data l prev))
  /\ FarmData.animalLogs
       (App.handleRecordAnimalLog u2 g2 (App.handleRecordAnimalLog u1 g1 prev))
     = FarmData.animalLogs prev
       ++ [NewAnimalLog.withId g1 u1; NewAnimalLog.withId g2 u2].
Proof.
  split; [reflexivity|]. split; [split; reflexivity|].
  cbn. rewrite <- app_assoc. reflexivity.
Qed.

(** ** Series of animal logs *)

Lemma withCount_same (s : AnimalSpecies.t) :
  AnimalSpecies.withCount s (AnimalSpecies.count s) = s.
Proof. destruct s; reflexivity. Qed.

Lemma handleRecordAnimalLog_species
  (uuid : string) (l : NewAnimalLog.t) (prev : FarmData.t) :
  FarmData.animalSpecies (App.handleRecordAnimalLog uuid l prev)
  = map (fun s =>
           if (AnimalSpecies.id s =? NewAnimalLog.speciesId l)%string
           then AnimalSpecies.withCount s
                  (populationAfter (NewAnimalLog.type l)
                     (AnimalSpecies.count s) (NewAnimalLog.quantity l))
           else s)
        (FarmData.animalSpecies prev).
Proof.
  unfold App.handleRecordAnimalLog, populationAfter, Math.max; cbn.
  destruct (NewAnimalLog.type l); reflexivity.
Qed.

(** X4: logs recorded one after the other are all appended, in order, and
    leave every species with the running total of the logs that name it,
    clamped at zero at each of them. *)
Theorem recordAll_is_clamped_running_total
  (logs : list (string * NewAnimalLog.t)) (prev : FarmData.t) :
  FarmData.animalLogs (recordAll logs prev)
  = FarmData.animalLogs prev
    ++ map (fun ul => NewAnimalLog.withId (snd ul) (fst ul)) logs
  /\ FarmData.animalSpecies (recordAll logs prev)
     = map (fun s =>
              AnimalSpecies.withCount s
                (countAfter (AnimalSpecies.id s) logs (AnimalSpecies.count s)))
           (FarmData.animalSpecies prev).
Proof.
  revert prev. induction logs as [|[u l] logs IH]; intros prev.
  - cbn. rewrite app_nil_r. split; [reflexivity|].
    rewrite (map_ext _ (fun s => s) withCount_same), map_id. reflexivity.
  - change (recordAll ((u, l) :: logs) prev)
      with (recordAll logs (App.handleRecordAnimalLog u l prev)).
    destruct (IH (App.handleRecordAnimalLog u l prev)) as [Hlogs Hsp].
    split.
    + rewrite Hlogs. cbn. rewrite <- app_assoc. reflexivity.
    + rewrite Hsp, handleRecordAnimalLog_species, map_map.
      apply map_ext. intros s. unfold countAfter. cbn.
      destruct (AnimalSpecies.id s =? NewAnimalLog.speciesId l)%string;
        reflexivity.
Qed.

Lemma populationAfter_signed (l : NewAnimalLog.t) (c : Q) :
  populationAfter (NewAnimalLog.type l) c (NewAnimalLog.quantity l)
  == Qmax 0 (c + signedQuantity l).
Proof.
  unfold populationAfter, signedQuantity.
  destruct (NewAnimalLog.type l); reflexivity.
Qed.

(** X5: a count that starts at zero or more never falls below zero over a
    series of logs, and ends at least at the unclamped total, the
    starting count plus the signed quantities of the logs that name the
    species. *)
Theorem countAfter_at_least_net
  (id : string) (logs : list (string * NewAnimalLog.t)) (count : Q) :
  0 <= count ->
  0 <= countAfter id logs count
  /\ Qmax 0 (count + netChange id logs) <= countAfter id logs count.
Proof.
  revert count. unfold countAfter, netChange.
  induction logs as [|[u l] logs IH]; intros count Hc; cbn.
  - split; [exact Hc|]. apply Q.max_lub; lra.
  - destruct (id =? NewAnimalLog.speciesId l)%string; cbn.
    + pose proof (populationAfter_signed l count) as E.
      pose proof (populationAfter_nonneg (NewAnimalLog.type l) count
                    (NewAnimalLog.quantity l)) as H0.
      destruct (IH _ H0) as [IH0 IH1]. split; [exact IH0|].
      eapply Qle_trans; [|exact IH1].
      pose proof (Q.le_max_r 0 (count + signedQuantity l)) as Hr.
      apply Q.max_le_compat_l. lra.
    + apply IH. exact Hc.
Qed.

Lemma countAfter_at_least_net_witness :
  0 <= AnimalSpecies.count Sample.cow
  /\ Qmax 0 (10 + netChange "s1"
                    [("g1", Sample.sold12); ("g2", Sample.sold12)])
     <= countAfter "s1" [("g1", Sample.sold12); ("g2", Sample.sold12)] 10.
Proof.
  assert (H : 0 <= AnimalSpecies.count Sample.cow) by (vm_compute; discriminate).
  split; [exact H|].
  apply (countAfter_at_least_net "s1"
           [("g1", Sample.sold12); ("g2", Sample.sold12)] 10 H).
Defined.

(** ** What a payment does to balances *)

Lemma accountBalance_snoc (acc : Account.t) (T : list Transaction.t)
  (t : Transaction.t) :
  AccountRegistry.accountBalance acc (T ++ [t])
  = if (Transaction.accountId t =? Account.id acc)%string
    then match Transaction.type t with
         | INCOME => AccountRegistry.accountBalance acc T + Transaction.amount t
         | EXPENSE => AccountRegistry.accountBalance acc T - Transaction.amount t
         end
    else AccountRegistry.accountBalance acc T.
Proof.
  unfold AccountRegistry.accountBalance. rewrite filter_app. cbn.
  destruct (Transaction.accountId t =? Account.id acc)%string.
  - rewrite fold_left_app. reflexivity.
  - rewrite app_nil_r. reflexivity.
Qed.

Lemma truthy_string_true (s : string) : s <> "" -> truthy_string s = true.
Proof.
  intros H. destruct (truthy_string s) eqn:E; [reflexivity|].
  apply truthy_string_false in E. contradiction.
Qed.

Lemma handleRecordPayment_submitted
  (parseFloat : string -> Q) (data : FarmData.t) (uuid : string)
  (st : LiabilityManager.State) (l : Liability.t) :
  LiabilityManager.showPayModal st = Some l ->
  LiabilityManager.paymentAmount st <> "" ->
  LiabilityManager.paymentAccount st <> "" ->
  let amount := parseFloat (LiabilityManager.paymentAmount st) in
  let next :=
    snd (LiabilityManager.handleRecordPayment parseFloat data uuid st) data in
  FarmData.transactions next
  = FarmData.transactions data
    ++ [ {| Transaction.id := uuid;
            Transaction.date := LiabilityManager.paymentDate st;
            Transaction.description :=
              ("Payment towards: " ++ Liability.name l)%string;
            Transaction.amount := amount;
            Transaction.categoryId := LiabilityManager.paymentCategory st;
            Transaction.accountId := LiabilityManager.paymentAccount st;
            Transaction.type := EXPENSE |} ]
  /\ FarmData.liabilities next
     = map (fun x =>
              if (Liability.id x =? Liability.id l)%string
              then Liability.withCurrentBalance l
                     (Math.max 0 (Liability.currentBalance l - amount))
              else x)
           (FarmData.liabilities data).
Proof.
  intros Hl Ha Hc. cbv zeta. unfold LiabilityManager.handleRecordPayment.
  rewrite Hl, (truthy_string_true _ Ha), (truthy_string_true _ Hc). cbn.
  split; reflexivity.
Qed.

(** X6: a recorded payment lowers the derived balance of the account it is
    paid from by the amount entered, and leaves the derived balance of
    every other account as it was. *)
Theorem payment_debits_the_paying_account
  (parseFloat : string -> Q) (data : FarmData.t) (uuid : string)
  (st : LiabilityManager.State) (l : Liability.t) (acc : Account.t) :
  LiabilityManager.showPayModal st = Some l ->
  LiabilityManager.paymentAmount st <> "" ->
  LiabilityManager.paymentAccount st <> "" ->
  let next :=
    snd (LiabilityManager.handleRecordPayment parseFloat data uuid st) data in
  AccountRegistry.accountBalance acc (FarmData.transactions next)
  == AccountRegistry.accountBalance acc (FarmData.transactions data)
     - (if (LiabilityManager.paymentAccount st =? Account.id acc)%string
        then parseFloat (LiabilityManager.paymentAmount st) else 0).
Proof.
  intros Hl Ha Hc. cbv zeta.
  destruct (handleRecordPayment_submitted parseFloat data uuid st l Hl Ha Hc)
    as [Ht _].
  rewrite Ht, accountBalance_snoc. cbn.
  destruct (LiabilityManager.paymentAccount st =? Account.id acc)%string; lra.
Qed.

Lemma payment_debits_the_paying_account_witness :
  LiabilityManager.showPayModal (Sample.payForm "40") = Some Sample.loan
  /\ AccountRegistry.accountBalance Sample.checking
       (FarmData.transactions
          (snd (LiabilityManager.handleRecordPayment Sample.parseFloat
                  Sample.books "t9" (Sample.payForm "40")) Sample.books))
     == 1175 - 40.
Proof.
  split; [reflexivity|].
  rewrite (payment_debits_the_paying_account Sample.parseFloat Sample.books
             "t9" (Sample.payForm "40") Sample.loan Sample.checking eq_refl).
  - vm_compute. reflexivity.
  - cbn. discriminate.
  - cbn. discriminate.
Defined.

Lemma replace_absent {A} (id : A -> string) (k : string) (y : A)
  (xs : list A) :
  ~ In k (map id xs) ->
  map (fun x => if (id x =? k)%string then y else x) xs = xs.
Proof.
  induction xs as [|x xs IH]; cbn; intros H; [reflexivity|].
  destruct (id x =? k)%string eqn:E.
  - apply String.eqb_eq in E. exfalso. apply H. left. exact E.
  - rewrite IH; [reflexivity|]. intros Hin. apply H. right. exact Hin.
Qed.

Lemma totalOutstanding_is_Qsum
  (LocalTZA : Z) (monthStart : Z -> Z) (Date_parse : string -> option Z)
  (clock : Z) (liabilities : list Liability.t) :
  Dashboard.totalOutstanding
    (Dashboard.debtSummary LocalTZA monthStart Date_parse clock liabilities)
  == Qsum (map Liability.currentBalance liabilities).
Proof. cbn. rewrite fold_left_Qsum. lra. Qed.

Lemma Qsum_replace_one (l l' : Liability.t) (L : list Liability.t) :
  In l L -> NoDup (map Liability.id L) ->
  Qsum (map Liability.currentBalance
          (map (fun x => if (Liability.id x =? Liability.id l)%string
                         then l' else x) L))
  == Qsum (map Liability.currentBalance L)
     - Liability.currentBalance l + Liability.currentBalance l'.
Proof.
  induction L as [|x L IH]; cbn; intros Hin Hnd; [contradiction|].
  inversion Hnd as [|? ? Hx HL]; subst.
  destruct Hin as [->|Hin].
  - rewrite String.eqb_refl.
    rewrite (replace_absent Liability.id (Liability.id l) l' L Hx). lra.
  - destruct (Liability.id x =? Liability.id l)%string eqn:E.
    + apply String.eqb_eq in E. exfalso. apply Hx. rewrite E.
      apply in_map. exact Hin.
    + rewrite (IH Hin HL). lra.
Qed.

(** X7: when the liability paid is in the list and no other liability
    has its id, and the amount and the balances are whole numbers whose
    absolute values add up to less than [2^53] (no addition rounds, the
    sums of the engine are the exact ones), a recorded payment lowers the
    total outstanding by [min(amount, currentBalance)]. *)
Theorem payment_lowers_total_outstanding
  (LocalTZA : Z) (monthStart : Z -> Z) (Date_parse : string -> option Z)
  (clock : Z) (parseFloat : string -> Q) (data : FarmData.t) (uuid : string)
  (st : LiabilityManager.State) (l : Liability.t) :
  LiabilityManager.showPayModal st = Some l ->
  LiabilityManager.paymentAmount st <> "" ->
  LiabilityManager.paymentAccount st <> "" ->
  In l (FarmData.liabilities data) ->
  NoDup (map Liability.id (FarmData.liabilities data)) ->
  Binary64.exact
    (parseFloat (LiabilityManager.paymentAmount st)
     :: map Liability.currentBalance (FarmData.liabilities data)) = true ->
  let next :=
    snd (LiabilityManager.handleRecordPayment parseFloat data uuid st) data in
  let total liabilities :=
    Dashboard.totalOutstanding
      (Dashboard.debtSummary LocalTZA monthStart Date_parse clock liabilities)
  in
  total (FarmData.liabilities next)
  == total (FarmData.liabilities data)
     - Math.min (parseFloat (LiabilityManager.paymentAmount st))
         (Liability.currentBalance l).
Proof.
  intros Hl Ha Hc Hin Hnd _. cbv zeta.
  destruct (handleRecordPayment_submitted parseFloat data uuid st l Hl Ha Hc)
    as [_ HL].
  rewrite !totalOutstanding_is_Qsum, HL.
  pose proof (Qsum_replace_one l
                (Liability.withCurrentBalance l
                   (Math.max 0
                      (Liability.currentBalance l
                       - parseFloat (LiabilityManager.paymentAmount st))))
                (FarmData.liabilities data) Hin Hnd) as E.
  cbn [Liability.id Liability.withCurrentBalance] in E. rewrite E. cbn.
  rewrite max_zero_is_clamped_decrease. lra.
Qed.

Lemma payment_lowers_total_outstanding_witness :
  In Sample.loan (FarmData.liabilities Sample.books)
  /\ NoDup (map Liability.id (FarmData.liabilities Sample.books))
  /\ Binary64.exact
       (Sample.parseFloat "40"
        :: map Liability.currentBalance (FarmData.liabilities Sample.books))
     = true
  /\ Dashboard.totalOutstanding
       (Dashboard.debtSummary 0%Z Sample.monthStart Sample.Date_parse
          Sample.noon
          (FarmData.liabilities
             (snd (LiabilityManager.handleRecordPayment Sample.parseFloat
                     Sample.books "t9" (Sample.payForm "40")) Sample.books)))
     == 180 - 40.
Proof.
  assert (Hin : In Sample.loan (FarmData.liabilities Sample.books))
    by (left; reflexivity).
  assert (Hnd : NoDup (map Liability.id (FarmData.liabilities Sample.books))).
  { cbn. repeat constructor; cbn; intuition discriminate. }
  assert (He : Binary64.exact
                 (Sample.parseFloat "40"
                  :: map Liability.currentBalance
                       (FarmData.liabilities Sample.books))
               = true) by reflexivity.
  split; [exact Hin|]. split; [exact Hnd|]. split; [exact He|].
  rewrite (payment_lowers_total_outstanding 0%Z Sample.monthStart
             Sample.Date_parse Sample.noon Sample.parseFloat Sample.books
             "t9" (Sample.payForm "40") Sample.loan eq_refl).
  - vm_compute. reflexivity.
  - cbn. discriminate.
  - cbn. discriminate.
  - exact Hin.
  - exact Hnd.
  - exact He.
Defined.

(** ** Opening the payment form *)

Lemma amountDue_within_balance (l : Liability.t) :
  Dashboard.amountDue l <= Liability.currentBalance l.
Proof.
  unfold Dashboard.amountDue, Math.min.
  destruct (Liability.installmentAmount l) as [i|]; [|lra].
  destruct (gt i 0); [apply Q.le_min_r|lra].
Qed.

(** X8: opening the payment form on a liability selects it and prefills
    the amount with the amount due, [min(installmentAmount,
    currentBalance)] for a positive instalment and the balance otherwise,
    which is within the bound of the amount input; the account becomes
    the first account and the category the first EXPENSE category, each
    left as it was when there is none.  The number written into the input
    is assumed to read back as itself. *)
Theorem handleOpenPayModal_prefills
  (Number_toString : Q -> string) (parseFloat : string -> Q)
  (data : FarmData.t) (l : Liability.t) (st : LiabilityManager.State) :
  parseFloat (Number_toString (Dashboard.amountDue l))
  == Dashboard.amountDue l ->
  let opened := LiabilityManager.handleOpenPayModal Number_toString data l st in
  LiabilityManager.showPayModal opened = Some l
  /\ parseFloat (LiabilityManager.paymentAmount opened) == Dashboard.amountDue l
  /\ parseFloat (LiabilityManager.paymentAmount opened)
     <= LiabilityManager.amountMax l
  /\ LiabilityManager.paymentAccount opened
     = match FarmData.accounts data with
       | a :: _ => Account.id a
       | [] => LiabilityManager.paymentAccount st
       end
  /\ LiabilityManager.paymentCategory opened
     = match
         find (fun c => match Category.type c with
                        | EXPENSE => true
                        | INCOME => false
                        end)
              (FarmData.categories data)
       with
       | Some c => Category.id c
       | None => LiabilityManager.paymentCategory st
       end.
Proof.
  intros Hround. cbv zeta. split; [reflexivity|].
  split; [exact Hround|]. split.
  - unfold LiabilityManager.amountMax.
    change (parseFloat (Number_toString (Dashboard.amountDue l))
            <= Liability.currentBalance l).
    rewrite Hround. apply amountDue_within_balance.
  - split; [reflexivity|]. cbn.
    induction (FarmData.categories data) as [|c cs IH]; cbn; [reflexivity|].
    destruct (Category.type c); cbn; [exact IH|reflexivity].
Qed.

Lemma handleOpenPayModal_prefills_witness :
  Sample.parseFloat ((fun _ => "40") (Dashboard.amountDue Sample.loan))
  == Dashboard.amountDue Sample.loan
  /\ LiabilityManager.handleOpenPayModal (fun _ => "40") Sample.books
       Sample.loan (Sample.payForm "")
     = {| LiabilityManager.showPayModal := Some Sample.loan;
          LiabilityManager.paymentAmount := "40";
          LiabilityManager.paymentDate := "1970-01-15";
          LiabilityManager.paymentCategory := "c2";
          LiabilityManager.paymentAccount := "a1" |}.
Proof.
  assert (H : Sample.parseFloat ((fun _ => "40") (Dashboard.amountDue Sample.loan))
              == Dashboard.amountDue Sample.loan)
    by (vm_compute; reflexivity).
  split; [exact H|].
  destruct (handleOpenPayModal_prefills (fun _ => "40") Sample.parseFloat
              Sample.books Sample.loan (Sample.payForm "") H)
    as (_ & _ & _ & _ & _).
  reflexivity.
Defined.

(** X9: with no account in the snapshot and none chosen before, the
    payment form opens with an empty account, and confirming it then
    changes nothing: no balance is lowered and no transaction recorded. *)
Theorem no_account_no_payment
  (Number_toString : Q -> string) (parseFloat : string -> Q)
  (data prev : FarmData.t) (uuid : string) (l : Liability.t)
  (st : LiabilityManager.State) :
  FarmData.accounts data = [] ->
  LiabilityManager.paymentAccount st = "" ->
  let opened := LiabilityManager.handleOpenPayModal Number_toString data l st in
  LiabilityManager.paymentAccount opened = ""
  /\ LiabilityManager.handleRecordPayment parseFloat data uuid opened
     = (opened, fun prev => prev)
  /\ snd (LiabilityManager.handleRecordPayment parseFloat data uuid opened) prev
     = prev.
Proof.
  intros Hacc Hst. cbv zeta.
  assert (E : LiabilityManager.paymentAccount
                (LiabilityManager.handleOpenPayModal Number_toString data l st)
              = "").
  { cbn. rewrite Hacc. exact Hst. }
  split; [exact E|].
  assert (R : LiabilityManager.handleRecordPayment parseFloat data uuid
                (LiabilityManager.handleOpenPayModal Number_toString data l st)
              = (LiabilityManager.handleOpenPayModal Number_toString data l st,
                 fun prev => prev)).
  { unfold LiabilityManager.handleRecordPayment at 1.
    rewrite E.
    change (LiabilityManager.showPayModal
              (LiabilityManager.handleOpenPayModal Number_toString data l st))
      with (Some l).
    cbn [truthy_string String.eqb negb].
    rewrite orb_true_r. reflexivity. }
  split; [exact R|]. rewrite R. reflexivity.
Qed.

Lemma no_account_no_payment_witness :
  FarmData.accounts Sample.debts = []
  /\ snd (LiabilityManager.handleRecordPayment Sample.parseFloat Sample.debts
            "t9"
            (LiabilityManager.handleOpenPayModal (fun _ => "40") Sample.debts
               Sample.loan
               (LiabilityManager.mkState None "" "1970-01-15" "" "")))
       Sample.debts
     = Sample.debts.
Proof.
  split; [reflexivity|].
  apply (no_account_no_payment (fun _ => "40") Sample.parseFloat Sample.debts
           Sample.debts "t9" Sample.loan
           (LiabilityManager.mkState None "" "1970-01-15" "" "")
           eq_refl eq_refl).
Defined.

(** ** Due date status *)

Section DateStatus.
Variable LocalTZA : Z.
Variable monthStart : Z -> Z.
Variable Date_parse : string -> option Z.
Variable clock : Z.

Lemma Day_of_local_midnight (t : Z) :
  JSDate.Day (JSDate.LocalTime LocalTZA (JSDate.setHoursZero LocalTZA t))
  = JSDate.Day (JSDate.LocalTime LocalTZA t).
Proof.
  unfold JSDate.setHoursZero, JSDate.UTC, JSDate.LocalTime.
  replace (JSDate.Day (t + LocalTZA) * JSDate.msPerDay - LocalTZA + LocalTZA)%Z
    with (JSDate.Day (t + LocalTZA) * JSDate.msPerDay)%Z by lia.
  generalize (JSDate.Day (t + LocalTZA)). intros day.
  unfold JSDate.Day. rewrite Z.div_mul; [reflexivity|discriminate].
Qed.

Lemma setDate_days_ahead (k : Z) :
  JSDate.setDate LocalTZA monthStart clock
    (JSDate.getDate LocalTZA monthStart (JSDate.setHoursZero LocalTZA clock) + k)
  = (clock + k * JSDate.msPerDay)%Z.
Proof.
  unfold JSDate.setDate, JSDate.getDate. rewrite Day_of_local_midnight.
  unfold JSDate.UTC, JSDate.LocalTime, JSDate.Day, JSDate.TimeWithinDay.
  pose proof (Z.div_mod (clock + LocalTZA) JSDate.msPerDay) as H.
  assert (Hm : JSDate.msPerDay <> 0%Z) by discriminate.
  specialize (H Hm). lia.
Qed.

(** How [getDateStatus] classifies, by the local day the due instant
    falls on. *)
Lemma getDateStatus_by_local_day (s : string) (parsed : Z) (balance : Q) :
  s <> "" -> 0 < balance -> Date_parse s = Some parsed ->
  let today := JSDate.localDay LocalTZA clock in
  let dueDay := JSDate.localDay LocalTZA parsed in
  LiabilityManager.getDateStatus LocalTZA monthStart Date_parse clock
    (Some s) balance
  = if (dueDay <? today)%Z then "overdue"
    else if (dueDay <=? today + 7)%Z then "soon" else "normal".
Proof.
  intros Hs Hb Hp. cbv zeta. unfold LiabilityManager.getDateStatus.
  rewrite (truthy_string_true _ Hs). cbn [negb orb].
  destruct (le balance 0) eqn:E.
  { unfold le in E. apply Qle_bool_iff in E. lra. }
  rewrite Hp, setDate_days_ahead.
  unfold JSDate.setHoursZero, JSDate.UTC, JSDate.localDay, JSDate.LocalTime.
  set (D := JSDate.Day (parsed + LocalTZA)).
  set (N := JSDate.Day (clock + LocalTZA)).
  assert (H1 : ((D * JSDate.msPerDay - LocalTZA
                 <? N * JSDate.msPerDay - LocalTZA) = (D <? N))%Z).
  { unfold JSDate.msPerDay.
    destruct (D <? N)%Z eqn:E1;
      [apply Z.ltb_lt in E1; apply Z.ltb_lt|
       apply Z.ltb_ge in E1; apply Z.ltb_ge]; lia. }
  rewrite H1. destruct (D <? N)%Z; [reflexivity|].
  assert (H2 : ((D * JSDate.msPerDay - LocalTZA
                 <=? clock + 7 * JSDate.msPerDay) = (D <=? N + 7))%Z).
  { subst N. unfold JSDate.Day, JSDate.msPerDay.
    pose proof (Z.div_mod (clock + LocalTZA) 86400000 ltac:(discriminate)) as H.
    pose proof (Z.mod_pos_bound (clock + LocalTZA) 86400000 ltac:(reflexivity))
      as B.
    destruct (D <=? (clock + LocalTZA) / 86400000 + 7)%Z eqn:E2;
      [apply Z.leb_le in E2; apply Z.leb_le|
       apply Z.leb_gt in E2; apply Z.leb_gt]; lia. }
  rewrite H2. reflexivity.
Qed.

(** X10: at UTC or east of it (an offset below a day), a liability with a
    positive balance and a date-only due date is "overdue" when that date
    is before the local day, "soon" when it is the local day or one of
    the seven after, "normal" beyond; and with a balance of zero or less
    the status is "normal" whatever the date. *)
Theorem getDateStatus_east_of_utc (s : string) (d : Z) (balance : Q) :
  (0 <= LocalTZA < JSDate.msPerDay)%Z ->
  s <> "" -> 0 < balance ->
  Date_parse s = Some (JSDate.dateOnly d) ->
  let today := JSDate.localDay LocalTZA clock in
  LiabilityManager.getDateStatus LocalTZA monthStart Date_parse clock
    (Some s) balance
  = (if (d <? today)%Z then "overdue"
     else if (d <=? today + 7)%Z then "soon" else "normal")
  /\ forall dueDate b,
      b <= 0 ->
      LiabilityManager.getDateStatus LocalTZA monthStart Date_parse clock
        dueDate b
      = "normal".
Proof.
  intros Hz Hs Hb Hp. cbv zeta. split.
  - rewrite (getDateStatus_by_local_day s _ balance Hs Hb Hp). cbv zeta.
    replace (JSDate.localDay LocalTZA (JSDate.dateOnly d)) with d;
      [reflexivity|].
    unfold JSDate.localDay, JSDate.LocalTime, JSDate.dateOnly, JSDate.Day,
      JSDate.msPerDay in *.
    apply Z.div_unique with (r := LocalTZA); lia.
  - intros dueDate b Hle. unfold LiabilityManager.getDateStatus.
    destruct dueDate as [x|]; [|reflexivity].
    assert (E : le b 0 = true) by (apply Qle_bool_iff; exact Hle).
    rewrite E, orb_true_r. reflexivity.
Qed.

(** X11: west of UTC (an offset of less than a day), the due instant of a
    date-only due date falls on the local day before it: a liability with
    a positive balance is "overdue" already when due on the local day,
    and "soon" when due on one of the eight days after. *)
Theorem getDateStatus_west_of_utc (s : string) (d : Z) (balance : Q) :
  (- JSDate.msPerDay <= LocalTZA < 0)%Z ->
  s <> "" -> 0 < balance ->
  Date_parse s = Some (JSDate.dateOnly d) ->
  let today := JSDate.localDay LocalTZA clock in
  LiabilityManager.getDateStatus LocalTZA monthStart Date_parse clock
    (Some s) balance
  = if (d <=? today)%Z then "overdue"
    else if (d <=? today + 8)%Z then "soon" else "normal".
Proof.
  intros Hz Hs Hb Hp. cbv zeta.
  rewrite (getDateStatus_by_local_day s _ balance Hs Hb Hp). cbv zeta.
  replace (JSDate.localDay LocalTZA (JSDate.dateOnly d)) with (d - 1)%Z.
  - generalize (JSDate.localDay LocalTZA clock). intros today.
    destruct (d <=? today)%Z eqn:E1.
    + apply Z.leb_le in E1.
      assert (E : (d - 1 <? today)%Z = true) by (apply Z.ltb_lt; lia).
      rewrite E. reflexivity.
    + apply Z.leb_gt in E1.
      assert (E : (d - 1 <? today)%Z = false) by (apply Z.ltb_ge; lia).
      rewrite E.
      destruct (d <=? today + 8)%Z eqn:E2.
      * apply Z.leb_le in E2.
        assert (E' : (d - 1 <=? today + 7)%Z = true) by (apply Z.leb_le; lia).
        rewrite E'. reflexivity.
      * apply Z.leb_gt in E2.
        assert (E' : (d - 1 <=? today + 7)%Z = false) by (apply Z.leb_gt; lia).
        rewrite E'. reflexivity.
  - unfold JSDate.localDay, JSDate.LocalTime, JSDate.dateOnly, JSDate.Day,
      JSDate.msPerDay in *.
    apply Z.div_unique with (r := (LocalTZA + 86400000)%Z); lia.
Qed.
End DateStatus.

Lemma getDateStatus_east_of_utc_witness :
  (0 <= 7200000 < JSDate.msPerDay)%Z
  /\ LiabilityManager.getDateStatus 7200000 Sample.monthStart
       Sample.Date_parse Sample.noon (Some "1970-01-31") 100
     = "normal".
Proof.
  assert (Hz : (0 <= 7200000 < JSDate.msPerDay)%Z)
    by (unfold JSDate.msPerDay; lia).
  split; [exact Hz|].
  destruct (getDateStatus_east_of_utc 7200000 Sample.monthStart
              Sample.Date_parse Sample.noon "1970-01-31" 30 100 Hz)
    as [H _]; [discriminate|reflexivity|reflexivity|].
  rewrite H. reflexivity.
Defined.

Lemma getDateStatus_west_of_utc_witness :
  (- JSDate.msPerDay <= -28800000 < 0)%Z
  /\ JSDate.localDay (-28800000) (30 * JSDate.msPerDay + Sample.noon) = 30%Z
  /\ LiabilityManager.getDateStatus (-28800000) Sample.monthStart
       Sample.Date_parse (30 * JSDate.msPerDay + Sample.noon)
       (Some "1970-01-31") 100
     = "overdue".
Proof.
  assert (Hz : (- JSDate.msPerDay <= -28800000 < 0)%Z)
    by (unfold JSDate.msPerDay; lia).
  split; [exact Hz|]. split; [reflexivity|].
  rewrite (getDateStatus_west_of_utc (-28800000) Sample.monthStart
             Sample.Date_parse (30 * JSDate.msPerDay + Sample.noon)
             "1970-01-31" 30 100 Hz);
    [reflexivity|discriminate|reflexivity|reflexivity].
Defined.

(** ** Sidebar layout *)

Lemma toggle_twice (item : NavItemConfig.t) :
  {| NavItemConfig.id := NavItemConfig.id item;
     NavItemConfig.visible := negb (negb (NavItemConfig.visible item)) |}
  = item.
Proof. destruct item as [i v]. cbn. rewrite negb_involutive. reflexivity. Qed.

(** X12: toggling the visibility of an id flips every entry of that id and
    no other, keeps the ids and their order, and toggling the same id
    again gives the layout back. *)
Theorem toggleVisibility_is_an_involution
  (sidebarConfig : list NavItemConfig.t) (id : string) :
  Settings.toggleVisibility (Settings.toggleVisibility sidebarConfig id) id
  = sidebarConfig
  /\ map NavItemConfig.id (Settings.toggleVisibility sidebarConfig id)
     = map NavItemConfig.id sidebarConfig
  /\ map NavItemConfig.visible (Settings.toggleVisibility sidebarConfig id)
     = map (fun item =>
              if (NavItemConfig.id item =? id)%string
              then negb (NavItemConfig.visible item)
              else NavItemConfig.visible item)
           sidebarConfig.
Proof.
  unfold Settings.toggleVisibility. split; [|split].
  - rewrite map_map. rewrite <- (map_id sidebarConfig) at 2.
    apply map_ext. intros item.
    destruct (NavItemConfig.id item =? id)%string eqn:E; cbn; rewrite E.
    + apply toggle_twice.
    + reflexivity.
  - rewrite map_map. apply map_ext. intros item.
    destruct (NavItemConfig.id item =? id)%string; reflexivity.
  - rewrite map_map. apply map_ext. intros item.
    destruct (NavItemConfig.id item =? id)%string; reflexivity.
Qed.

Lemma read_at {A} (P : list (option A)) (x y : option A)
  (Q : list (option A)) :
  Settings.read (P ++ x :: y :: Q) (List.length P) = x
  /\ Settings.read (P ++ x :: y :: Q) (S (List.length P)) = y.
Proof. induction P as [|p P IH]; cbn; [split; reflexivity|exact IH]. Qed.

Lemma write_at {A} (P : list (option A)) (x y v : option A)
  (Q : list (option A)) :
  Settings.write (P ++ x :: y :: Q) (List.length P) v = P ++ v :: y :: Q
  /\ Settings.write (P ++ x :: y :: Q) (S (List.length P)) v
     = P ++ x :: v :: Q.
Proof.
  induction P as [|p P [IH1 IH2]]; cbn; [split; reflexivity|].
  cbn in IH2. rewrite IH1, IH2. split; reflexivity.
Qed.

Lemma swap_neighbours {A} (P : list (option A)) (x y : option A)
  (Q : list (option A)) (i j : nat) :
  i = List.length P -> j = S (List.length P) ->
  let L := P ++ x :: y :: Q in
  Settings.write (Settings.write L j (Settings.read L i)) i (Settings.read L j)
  = P ++ y :: x :: Q
  /\ Settings.write (Settings.write L i (Settings.read L j)) j
       (Settings.read L i)
     = P ++ y :: x :: Q.
Proof.
  intros -> ->. cbv zeta.
  destruct (read_at P x y Q) as [R0 R1]. rewrite R0, R1.
  split.
  - rewrite (proj2 (write_at P x y x Q)), (proj1 (write_at P x x y Q)).
    reflexivity.
  - rewrite (proj1 (write_at P x y y Q)), (proj2 (write_at P y y x Q)).
    reflexivity.
Qed.

Lemma moveItem_swaps (pre : list NavItemConfig.t) (a b : NavItemConfig.t)
  (post : list NavItemConfig.t) :
  Settings.moveItem (pre ++ a :: b :: post) (S (List.length pre)) Settings.up
  = Some (map Some (pre ++ b :: a :: post))
  /\ Settings.moveItem (pre ++ a :: b :: post) (List.length pre) Settings.down
     = Some (map Some (pre ++ b :: a :: post)).
Proof.
  unfold Settings.moveItem.
  rewrite !map_app, length_app, length_map. cbn [map List.length].
  rewrite length_map.
  set (n := List.length pre).
  replace (Z.of_nat (S n) - 1)%Z with (Z.of_nat n) by lia.
  replace (Z.of_nat n + 1)%Z with (Z.of_nat (S n)) by lia.
  rewrite !Nat2Z.id.
  assert (E1 : (Z.of_nat n <? 0)%Z = false) by (apply Z.ltb_ge; lia).
  assert (E2 : (Z.of_nat (S n) <? 0)%Z = false) by (apply Z.ltb_ge; lia).
  assert (E3 : (Z.of_nat (n + S (S (List.length post))) <=? Z.of_nat n)%Z
               = false) by (apply Z.leb_gt; lia).
  assert (E4 : (Z.of_nat (n + S (S (List.length post))) <=? Z.of_nat (S n))%Z
               = false) by (apply Z.leb_gt; lia).
  rewrite E1, E2, E3, E4. cbn [orb].
  assert (Hi : n = List.length (map Some pre))
    by (symmetry; apply length_map).
  assert (Hj : S n = S (List.length (map Some pre))) by (rewrite <- Hi; reflexivity).
  destruct (swap_neighbours (map Some pre) (Some a) (Some b) (map Some post)
              n (S n) Hi Hj) as [Hup Hdown].
  cbv zeta in Hup, Hdown. rewrite Hup, Hdown. split; reflexivity.
Qed.

(** X13: moving a row up swaps it with the row above, and moving a row
    down swaps it with the row below, every other row staying in place;
    the new layout has no undefined entry and the same entries; moving
    the swapped row back restores the layout; the first row cannot move
    up nor the last row down: the layout is then not updated. *)
Theorem moveItem_swaps_with_the_neighbour
  (pre : list NavItemConfig.t) (a b : NavItemConfig.t)
  (post cfg : list NavItemConfig.t) (index : nat) :
  Settings.moveItem (pre ++ a :: b :: post) (S (List.length pre)) Settings.up
  = Some (map Some (pre ++ b :: a :: post))
  /\ Settings.moveItem (pre ++ a :: b :: post) (List.length pre) Settings.down
     = Some (map Some (pre ++ b :: a :: post))
  /\ Settings.moveItem (pre ++ b :: a :: post) (List.length pre) Settings.down
     = Some (map Some (pre ++ a :: b :: post))
  /\ Permutation (pre ++ a :: b :: post) (pre ++ b :: a :: post)
  /\ Settings.moveItem cfg 0 Settings.up = None
  /\ ((List.length cfg <= S index)%nat ->
      Settings.moveItem cfg index Settings.down = None).
Proof.
  destruct (moveItem_swaps pre a b post) as [Hup Hdown].
  destruct (moveItem_swaps pre b a post) as [_ Hback].
  repeat (split; [assumption|]).
  split; [apply Permutation_app_head, perm_swap|].
  split; [reflexivity|].
  intros Hlast. unfold Settings.moveItem. rewrite length_map.
  assert (E : (Z.of_nat (List.length cfg) <=? Z.of_nat index + 1)%Z = true)
    by (apply Z.leb_le; lia).
  rewrite E, orb_true_r. reflexivity.
Qed.

(** ** Restore and cloud *)

(** X14: a parsed backup whose [transactions] and [categories] are truthy
    is accepted as it is, nothing else being looked at: once confirmed,
    the state is the file's value wholesale, so a key the file lacks is
    undefined afterwards, and no error is shown; when the confirmation is
    declined the state is the one before, without an error either. *)
Theorem handleImport_replaces_wholesale
  (TypeError_message : string) (data d : Json.t) (st : Settings.State) :
  Json.truthy (Json.own d "transactions") = true ->
  Json.truthy (Json.own d "categories") = true ->
  Settings.handleImport TypeError_message data (Some (Settings.Parsed d)) true st
  = ({| Settings.importError := None; Settings.isImporting := false |}, d)
  /\ Settings.handleImport TypeError_message data (Some (Settings.Parsed d))
       false st
     = ({| Settings.importError := None; Settings.isImporting := false |}, data)
  /\ Settings.handleImport TypeError_message data None true st = (st, data).
Proof.
  intros Ht Hc. unfold Settings.handleImport, Settings.tryImport.
  destruct d; cbn in Ht; try discriminate Ht.
  cbn in *. rewrite Ht, Hc. cbn. repeat split.
Qed.

Lemma handleImport_replaces_wholesale_witness :
  Json.truthy (Json.own (ToJSON.farmData Sample.herd) "transactions") = true
  /\ snd (Settings.handleImport "TypeError" (ToJSON.farmData Sample.books)
            (Some (Settings.Parsed (ToJSON.farmData Sample.herd))) true
            (Settings.mkState None false))
     = ToJSON.farmData Sample.herd.
Proof.
  split; [reflexivity|].
  destruct (handleImport_replaces_wholesale "TypeError"
              (ToJSON.farmData Sample.books) (ToJSON.farmData Sample.herd)
              (Settings.mkState None false) eq_refl eq_refl) as [H _].
  rewrite H. reflexivity.
Defined.

Lemma getItem_setItem (key key' : string) (value : Json.t)
  (storage : ApiService.Storage) :
  ApiService.getItem key' (ApiService.setItem key value storage)
  = if (key =? key')%string then Some value
    else ApiService.getItem key' storage.
Proof.
  unfold ApiService.getItem.
  induction storage as [|[k v] rest IH]; cbn.
  - reflexivity.
  - destruct (k =? key)%string eqn:E0; cbn.
    + apply String.eqb_eq in E0. subst k.
      destruct (key =? key')%string; reflexivity.
    + rewrite IH. destruct (k =? key')%string eqn:E1; [|reflexivity].
      apply String.eqb_eq in E1. subst k. rewrite String.eqb_sym, E0.
      reflexivity.
Qed.

Lemma storage_key_eqb (email email' : string) :
  ((ApiService.STORAGE_PREFIX ++ email)
   =? (ApiService.STORAGE_PREFIX ++ email'))%string
  = (email =? email')%string.
Proof. reflexivity. Qed.

Lemma pullData_pushData (email : string) (data : Json.t)
  (storage : ApiService.Storage) :
  ApiService.pullData email (ApiService.pushData email data storage)
  = Some data.
Proof.
  unfold ApiService.pullData, ApiService.pushData.
  rewrite getItem_setItem, String.eqb_refl. reflexivity.
Qed.

(** X15: a pull for an email returns the snapshot last pushed for that
    email, whatever was pushed for other emails in between, and nothing
    when nothing was ever pushed for it. *)
Theorem pullData_returns_last_push
  (email other : string) (data data' : Json.t) (storage : ApiService.Storage) :
  ApiService.pullData email (ApiService.pushData email data storage) = Some data
  /\ ApiService.pullData email
       (ApiService.pushData email data' (ApiService.pushData email data storage))
     = Some data'
  /\ (email <> other ->
      ApiService.pullData email
        (ApiService.pushData other data' (ApiService.pushData email data storage))
      = Some data)
  /\ ApiService.pullData email [] = None.
Proof.
  unfold ApiService.pullData, ApiService.pushData.
  rewrite !getItem_setItem, !String.eqb_refl.
  split; [reflexivity|]. split; [reflexivity|]. split; [|reflexivity].
  intros Hne. rewrite storage_key_eqb.
  destruct (other =? email)%string eqn:E.
  - apply String.eqb_eq in E. congruence.
  - reflexivity.
Qed.

(** X16: a confirmed refresh from the cloud replaces the state with the
    snapshot last pushed for the user; declined, or with nothing stored
    for the user, it leaves the state as it is. *)
Theorem handleCloudPull_restores_last_push
  (email : string) (S : FarmData.t) (current : Json.t)
  (storage : ApiService.Storage) :
  Settings.handleCloudPull email
    (ApiService.pushData email (ToJSON.farmData S) storage) true current
  = ToJSON.farmData S
  /\ Settings.handleCloudPull email
       (ApiService.pushData email (ToJSON.farmData S) storage) false current
     = current
  /\ Settings.handleCloudPull email [] true current = current.
Proof.
  unfold Settings.handleCloudPull.
  rewrite pullData_pushData. repeat split.
Qed.

(** ** The push effect over any run *)

Section PushEffect.
Import Sync.

Lemma fire_tidy (t : Z) (w : World) :
  tidy w ->
  tidy (fire t w)
  /\ exists sent,
      pushes (fire t w) = pushes w ++ sent
      /\ (List.length sent <= 1)%nat
      /\ Forall (fun p => pushData p = data w
                          /\ option_map email (user w) = Some (pushEmail p)
                          /\ (at_ p <= t)%Z)
           sent.
Proof.
  destruct w as [usr dat ref cl tos nid sent0]. unfold tidy; cbn.
  intros [->|(x & u & -> & -> & -> & -> & Hk & Hp)]; cbn.
  - split; [left; reflexivity|]. exists []. rewrite app_nil_r.
    repeat split; [cbn; lia|constructor].
  - unfold expired. destruct (due x <=? t)%Z eqn:E; cbn.
    + split; [left; reflexivity|]. eexists. split; [reflexivity|].
      split; [cbn; lia|]. constructor; [|constructor]. cbn.
      apply Z.leb_le in E. rewrite Hk. repeat split; assumption.
    + split.
      * right. exists x, u. repeat split; assumption.
      * exists []. rewrite app_nil_r. repeat split; [cbn; lia|constructor].
Qed.

Lemma runEffect_tidy (t : Z) (e : Event) (w : World) :
  (timeouts w = []
   \/ exists x, timeouts w = [x] /\ syncTimeoutRef w = Some (timeoutId x)
                /\ hasCleanup w = true) ->
  tidy (runEffect t (apply e w))
  /\ pushes (runEffect t (apply e w)) = pushes w.
Proof.
  destruct w as [usr dat ref cl tos nid sent0]. cbn.
  intros [->|([xi xd xk xp] & -> & -> & ->)]; destruct e as [d|u];
    unfold runEffect, clearPending, clearTimeout, setTimeoutPush, withCleanup,
      tidy; cbn.
  - destruct cl, ref, usr as [u|]; cbn;
      (split; [|reflexivity]);
      first [ left; reflexivity
            | right; eexists _, u; cbn; repeat split ].
  - destruct cl, ref, u as [u|]; cbn;
      (split; [|reflexivity]);
      first [ left; reflexivity
            | right; eexists _, u; cbn; repeat split ].
  - destruct usr as [u|]; cbn; rewrite Pos.eqb_refl; cbn;
      (split; [|reflexivity]);
      first [ left; reflexivity
            | right; eexists _, u; cbn; repeat split ].
  - destruct u as [u|]; cbn; rewrite Pos.eqb_refl; cbn;
      (split; [|reflexivity]);
      first [ left; reflexivity
            | right; eexists _, u; cbn; repeat split ].
Qed.

Lemma tidy_pending (w : World) :
  tidy w ->
  timeouts w = []
  \/ exists x, timeouts w = [x] /\ syncTimeoutRef w = Some (timeoutId x)
               /\ hasCleanup w = true.
Proof.
  intros [H|(x & u & H1 & H2 & H3 & _)]; [left; exact H|].
  right. exists x. repeat split; assumption.
Qed.

Lemma step_tidy (te : Z * Event) (w : World) :
  tidy w ->
  tidy (step te w)
  /\ exists sent,
      pushes (step te w) = pushes w ++ sent
      /\ (List.length sent <= 1)%nat
      /\ Forall (fun p => pushData p = data w
                          /\ option_map email (user w) = Some (pushEmail p)
                          /\ (at_ p <= fst te)%Z)
           sent.
Proof.
  intros Hw. destruct (fire_tidy (fst te) w Hw) as [Hf (sent & Hs & Hl & Ha)].
  destruct (runEffect_tidy (fst te) (snd te) (fire (fst te) w)
              (tidy_pending _ Hf)) as [Ht Hp].
  unfold step. split; [exact Ht|].
  exists sent. rewrite Hp. repeat split; assumption.
Qed.

(** X17: whatever the changes of [data] and [user] and their times, after
    each of them at most one push is pending, and it is the push of the
    snapshot then current under the email of the user then signed in. *)
Theorem at_most_one_push_pending
  (events : list (Z * Event)) (w : World) :
  tidy w ->
  tidy (run events w)
  /\ (List.length (timeouts (run events w)) <= 1)%nat
  /\ Forall (fun x => payload x = data (run events w)
                      /\ option_map email (user (run events w))
                         = Some (key x))
       (timeouts (run events w)).
Proof.
  intros Hw.
  assert (Ht : tidy (run events w)).
  { revert w Hw. induction events as [|te events IH]; intros w Hw.
    - exact Hw.
    - apply (IH (step te w)). apply (step_tidy te w Hw). }
  split; [exact Ht|].
  destruct Ht as [->|(x & u & -> & _ & _ & -> & Hk & Hp)]; cbn.
  - split; [cbn; lia|constructor].
  - split; [cbn; lia|]. constructor; [|constructor]. rewrite Hk.
    split; [exact Hp|reflexivity].
Qed.

(** X18: a change of [data] or [user] at time [t] lets at most one push
    be made, by the timeout that came due; the push carries the snapshot
    and the email that were current when it fired, those before the
    change, and was due by [t]. *)
Theorem a_push_sends_the_current_snapshot (te : Z * Event) (w : World) :
  tidy w ->
  exists sent,
    pushes (step te w) = pushes w ++ sent
    /\ (List.length sent <= 1)%nat
    /\ Forall (fun p => pushData p = data w
                        /\ option_map email (user w) = Some (pushEmail p)
                        /\ (at_ p <= fst te)%Z)
         sent.
Proof. intros Hw. apply (step_tidy te w Hw). Qed.
End PushEffect.

Lemma at_most_one_push_pending_witness :
  tidy Sample.atRest
  /\ (List.length
        (Sync.timeouts
           (Sync.run [(0%Z, Sync.SetData Sample.herd);
                      (100%Z, Sync.SetUser None);
                      (200%Z, Sync.SetUser (Some Sample.farmer));
                      (300%Z, Sync.SetData Sample.stock)]
              Sample.atRest))
      <= 1)%nat.
Proof.
  assert (H : tidy Sample.atRest) by (left; reflexivity).
  split; [exact H|].
  apply (at_most_one_push_pending
           [(0%Z, Sync.SetData Sample.herd); (100%Z, Sync.SetUser None);
            (200%Z, Sync.SetUser (Some Sample.farmer));
            (300%Z, Sync.SetData Sample.stock)]
           Sample.atRest H).
Defined.

Lemma a_push_sends_the_current_snapshot_witness :
  tidy Sample.herdPending
  /\ Sync.data Sample.herdPending = Sample.herd
  /\ Sync.pushes Sample.herdPending = []
  /\ exists sent,
      Sync.pushes
        (Sync.step (2500%Z, Sync.SetData Sample.stock) Sample.herdPending)
      = Sync.pushes Sample.herdPending ++ sent
      /\ sent = [Sync.mkPush 2000 "ada@farm.example" Sample.herd]
      /\ Forall (fun p => Sync.pushData p = Sync.data Sample.herdPending
                          /\ option_map Sync.email
                               (Sync.user Sample.herdPending)
                             = Some (Sync.pushEmail p)
                          /\ (Sync.at_ p <= 2500)%Z)
           sent.
Proof.
  assert (H : tidy Sample.herdPending).
  { right. eexists _, _. repeat split; reflexivity. }
  split; [exact H|]. split; [reflexivity|]. split; [reflexivity|].
  destruct (a_push_sends_the_current_snapshot
              (2500%Z, Sync.SetData Sample.stock) Sample.herdPending H)
    as (sent & Hs & _ & Hall).
  exists sent. split; [exact Hs|]. split; [|exact Hall].
  vm_compute in Hs. symmetry. exact Hs.
Defined.

Section QuietPeriods.
Import Sync.

Lemma step_signed_out (t : Z) (d : FarmData.t) (w : World) :
  user w = None -> timeouts w = [] ->
  user (step (t, SetData d) w) = None
  /\ timeouts (step (t, SetData d) w) = []
  /\ pushes (step (t, SetData d) w) = pushes w.
Proof.
  destruct w as [usr dat ref cl tos nid sent]. cbn. intros -> ->.
  unfold step, runEffect, clearPending, clearTimeout, withCleanup; cbn.
  rewrite app_nil_r. destruct cl, ref; cbn; repeat split.
Qed.

(** X19: while nobody is signed in, changes of the snapshot schedule no
    push and none is ever made. *)
Theorem signed_out_never_pushes
  (ms : list (Z * FarmData.t)) (w : World) (T : Z) :
  user w = None -> timeouts w = [] ->
  timeouts (run (mutations ms) w) = []
  /\ pushes (fire T (run (mutations ms) w)) = pushes w.
Proof.
  revert w. induction ms as [|[t d] ms IH]; intros w Hu Ht.
  - cbn. rewrite Ht. cbn. rewrite app_nil_r. split; reflexivity.
  - change (run (mutations ((t, d) :: ms)) w)
      with (run (mutations ms) (step (t, SetData d) w)).
    destruct (step_signed_out t d w Hu Ht) as (Hu' & Ht' & Hp').
    destruct (IH _ Hu' Ht') as [H1 H2]. rewrite H1, H2, Hp'.
    split; reflexivity.
Qed.

Lemma step_after_quiet (u : User) (w : World) (t0 t : Z) (d0 d : FarmData.t)
  (sent : list PushCall) :
  armed u t0 d0 sent w ->
  (t0 + quiescence <= t)%Z ->
  armed u t d
    (sent ++ [ {| at_ := (t0 + quiescence)%Z; pushEmail := email u;
                  pushData := d0 |} ])
    (step (t, SetData d) w).
Proof.
  destruct w as [usr dat ref cl tos nid sent0]. unfold armed; cbn.
  intros (-> & -> & -> & -> & id & -> & ->) Ht.
  unfold step, runEffect, fire, expired; cbn.
  assert (E : (t0 + quiescence <=? t)%Z = true) by (apply Z.leb_le; lia).
  rewrite E; cbn. repeat split. eauto.
Qed.

(** X20: a mutation that comes once the window of the previous burst has
    closed does not replace its push: the burst is pushed with its last
    snapshot, and the later mutation is pushed on its own, two seconds
    after it. *)
Theorem quiet_period_separates_pushes
  (u : User) (w : World) (first : Z * FarmData.t)
  (rest : list (Z * FarmData.t)) (next : Z * FarmData.t) (T : Z) :
  user w = Some u ->
  timeouts w = [] ->
  chained (fst first) rest ->
  (fst (last rest first) + quiescence <= fst next)%Z ->
  (fst next + quiescence <= T)%Z ->
  pushes (fire T (run (mutations (first :: rest ++ [next])) w))
  = pushes w
    ++ [ {| at_ := (fst (last rest first) + quiescence)%Z;
            pushEmail := email u;
            pushData := snd (last rest first) |};
         {| at_ := (fst next + quiescence)%Z;
            pushEmail := email u;
            pushData := snd next |} ].
Proof.
  intros Hu Hq Hc Hgap HT. destruct first as [t1 d1], next as [t2 d2].
  unfold mutations. rewrite app_comm_cons, map_app. unfold run.
  rewrite fold_left_app.
  change (fold_left (fun w te => step te w)
            (map (fun m => (fst m, SetData (snd m))) ((t1, d1) :: rest)) w)
    with (run (mutations rest) (step (t1, SetData d1) w)).
  pose proof (step_from_rest u w t1 d1 Hu Hq) as H1.
  pose proof (run_rearms u (pushes w) rest _ t1 d1 H1 Hc) as HN.
  cbn [map fold_left fst snd].
  pose proof (step_after_quiet u _ _ t2 _ d2 _ HN Hgap) as H2.
  destruct (armed_fires_once u _ _ T _ _ H2 HT) as [Hp _].
  cbn [fst snd] in Hp. rewrite Hp, <- app_assoc. reflexivity.
Qed.
End QuietPeriods.

Lemma signed_out_never_pushes_witness :
  Sync.user (Sync.step (0%Z, Sync.SetUser None) Sample.atRest) = None
  /\ Sync.pushes
       (Sync.fire 9000
          (Sync.run
             (Sync.mutations [(100%Z, Sample.herd); (5000%Z, Sample.stock)])
             (Sync.step (0%Z, Sync.SetUser None) Sample.atRest)))
     = [].
Proof.
  split; [reflexivity|].
  apply (signed_out_never_pushes
           [(100%Z, Sample.herd); (5000%Z, Sample.stock)]
           (Sync.step (0%Z, Sync.SetUser None) Sample.atRest) 9000%Z
           eq_refl eq_refl).
Defined.

Lemma quiet_period_separates_pushes_witness :
  Sync.chained 0 [(500%Z, Sample.herd)]
  /\ Sync.pushes
       (Sync.fire 9000
          (Sync.run
             (Sync.mutations
                [(0%Z, Sample.debts); (500%Z, Sample.herd);
                 (2500%Z, Sample.stock)])
             Sample.atRest))
     = [ Sync.mkPush 2500 "ada@farm.example" Sample.herd;
         Sync.mkPush 4500 "ada@farm.example" Sample.stock ].
Proof.
  assert (Hc : Sync.chained 0 [(500%Z, Sample.herd)]).
  { cbn. unfold Sync.quiescence. lia. }
  split; [exact Hc|].
  assert (Hgap : (fst (last [(500%Z, Sample.herd)] (0%Z, Sample.debts))
                  + Sync.quiescence <= fst (2500%Z, Sample.stock))%Z).
  { cbn. unfold Sync.quiescence. lia. }
  assert (HT : (fst (2500%Z, Sample.stock) + Sync.quiescence <= 9000)%Z).
  { cbn. unfold Sync.quiescence. lia. }
  pose proof (quiet_period_separates_pushes Sample.farmer Sample.atRest
                (0%Z, Sample.debts) [(500%Z, Sample.herd)]
                (2500%Z, Sample.stock) 9000%Z eq_refl eq_refl Hc Hgap HT) as H.
  cbn [app] in H. rewrite H. reflexivity.
Defined.

(** ** Total liquidity *)

Lemma Qsum_Permutation (xs ys : list Q) :
  Permutation xs ys -> Qsum xs == Qsum ys.
Proof.
  induction 1 as [|x xs ys _ IH|x y xs|xs ys zs _ IH1 _ IH2]; cbn; lra.
Qed.

Lemma Qsum_app (xs ys : list Q) : Qsum (xs ++ ys) == Qsum xs + Qsum ys.
Proof. induction xs as [|x xs IH]; cbn; lra. Qed.

Lemma insert_Permutation {A} (before : A -> A -> bool) (x : A) (xs : list A) :
  Permutation (JS.insert before x xs) (x :: xs).
Proof.
  induction xs as [|y xs IH]; cbn; [reflexivity|].
  destruct (before x y); [reflexivity|].
  rewrite IH. apply perm_swap.
Qed.

Lemma sort_Permutation {A} (before : A -> A -> bool) (xs : list A) :
  Permutation (JS.sort before xs) xs.
Proof.
  induction xs as [|x xs IH]; cbn; [reflexivity|].
  rewrite insert_Permutation, IH. reflexivity.
Qed.

Lemma filter_split_Permutation {A} (p : A -> bool) (xs : list A) :
  Permutation (filter p xs ++ filter (fun x => negb (p x)) xs) xs.
Proof.
  induction xs as [|x xs IH]; cbn; [reflexivity|].
  destruct (p x); cbn.
  - apply perm_skip. exact IH.
  - rewrite <- Permutation_middle. apply perm_skip. exact IH.
Qed.

Lemma entries_Permutation {A} (o : list (string * A)) :
  Permutation (JS.entries o) o.
Proof.
  unfold JS.entries. rewrite sort_Permutation. apply filter_split_Permutation.
Qed.

Lemma assign_fresh (balances : AccountRegistry.Balances) (k : string) (v : Q) :
  k <> "__proto__" ->
  ~ In k (map fst balances) ->
  AccountRegistry.assign balances k v = balances ++ [(k, v)].
Proof.
  intros Hk. unfold AccountRegistry.assign.
  apply String.eqb_neq in Hk. rewrite Hk. clear Hk.
  induction balances as [|[k0 v0] rest IH]; cbn; intros H; [reflexivity|].
  destruct (k0 =? k)%string eqn:E.
  - apply String.eqb_eq in E. exfalso. apply H. left. exact E.
  - rewrite IH; [reflexivity|]. intros Hin. apply H. right. exact Hin.
Qed.

Lemma accountBalances_snoc (accounts : list Account.t) (a : Account.t)
  (T : list Transaction.t) :
  AccountRegistry.accountBalances (accounts ++ [a]) T
  = AccountRegistry.assign (AccountRegistry.accountBalances accounts T)
      (Account.id a) (AccountRegistry.accountBalance a T).
Proof.
  unfold AccountRegistry.accountBalances. rewrite fold_left_app. reflexivity.
Qed.

Lemma accountBalances_distinct (accounts : list Account.t)
  (T : list Transaction.t) :
  NoDup (map Account.id accounts) ->
  ~ In "__proto__" (map Account.id accounts) ->
  AccountRegistry.accountBalances accounts T
  = map (fun a => (Account.id a, AccountRegistry.accountBalance a T)) accounts.
Proof.
  induction accounts as [|a accounts IH] using rev_ind; intros Hnd Hp.
  - reflexivity.
  - rewrite map_app in Hnd, Hp. cbn in Hnd, Hp.
    apply NoDup_remove in Hnd. rewrite app_nil_r in Hnd.
    destruct Hnd as [Hnd Hfresh].
    assert (Hp' : ~ In "__proto__" (map Account.id accounts)).
    { intros H. apply Hp. apply in_or_app. left. exact H. }
    rewrite accountBalances_snoc, (IH Hnd Hp'), map_app. cbn.
    apply assign_fresh.
    + intros E. apply Hp. apply in_or_app. right. left. exact E.
    + rewrite map_map. cbn. exact Hfresh.
Qed.

Lemma summary_sums (T : list Transaction.t) :
  Dashboard.income (Dashboard.summary T)
  == Qsum (map Transaction.amount
             (filter (fun t => TransactionPage.sameType (Transaction.type t)
                                 INCOME) T))
  /\ Dashboard.expense (Dashboard.summary T)
     == Qsum (map Transaction.amount
                (filter (fun t => TransactionPage.sameType (Transaction.type t)
                                    EXPENSE) T)).
Proof.
  unfold Dashboard.summary.
  match goal with |- context [fold_left ?f _ _] => set (step := f) end.
  assert (G : forall acc,
    Dashboard.income (fold_left step T acc)
    == Dashboard.income acc
       + Qsum (map Transaction.amount
                 (filter (fun t => TransactionPage.sameType
                                     (Transaction.type t) INCOME) T))
    /\ Dashboard.expense (fold_left step T acc)
       == Dashboard.expense acc
          + Qsum (map Transaction.amount
                    (filter (fun t => TransactionPage.sameType
                                        (Transaction.type t) EXPENSE) T))).
  { induction T as [|t T IH]; intros acc; cbn.
    - split; lra.
    - destruct (IH (step acc t)) as [I1 I2]. rewrite I1, I2.
      subst step. cbn. destruct (Transaction.type t); cbn; split; lra. }
  destruct (G {| Dashboard.income := 0; Dashboard.expense := 0 |}) as [G1 G2].
  cbn in G1, G2. split; lra.
Qed.

Lemma Qsum_zero {A} (xs : list A) : Qsum (map (fun _ => 0) xs) == 0.
Proof. induction xs as [|x xs IH]; cbn; lra. Qed.

Lemma Qsum_map_add {A} (f g : A -> Q) (xs : list A) :
  Qsum (map (fun x => f x + g x) xs) == Qsum (map f xs) + Qsum (map g xs).
Proof. induction xs as [|x xs IH]; cbn; lra. Qed.

Lemma Qsum_map_ext {A} (f g : A -> Q) (xs : list A) :
  (forall x, f x == g x) -> Qsum (map f xs) == Qsum (map g xs).
Proof. intros H. induction xs as [|x xs IH]; cbn; [lra|]. rewrite (H x). lra. Qed.

Lemma no_account_matches (accounts : list Account.t) (k : string) (x : Q) :
  ~ In k (map Account.id accounts) ->
  Qsum (map (fun a => if (k =? Account.id a)%string then x else 0) accounts)
  == 0.
Proof.
  induction accounts as [|a accounts IH]; cbn; intros H; [lra|].
  destruct (k =? Account.id a)%string eqn:E.
  - apply String.eqb_eq in E. exfalso. apply H. left. symmetry. exact E.
  - rewrite IH; [lra|]. intros Hin. apply H. right. exact Hin.
Qed.

Lemma one_account_matches (accounts : list Account.t) (k : string) (x : Q) :
  NoDup (map Account.id accounts) ->
  In k (map Account.id accounts) ->
  Qsum (map (fun a => if (k =? Account.id a)%string then x else 0) accounts)
  == x.
Proof.
  induction accounts as [|a accounts IH]; cbn; intros Hnd Hin; [contradiction|].
  inversion Hnd as [|? ? Ha Hrest]; subst.
  destruct (k =? Account.id a)%string eqn:E.
  - apply String.eqb_eq in E. subst k.
    rewrite (no_account_matches accounts (Account.id a) x Ha). lra.
  - destruct Hin as [Hin|Hin].
    + apply String.eqb_neq in E. congruence.
    + rewrite (IH Hrest Hin). lra.
Qed.

Lemma sumOn_cons (type : TransactionType) (a : Account.t) (t : Transaction.t)
  (T : list Transaction.t) :
  sumOn type a (t :: T)
  == (if (Transaction.accountId t =? Account.id a)%string
      then if TransactionPage.sameType (Transaction.type t) type
           then Transaction.amount t else 0
      else 0)
     + sumOn type a T.
Proof.
  unfold sumOn, onAccount. cbn.
  destruct (Transaction.accountId t =? Account.id a)%string; cbn;
    [|lra].
  destruct type, (Transaction.type t); cbn; lra.
Qed.

Lemma sumOn_over_accounts (type : TransactionType) (accounts : list Account.t)
  (T : list Transaction.t) :
  NoDup (map Account.id accounts) ->
  Forall (fun t => In (Transaction.accountId t) (map Account.id accounts)) T ->
  Qsum (map (fun a => sumOn type a T) accounts)
  == Qsum (map Transaction.amount
             (filter (fun t => TransactionPage.sameType (Transaction.type t)
                                 type) T)).
Proof.
  intros Hnd HT. induction T as [|t T IH].
  - cbn. unfold sumOn. cbn. apply Qsum_zero.
  - inversion HT as [|? ? Ht HT']; subst.
    rewrite (Qsum_map_ext _ _ accounts (fun a => sumOn_cons type a t T)).
    rewrite Qsum_map_add, (IH HT'). cbn [filter].
    destruct (TransactionPage.sameType (Transaction.type t) type); cbn.
    + rewrite (one_account_matches accounts _ _ Hnd Ht). lra.
    + rewrite (Qsum_map_ext _ (fun _ => 0) accounts).
      * rewrite Qsum_zero. lra.
      * intros a. destruct (Transaction.accountId t =? Account.id a)%string;
          lra.
Qed.

(** X21: when the accounts have distinct ids, none of them [__proto__],
    and the initial balances and the amounts are whole numbers whose
    absolute values add up to less than [2^53] (no addition rounds, the
    sums of the engine are the exact ones), the total liquidity is the sum
    of the derived balances of the accounts; when moreover every
    transaction is on one of the accounts, it is the sum of the initial
    balances plus the income less the expense of the summary. *)
Theorem totalLiquidity_is_initial_plus_net
  (accounts : list Account.t) (T : list Transaction.t) :
  NoDup (map Account.id accounts) ->
  ~ In "__proto__" (map Account.id accounts) ->
  Binary64.exact
    (map Account.initialBalance accounts ++ map Transaction.amount T) = true ->
  Forall (fun t => In (Transaction.accountId t) (map Account.id accounts)) T ->
  AccountRegistry.totalLiquidity accounts T
  == Qsum (map (fun a => AccountRegistry.accountBalance a T) accounts)
  /\ AccountRegistry.totalLiquidity accounts T
     == Qsum (map Account.initialBalance accounts)
        + Dashboard.income (Dashboard.summary T)
        - Dashboard.expense (Dashboard.summary T).
Proof.
  intros Hnd Hp _ HT.
  assert (H1 : AccountRegistry.totalLiquidity accounts T
               == Qsum (map (fun a => AccountRegistry.accountBalance a T)
                          accounts)).
  { unfold AccountRegistry.totalLiquidity.
    rewrite (fold_left_Qsum (fun b => b)), map_id. unfold JS.values.
    rewrite (Qsum_Permutation _ _
               (Permutation_map snd
                  (entries_Permutation
                     (AccountRegistry.accountBalances accounts T)))).
    rewrite (accountBalances_distinct accounts T Hnd Hp), map_map. cbn. lra. }
  split; [exact H1|]. rewrite H1.
  rewrite (Qsum_map_ext _
             (fun a => Account.initialBalance a
                       + (sumOn INCOME a T + - sumOn EXPENSE a T))
             accounts).
  2:{ intros a. unfold AccountRegistry.accountBalance.
      rewrite running_balance. lra. }
  rewrite Qsum_map_add, Qsum_map_add.
  destruct (summary_sums T) as [Hi He]. rewrite Hi, He.
  rewrite <- (sumOn_over_accounts INCOME accounts T Hnd HT).
  rewrite <- (sumOn_over_accounts EXPENSE accounts T Hnd HT).
  assert (Hneg : Qsum (map (fun a => - sumOn EXPENSE a T) accounts)
                 == - Qsum (map (fun a => sumOn EXPENSE a T) accounts)).
  { clear. induction accounts as [|a accounts IH]; cbn; lra. }
  rewrite Hneg. lra.
Qed.

Lemma totalLiquidity_is_initial_plus_net_witness :
  NoDup (map Account.id [Sample.checking; Sample.savings])
  /\ Binary64.exact
       (map Account.initialBalance [Sample.checking; Sample.savings]
        ++ map Transaction.amount Sample.ledger) = true
  /\ AccountRegistry.totalLiquidity [Sample.checking; Sample.savings]
       Sample.ledger
     == 1000 + 400 + (250 + 20) - 75.
Proof.
  assert (Hnd : NoDup (map Account.id [Sample.checking; Sample.savings])).
  { cbn. constructor; [|constructor; [|constructor]]; cbn;
      intuition discriminate. }
  assert (Hp : ~ In "__proto__"
                 (map Account.id [Sample.checking; Sample.savings])).
  { cbn. intuition discriminate. }
  assert (He : Binary64.exact
                 (map Account.initialBalance [Sample.checking; Sample.savings]
                  ++ map Transaction.amount Sample.ledger) = true)
    by reflexivity.
  assert (HT : Forall
                 (fun t => In (Transaction.accountId t)
                             (map Account.id [Sample.checking; Sample.savings]))
                 Sample.ledger).
  { unfold Sample.ledger.
    repeat (apply Forall_cons; [cbn; auto|]). apply Forall_nil. }
  split; [exact Hnd|]. split; [exact He|].
  destruct (totalLiquidity_is_initial_plus_net
              [Sample.checking; Sample.savings] Sample.ledger Hnd Hp He HT)
    as [_ H].
  rewrite H. vm_compute. reflexivity.
Defined.

(** ** Editing and logging through the forms *)

Lemma unique_by_id {A} (id : A -> string) (xs : list A) (x y : A) :
  NoDup (map id xs) -> In x xs -> In y xs -> id x = id y -> x = y.
Proof.
  induction xs as [|z xs IH]; cbn; intros Hnd Hx Hy E; [contradiction|].
  inversion Hnd as [|? ? Hz Hrest]; subst.
  destruct Hx as [->|Hx], Hy as [->|Hy].
  - reflexivity.
  - exfalso. apply Hz. rewrite E. apply in_map. exact Hy.
  - exfalso. apply Hz. rewrite <- E. apply in_map. exact Hx.
  - apply (IH Hrest Hx Hy E).
Qed.

Lemma replace_keeps {A B} (id : A -> string) (f : A -> B) (e e' : A)
  (xs : list A) :
  NoDup (map id xs) -> In e xs -> f e' = f e ->
  map f (map (fun x => if (id x =? id e)%string then e' else x) xs)
  = map f xs.
Proof.
  intros Hnd Hin Hf. rewrite map_map. apply map_ext_in. intros x Hx.
  destruct (id x =? id e)%string eqn:E; [|reflexivity].
  apply String.eqb_eq in E.
  rewrite (unique_by_id id xs x e Hnd Hx Hin E). exact Hf.
Qed.

Lemma fold_left_add_map {A} (f : A -> Q) (xs : list A) (start : Q) :
  fold_left (fun sum x => sum + f x) xs start
  = fold_left (fun sum c => sum + c) (map f xs) start.
Proof.
  revert start. induction xs as [|x xs IH]; intros start; cbn;
    [reflexivity|apply IH].
Qed.

(** X22: saving the edit form of a species, or of an inventory item, that
    is in the snapshot under an id of its own changes neither a count nor
    a quantity nor an id: the forms carry no count and no quantity, and
    the one of the record edited is kept. *)
Theorem editing_keeps_count_and_quantity
  (data prev : FarmData.t) (uuid : string)
  (species : AnimalSpecies.t) (newSpecies : NewAnimalSpecies.t)
  (item : InventoryItem.t) (newItem : NewInventoryItem.t) :
  In species (FarmData.animalSpecies data) ->
  NoDup (map AnimalSpecies.id (FarmData.animalSpecies data)) ->
  In item (FarmData.inventoryItems data) ->
  NoDup (map InventoryItem.id (FarmData.inventoryItems data)) ->
  let edited :=
    FarmData.animalSpecies
      (AnimalManager.handleAddSpecies data uuid (Some species) newSpecies prev)
  in
  let editedItems :=
    FarmData.inventoryItems
      (InventoryManager.handleAddItem data uuid (Some item) newItem prev) in
  map AnimalSpecies.count edited
  = map AnimalSpecies.count (FarmData.animalSpecies data)
  /\ map AnimalSpecies.id edited
     = map AnimalSpecies.id (FarmData.animalSpecies data)
  /\ AnimalManager.totalAnimalCount edited
     = AnimalManager.totalAnimalCount (FarmData.animalSpecies data)
  /\ map InventoryItem.quantity editedItems
     = map InventoryItem.quantity (FarmData.inventoryItems data)
  /\ map InventoryItem.id editedItems
     = map InventoryItem.id (FarmData.inventoryItems data).
Proof.
  intros Hs Hns Hi Hni. cbv zeta. cbn.
  assert (Hc :
    map AnimalSpecies.count
      (map (fun x =>
              if (AnimalSpecies.id x =? AnimalSpecies.id species)%string
              then AnimalManager.merge species newSpecies else x)
           (FarmData.animalSpecies data))
    = map AnimalSpecies.count (FarmData.animalSpecies data)).
  { apply (replace_keeps AnimalSpecies.id AnimalSpecies.count species);
      [exact Hns|exact Hs|reflexivity]. }
  split; [exact Hc|]. split.
  - apply (replace_keeps AnimalSpecies.id AnimalSpecies.id species);
      [exact Hns|exact Hs|reflexivity].
  - split.
    + unfold AnimalManager.totalAnimalCount.
      rewrite !(fold_left_add_map AnimalSpecies.count).
      cbn in Hc. rewrite Hc. reflexivity.
    + split.
      * apply (replace_keeps InventoryItem.id InventoryItem.quantity item);
          [exact Hni|exact Hi|reflexivity].
      * apply (replace_keeps InventoryItem.id InventoryItem.id item);
          [exact Hni|exact Hi|reflexivity].
Qed.

Lemma editing_keeps_count_and_quantity_witness :
  In Sample.cow (FarmData.animalSpecies Sample.books)
  /\ In Sample.feed (FarmData.inventoryItems Sample.books)
  /\ map AnimalSpecies.count
       (FarmData.animalSpecies
          (AnimalManager.handleAddSpecies Sample.books "x" (Some Sample.cow)
             (NewAnimalSpecies.mk "Cattle" "K" "Hereford" 950) Sample.books))
     = [10].
Proof.
  assert (Hs : In Sample.cow (FarmData.animalSpecies Sample.books))
    by (left; reflexivity).
  assert (Hi : In Sample.feed (FarmData.inventoryItems Sample.books))
    by (left; reflexivity).
  assert (Hns : NoDup (map AnimalSpecies.id (FarmData.animalSpecies Sample.books))).
  { cbn. repeat constructor. intros []. }
  assert (Hni : NoDup (map InventoryItem.id
                         (FarmData.inventoryItems Sample.books))).
  { cbn. repeat constructor. intros []. }
  split; [exact Hs|]. split; [exact Hi|].
  destruct (editing_keeps_count_and_quantity Sample.books Sample.books "x"
              Sample.cow (NewAnimalSpecies.mk "Cattle" "K" "Hereford" 950)
              Sample.feed
              (NewInventoryItem.mk "Feed" "F-2" "" 3 SHORT_TERM)
              Hs Hns Hi Hni) as [H _].
  rewrite H. reflexivity.
Defined.

(** X23: the log form records nothing when no species has the id chosen;
    otherwise it appends one log, stamped with the estimated value of the
    first species of that id, and every species of that id gets the
    clamped count. *)
Theorem handleRecordLog_needs_a_species
  (data : FarmData.t) (uuid : string) (newLog : AnimalManager.LogForm) :
  match
    find (fun s => (AnimalSpecies.id s =? AnimalManager.speciesId newLog)%string)
         (FarmData.animalSpecies data)
  with
  | None => AnimalManager.handleRecordLog data uuid newLog = None
  | Some item =>
      exists update,
        AnimalManager.handleRecordLog data uuid newLog = Some update
        /\ In item (FarmData.animalSpecies data)
        /\ FarmData.animalLogs (update data)
           = FarmData.animalLogs data
             ++ [ {| AnimalLog.id := uuid;
                     AnimalLog.speciesId := AnimalManager.speciesId newLog;
                     AnimalLog.date := AnimalManager.date newLog;
                     AnimalLog.type := AnimalManager.type newLog;
                     AnimalLog.quantity := AnimalManager.quantity newLog;
                     AnimalLog.note := AnimalManager.note newLog;
                     AnimalLog.valueAtTime :=
                       AnimalSpecies.estimatedValue item |} ]
        /\ FarmData.animalSpecies (update data)
           = map (fun s =>
                    if (AnimalSpecies.id s
                        =? AnimalManager.speciesId newLog)%string
                    then AnimalSpecies.withCount s
                           (populationAfter (AnimalManager.type newLog)
                              (AnimalSpecies.count s)
                              (AnimalManager.quantity newLog))
                    else s)
                 (FarmData.animalSpecies data)
  end
  /\ (AnimalManager.handleRecordLog data uuid newLog = None
      <-> ~ In (AnimalManager.speciesId newLog)
              (map AnimalSpecies.id (FarmData.animalSpecies data))).
Proof.
  unfold AnimalManager.handleRecordLog.
  destruct (find _ (FarmData.animalSpecies data)) as [item|] eqn:F.
  - split.
    + eexists. split; [reflexivity|]. split.
      * apply (find_some _ _ F).
      * split; [reflexivity|]. rewrite handleRecordAnimalLog_species.
        reflexivity.
    + split; [discriminate|]. intros H. exfalso. apply H.
      destruct (find_some _ _ F) as [Hin E].
      apply String.eqb_eq in E. rewrite <- E. apply in_map. exact Hin.
  - split; [reflexivity|]. split; [|reflexivity]. intros _ Hin.
    apply in_map_iff in Hin. destruct Hin as (s & E & Hin).
    pose proof (find_none _ _ F s Hin) as N. cbn in N.
    apply String.eqb_neq in N. contradiction.
Qed.

(** The movement form records nothing when no item has the id chosen;
    otherwise it appends one movement, stamped with the unit cost of the
    first item of that id. *)
Lemma handleRecordMovement_needs_an_item
  (data : FarmData.t) (uuid : string)
  (newMovement : InventoryManager.MovementForm) :
  match
    find (fun i => (InventoryItem.id i
                    =? InventoryManager.itemId newMovement)%string)
         (FarmData.inventoryItems data)
  with
  | None => InventoryManager.handleRecordMovement data uuid newMovement = None
  | Some item =>
      exists update,
        InventoryManager.handleRecordMovement data uuid newMovement
        = Some update
        /\ In item (FarmData.inventoryItems data)
        /\ FarmData.inventoryMovements (update data)
           = FarmData.inventoryMovements data
             ++ [ {| InventoryMovement.id := uuid;
                     InventoryMovement.itemId :=
                       InventoryManager.itemId newMovement;
                     InventoryMovement.type := InventoryManager.type newMovement;
                     InventoryMovement.quantity :=
                       InventoryManager.quantity newMovement;
                     InventoryMovement.note := InventoryManager.note newMovement;
                     InventoryMovement.date := InventoryManager.date newMovement;
                     InventoryMovement.unitCostAtTime :=
                       InventoryItem.unitCost item |} ]
  end
  /\ (InventoryManager.handleRecordMovement data uuid newMovement = None
      <-> ~ In (InventoryManager.itemId newMovement)
              (map InventoryItem.id (FarmData.inventoryItems data))).
Proof.
  unfold InventoryManager.handleRecordMovement.
  destruct (find _ (FarmData.inventoryItems data)) as [item|] eqn:F.
  - split.
    + eexists. split; [reflexivity|]. split; [apply (find_some _ _ F)|].
      repeat split.
    + split; [discriminate|]. intros H. exfalso. apply H.
      destruct (find_some _ _ F) as [Hin E].
      apply String.eqb_eq in E. rewrite <- E. apply in_map. exact Hin.
  - split; [reflexivity|]. split; [|reflexivity]. intros _ Hin.
    apply in_map_iff in Hin. destruct Hin as (s & E & Hin).
    pose proof (find_none _ _ F s Hin) as N. cbn in N.
    apply String.eqb_neq in N. contradiction.
Qed.

(** ** Expenses by category *)

Lemma orZero_eq (v : option Q) :
  Dashboard.orZero v == match v with Some x => x | None => 0 end.
Proof.
  destruct v as [x|]; cbn; [|reflexivity].
  destruct (Qeq_bool x 0) eqn:E; [|reflexivity].
  apply Qeq_bool_eq in E. rewrite E. reflexivity.
Qed.

Lemma Qsum_assign (data : AccountRegistry.Balances) (k : string) (v : Q) :
  k <> "__proto__" ->
  Qsum (map snd (AccountRegistry.assign data k v))
  == Qsum (map snd data)
     - match AccountRegistry.lookup data k with Some x => x | None => 0 end
     + v.
Proof.
  intros Hk. unfold AccountRegistry.assign.
  apply String.eqb_neq in Hk. rewrite Hk. clear Hk.
  induction data as [|[k0 v0] rest IH]; cbn; [lra|].
  destruct (k0 =? k)%string; cbn; [lra|]. rewrite IH. lra.
Qed.

(** Under a category list of plain names no transaction is grouped under
    [__proto__]. *)
Lemma categoryName_plain (C : list Category.t) (t : Transaction.t) :
  Forall (fun c => JS.plainKey (Category.name c) = true) C ->
  Dashboard.categoryName C t <> "__proto__".
Proof.
  intros HC. unfold Dashboard.categoryName.
  destruct (find _ C) as [c|] eqn:F; [|discriminate].
  destruct (truthy_string (Category.name c)); [|discriminate].
  apply find_some in F. destruct F as [Hc _].
  rewrite Forall_forall in HC. specialize (HC c Hc).
  intros E. rewrite E in HC. discriminate HC.
Qed.

Lemma expenseData_total (T : list Transaction.t) (C : list Category.t) :
  Forall (fun c => JS.plainKey (Category.name c) = true) C ->
  Qsum (map snd (Dashboard.expenseData T C))
  == Dashboard.expense (Dashboard.summary T).
Proof.
  intros HC.
  rewrite (proj2 (summary_sums T)). unfold Dashboard.expenseData.
  match goal with |- context [fold_left ?f _ _] => set (step := f) end.
  assert (G : forall data,
    Qsum (map snd
            (fold_left step
               (filter (fun t => match Transaction.type t with
                                 | EXPENSE => true
                                 | INCOME => false
                                 end) T)
               data))
    == Qsum (map snd data)
       + Qsum (map Transaction.amount
                 (filter (fun t => TransactionPage.sameType
                                     (Transaction.type t) EXPENSE) T))).
  { induction T as [|t T IH]; intros data; cbn; [lra|].
    destruct (Transaction.type t); cbn; [apply IH|].
    rewrite IH. subst step. cbn.
    rewrite (Qsum_assign _ _ _ (categoryName_plain C t HC)), orZero_eq.
    lra. }
  rewrite G. cbn. lra.
Qed.

Lemma map_fst_indexed {A} (xs : list A) (from : nat) :
  map fst (Dashboard.indexed xs from) = xs.
Proof.
  revert from. induction xs as [|x xs IH]; intros from; cbn;
    [reflexivity|]. rewrite IH. reflexivity.
Qed.

(** X25: for category names that [Object.prototype] does not define and
    amounts that are whole numbers whose absolute values add up to less
    than [2^53] (no addition rounds, the sums of the engine are the exact
    ones), the slices of the expense chart add up to the expense of the
    summary, a transaction of an unknown category or of a category without
    a name counting under "Other", and there are as many slices as
    groups. *)
Theorem categoryData_adds_up_to_expense
  (COLORS : list string) (T : list Transaction.t) (C : list Category.t) :
  Forall (fun c => JS.plainKey (Category.name c) = true) C ->
  Binary64.exact (map Transaction.amount T) = true ->
  Qsum (map Dashboard.value (Dashboard.categoryData COLORS T C))
  == Dashboard.expense (Dashboard.summary T)
  /\ Permutation (map Dashboard.name (Dashboard.categoryData COLORS T C))
       (map fst (Dashboard.expenseData T C))
  /\ forall t,
      Dashboard.categoryName C t
      = match
          find (fun c => (Category.id c =? Transaction.categoryId t)%string) C
        with
        | Some c => if (Category.name c =? "")%string then "Other"
                    else Category.name c
        | None => "Other"
        end.
Proof.
  intros HC _. unfold Dashboard.categoryData. split; [|split].
  - rewrite map_map. cbn [Dashboard.value].
    rewrite <- (map_map fst snd), map_fst_indexed.
    rewrite (Qsum_Permutation _ _
               (Permutation_map snd
                  (entries_Permutation (Dashboard.expenseData T C)))).
    apply expenseData_total. exact HC.
  - rewrite map_map. cbn [Dashboard.name].
    rewrite <- (map_map fst fst), map_fst_indexed.
    apply Permutation_map, entries_Permutation.
  - intros t. unfold Dashboard.categoryName, truthy_string.
    destruct (find _ C) as [c|]; [|reflexivity].
    destruct (Category.name c =? "")%string; reflexivity.
Qed.

Lemma categoryData_adds_up_to_expense_witness :
  Forall (fun c => JS.plainKey (Category.name c) = true)
    (FarmData.categories Sample.books)
  /\ Binary64.exact (map Transaction.amount Sample.outgoings) = true
  /\ map (fun slice => (Dashboard.name slice, Dashboard.value slice))
       (Dashboard.categoryData ["#111"; "#222"] Sample.outgoings
          (FarmData.categories Sample.books))
     = [("Feed", 0 + 75 + 12); ("Other", 0 + 30)]
  /\ Qsum (map Dashboard.value
             (Dashboard.categoryData ["#111"; "#222"] Sample.outgoings
                (FarmData.categories Sample.books)))
     == 117.
Proof.
  assert (H : Forall (fun c => JS.plainKey (Category.name c) = true)
                (FarmData.categories Sample.books))
    by (repeat constructor).
  assert (He : Binary64.exact (map Transaction.amount Sample.outgoings) = true)
    by reflexivity.
  split; [exact H|]. split; [exact He|]. split; [reflexivity|].
  destruct (categoryData_adds_up_to_expense ["#111"; "#222"] Sample.outgoings
              (FarmData.categories Sample.books) H He) as [E _].
  rewrite E. vm_compute. reflexivity.
Defined.

Lemma insert_sorted (x : string * Q) (xs : list (string * Q)) :
  StronglySorted larger xs ->
  StronglySorted larger
    (JS.insert (fun x y => Qle_bool (snd y) (snd x)) x xs).
Proof.
  induction xs as [|y xs IH]; cbn; intros Hs.
  - constructor; constructor.
  - inversion Hs as [|? ? Hxs Hy]; subst.
    destruct (Qle_bool (snd y) (snd x)) eqn:E.
    + apply Qle_bool_iff in E. constructor; [exact Hs|].
      constructor; [exact E|].
      apply Forall_forall. intros z Hz.
      rewrite Forall_forall in Hy. specialize (Hy z Hz).
      unfold larger in *. lra.
    + assert (Hlt : snd x < snd y).
      { apply Qnot_le_lt. intros H. apply Qle_bool_iff in H. congruence. }
      constructor; [apply (IH Hxs)|].
      apply Forall_forall. intros z Hz.
      apply (Permutation_in _ (insert_Permutation _ x xs)) in Hz.
      destruct Hz as [<-|Hz].
      * unfold larger. lra.
      * rewrite Forall_forall in Hy. apply (Hy z Hz).
Qed.

Lemma sort_sorted (xs : list (string * Q)) :
  StronglySorted larger (JS.sort (fun x y => Qle_bool (snd y) (snd x)) xs).
Proof.
  induction xs as [|x xs IH]; cbn; [constructor|].
  apply insert_sorted. exact IH.
Qed.

Lemma sorted_app (xs ys : list (string * Q)) :
  StronglySorted larger (xs ++ ys) ->
  StronglySorted larger xs
  /\ forall x y, In x xs -> In y ys -> larger x y.
Proof.
  induction xs as [|z xs IH]; cbn; intros Hs.
  - split; [constructor|]. intros x y [].
  - inversion Hs as [|? ? Hrest Hz]; subst.
    destruct (IH Hrest) as [Hxs Hcross]. split.
    + constructor; [exact Hxs|].
      apply Forall_forall. intros w Hw. rewrite Forall_forall in Hz.
      apply Hz. apply in_or_app. left. exact Hw.
    + intros x y [<-|Hx] Hy.
      * rewrite Forall_forall in Hz. apply Hz. apply in_or_app. right. exact Hy.
      * apply (Hcross x y Hx Hy).
Qed.

(** X26: the top expenses are at most three groups, in order of value,
    largest first; they are the first three of all the groups so sorted,
    none of which is lost or repeated by the sorting, so no group left
    out has a larger total than a group kept. *)
Theorem topExpenses_are_the_largest
  (T : list Transaction.t) (C : list Category.t) :
  Forall (fun c => JS.plainKey (Category.name c) = true) C ->
  exists rest,
    Permutation (Dashboard.topExpenses T C ++ rest) (Dashboard.expenseData T C)
    /\ (List.length (Dashboard.topExpenses T C) <= 3)%nat
    /\ (List.length (Dashboard.topExpenses T C)
        = Nat.min 3 (List.length (Dashboard.expenseData T C)))
    /\ StronglySorted larger (Dashboard.topExpenses T C)
    /\ forall kept dropped,
        In kept (Dashboard.topExpenses T C) -> In dropped rest ->
        snd dropped <= snd kept.
Proof.
  intros _. unfold Dashboard.topExpenses.
  set (all := JS.sort (fun x y => Qle_bool (snd y) (snd x))
                (JS.entries (Dashboard.expenseData T C))).
  assert (Hperm : Permutation all (Dashboard.expenseData T C)).
  { unfold all. rewrite sort_Permutation. apply entries_Permutation. }
  assert (Hsorted : StronglySorted larger (firstn 3 all ++ skipn 3 all)).
  { rewrite firstn_skipn. apply sort_sorted. }
  exists (skipn 3 all).
  split; [rewrite firstn_skipn; exact Hperm|].
  split; [apply firstn_le_length|].
  split; [rewrite length_firstn, (Permutation_length Hperm); reflexivity|].
  destruct (sorted_app _ _ Hsorted) as [Hs Hcross].
  split; [exact Hs|]. intros kept dropped Hk Hd. apply (Hcross kept dropped Hk Hd).
Qed.

Lemma topExpenses_are_the_largest_witness :
  Forall (fun c => JS.plainKey (Category.name c) = true)
    (FarmData.categories Sample.books)
  /\ (List.length
        (Dashboard.topExpenses Sample.ledger (FarmData.categories Sample.books))
      <= 3)%nat.
Proof.
  assert (H : Forall (fun c => JS.plainKey (Category.name c) = true)
                (FarmData.categories Sample.books))
    by (repeat constructor).
  split; [exact H|].
  destruct (topExpenses_are_the_largest Sample.ledger
              (FarmData.categories Sample.books) H) as (rest & _ & Hl & _).
  exact Hl.
Defined.

(** ** Mortality *)

Lemma Qsum_filter_le {A} (f : A -> Q) (p : A -> bool) (xs : list A) :
  Forall (fun x => 0 <= f x) xs ->
  0 <= Qsum (map f (filter p xs))
  /\ Qsum (map f (filter p xs)) <= Qsum (map f xs).
Proof.
  induction 1 as [|x xs Hx _ IH]; cbn; [split; lra|].
  destruct (p x); cbn; lra.
Qed.

(** X27: when no log has a negative quantity, the deaths of sheep over
    the last year are between zero and all the deaths over the last year;
    both count DEATH logs only, dated no earlier than a year ago, a log
    with an unreadable date counting in neither. *)
Theorem sheepDeaths_within_total
  (toLowerCase : string -> string) (Date_parse : string -> option Z)
  (oneYearAgo : Z) (logs : list AnimalLog.t) (species : list AnimalSpecies.t) :
  Forall (fun log => 0 <= AnimalLog.quantity log) logs ->
  let stats :=
    AnimalManager.mortalityStats toLowerCase Date_parse oneYearAgo logs species
  in
  let recent log :=
    match AnimalLog.type log, Date_parse (AnimalLog.date log) with
    | DEATH, Some t => (oneYearAgo <=? t)%Z
    | _, _ => false
    end in
  0 <= AnimalManager.sheepDeaths stats
  /\ AnimalManager.sheepDeaths stats <= AnimalManager.totalRecentDeaths stats
  /\ AnimalManager.totalRecentDeaths stats
     == Qsum (map AnimalLog.quantity (filter recent logs)).
Proof.
  intros Hq. cbv zeta. unfold AnimalManager.mortalityStats. cbn.
  rewrite !fold_left_Qsum.
  match goal with
  | |- context [filter ?p logs] => set (recentDeath := p)
  end.
  assert (Hrecent : Forall (fun log => 0 <= AnimalLog.quantity log)
                      (filter recentDeath logs)).
  { apply Forall_forall. intros log Hin. apply filter_In in Hin.
    rewrite Forall_forall in Hq. apply Hq. apply Hin. }
  match goal with
  | |- context [filter ?p (filter recentDeath logs)] =>
      destruct (Qsum_filter_le AnimalLog.quantity p _ Hrecent) as [H0 H1]
  end.
  split; [lra|]. split; [lra|].
  assert (E : filter recentDeath logs
              = filter (fun log =>
                          match AnimalLog.type log,
                                Date_parse (AnimalLog.date log) with
                          | DEATH, Some t => (oneYearAgo <=? t)%Z
                          | _, _ => false
                          end) logs).
  { apply filter_ext. intros log. subst recentDeath. cbn.
    destruct (AnimalLog.type log), (Date_parse (AnimalLog.date log));
      reflexivity. }
  rewrite E. lra.
Qed.

(** ** Ledger pages and list filters *)





Lemma sheepDeaths_within_total_witness :
  Forall (fun log => 0 <= AnimalLog.quantity log) [Sample.lostCow]
  /\ AnimalManager.totalRecentDeaths
       (AnimalManager.mortalityStats (fun s => s) Sample.Date_parse 0
          [Sample.lostCow] [Sample.cow])
     == 2.
Proof.
  assert (H : Forall (fun log => 0 <= AnimalLog.quantity log) [Sample.lostCow]).
  { repeat constructor. cbn. discriminate. }
  split; [exact H|].
  destruct (sheepDeaths_within_total (fun s => s) Sample.Date_parse 0%Z
              [Sample.lostCow] [Sample.cow] H) as (_ & _ & E).
  rewrite E. vm_compute. reflexivity.
Defined.

(** ** Editing a liability *)

(** X30: opening a liability in the edit form and saving it unchanged
    keeps its id, name, category, amounts, rate and description; a
    missing due date becomes empty, a missing instalment zero and a
    missing frequency monthly, which changes neither the amount due nor
    whether the liability is due within a threshold nor its date status. *)
Theorem editing_unchanged_keeps_what_is_due
  (data prev : FarmData.t) (uuid : string) (l : Liability.t) :
  let saved :=
    NewLiability.withId (LiabilityManager.handleEditClick l) (Liability.id l)
  in
  FarmData.liabilities
    (LiabilityManager.handleSubmit data uuid (Some l)
       (LiabilityManager.handleEditClick l) prev)
  = map (fun x => if (Liability.id x =? Liability.id l)%string
                  then saved else x)
        (FarmData.liabilities data)
  /\ (Liability.id saved, Liability.name saved, Liability.category saved,
      Liability.originalAmount saved, Liability.currentBalance saved,
      Liability.interestRate saved, Liability.description saved)
     = (Liability.id l, Liability.name l, Liability.category l,
        Liability.originalAmount l, Liability.currentBalance l,
        Liability.interestRate l, Liability.description l)
  /\ Dashboard.amountDue saved = Dashboard.amountDue l
  /\ (forall Date_parse threshold,
        dueWithin Date_parse threshold saved
        = dueWithin Date_parse threshold l)
  /\ (forall LocalTZA monthStart Date_parse clock,
        LiabilityManager.getDateStatus LocalTZA monthStart Date_parse clock
          (Liability.dueDate saved) (Liability.currentBalance saved)
        = LiabilityManager.getDateStatus LocalTZA monthStart Date_parse clock
            (Liability.dueDate l) (Liability.currentBalance l)).
Proof.
  cbv zeta. split; [reflexivity|]. split; [reflexivity|]. split; [|split].
  - unfold Dashboard.amountDue. cbn.
    destruct (Liability.installmentAmount l) as [i|]; [|reflexivity].
    destruct (Qeq_bool i 0) eqn:E; [|reflexivity].
    apply Qeq_bool_eq in E.
    assert (G : gt i 0 = false).
    { unfold gt. apply negb_false_iff, Qle_bool_iff. lra. }
    rewrite G. reflexivity.
  - intros Date_parse threshold. unfold dueWithin. cbn.
    destruct (Liability.dueDate l) as [d|]; [|reflexivity].
    destruct (truthy_string d) eqn:E; [rewrite E; reflexivity|reflexivity].
  - intros LocalTZA monthStart Date_parse clock.
    unfold LiabilityManager.getDateStatus. cbn.
    destruct (Liability.dueDate l) as [d|]; [|reflexivity].
    destruct (truthy_string d) eqn:E; [rewrite E; reflexivity|reflexivity].
Qed.

(** ** Deleting an account *)

Lemma totalLiquidity_distinct (accounts : list Account.t)
  (T : list Transaction.t) :
  NoDup (map Account.id accounts) ->
  ~ In "__proto__" (map Account.id accounts) ->
  AccountRegistry.totalLiquidity accounts T
  == Qsum (map (fun a => AccountRegistry.accountBalance a T) accounts).
Proof.
  intros Hnd Hp. unfold AccountRegistry.totalLiquidity.
  rewrite (fold_left_Qsum (fun b => b)), map_id. unfold JS.values.
  rewrite (Qsum_Permutation _ _
             (Permutation_map snd
                (entries_Permutation
                   (AccountRegistry.accountBalances accounts T)))).
  rewrite (accountBalances_distinct accounts T Hnd Hp), map_map. cbn. lra.
Qed.

Lemma NoDup_ids_filter {A} (id : A -> string) (p : A -> bool) (xs : list A) :
  NoDup (map id xs) -> NoDup (map id (filter p xs)).
Proof.
  induction xs as [|x xs IH]; cbn; intros Hnd; [constructor|].
  inversion Hnd as [|? ? Hx Hrest]; subst.
  destruct (p x); cbn; [|apply (IH Hrest)].
  constructor; [|apply (IH Hrest)].
  intros Hin. apply Hx. apply in_map_iff in Hin.
  destruct Hin as (y & E & Hy). apply filter_In in Hy.
  rewrite <- E. apply in_map. apply Hy.
Qed.

Lemma Qsum_without (f : Account.t -> Q) (a : Account.t)
  (accounts : list Account.t) :
  NoDup (map Account.id accounts) -> In a accounts ->
  Qsum (map f (filter (fun x => negb (Account.id x =? Account.id a)%string)
                 accounts))
  == Qsum (map f accounts) - f a.
Proof.
  induction accounts as [|x accounts IH]; cbn; intros Hnd Hin; [contradiction|].
  inversion Hnd as [|? ? Hx Hrest]; subst.
  destruct Hin as [->|Hin].
  - rewrite String.eqb_refl. cbn.
    rewrite (filter_other_ids Account.id (Account.id a) accounts Hx). lra.
  - destruct (Account.id x =? Account.id a)%string eqn:E; cbn.
    + apply String.eqb_eq in E. exfalso. apply Hx. rewrite E.
      apply in_map. exact Hin.
    + rewrite (IH Hrest Hin). lra.
Qed.

(** X24: deleting an account, in a snapshot whose accounts have distinct
    ids, none of them [__proto__], and whose initial balances and amounts
    are whole numbers with absolute values adding up to less than [2^53]
    (no addition rounds, the sums of the engine are the exact ones), takes
    its derived balance out of the total liquidity and its entry out of
    the table of balances, and touches no transaction: the transactions on
    the account stay in the ledger, and in the summary of the dashboard. *)
Theorem deleting_an_account_keeps_its_transactions
  (data : FarmData.t) (a : Account.t) :
  In a (FarmData.accounts data) ->
  NoDup (map Account.id (FarmData.accounts data)) ->
  ~ In "__proto__" (map Account.id (FarmData.accounts data)) ->
  Binary64.exact
    (map Account.initialBalance (FarmData.accounts data)
     ++ map Transaction.amount (FarmData.transactions data)) = true ->
  let next := App.onDeleteAccount data (Account.id a) data in
  let T := FarmData.transactions data in
  FarmData.transactions next = T
  /\ AccountRegistry.lookup
       (AccountRegistry.accountBalances (FarmData.accounts next) T)
       (Account.id a)
     = None
  /\ AccountRegistry.totalLiquidity (FarmData.accounts next) T
     == AccountRegistry.totalLiquidity (FarmData.accounts data) T
        - AccountRegistry.accountBalance a T
  /\ Dashboard.summary (FarmData.transactions next) = Dashboard.summary T.
Proof.
  intros Hin Hnd Hp _. cbv zeta.
  assert (Hacc :
    FarmData.accounts (App.onDeleteAccount data (Account.id a) data)
    = filter (fun x => negb (Account.id x =? Account.id a)%string)
             (FarmData.accounts data)) by reflexivity.
  rewrite Hacc.
  assert (Hp' : ~ In "__proto__"
                  (map Account.id
                     (filter (fun x => negb (Account.id x =? Account.id a)%string)
                        (FarmData.accounts data)))).
  { intros H. apply Hp. apply in_map_iff in H. destruct H as (x & E & Hx).
    apply filter_In in Hx. rewrite <- E. apply in_map. apply Hx. }
  split; [reflexivity|]. split; [|split; [|reflexivity]].
  - unfold AccountRegistry.accountBalances.
    rewrite (table_lookup
               (fun acc => AccountRegistry.accountBalance acc
                             (FarmData.transactions data))).
    destruct (Account.id a =? "__proto__")%string; [reflexivity|].
    destruct (find _ (rev _)) as [x|] eqn:F; [|reflexivity].
    exfalso. destruct (find_some _ _ F) as [Hx E].
    apply in_rev, filter_In in Hx. destruct Hx as [_ Hx].
    rewrite E in Hx. discriminate Hx.
  - rewrite (totalLiquidity_distinct _ _
               (NoDup_ids_filter Account.id _ _ Hnd) Hp').
    rewrite (totalLiquidity_distinct _ _ Hnd Hp).
    apply (Qsum_without
             (fun x => AccountRegistry.accountBalance x
                         (FarmData.transactions data))
             a _ Hnd Hin).
Qed.

Lemma deleting_an_account_keeps_its_transactions_witness :
  In Sample.checking (FarmData.accounts Sample.books)
  /\ NoDup (map Account.id (FarmData.accounts Sample.books))
  /\ Binary64.exact
       (map Account.initialBalance (FarmData.accounts Sample.books)
        ++ map Transaction.amount (FarmData.transactions Sample.books))
     = true
  /\ FarmData.transactions (App.onDeleteAccount Sample.books "a1" Sample.books)
     = Sample.ledger.
Proof.
  assert (Hin : In Sample.checking (FarmData.accounts Sample.books))
    by (left; reflexivity).
  assert (Hnd : NoDup (map Account.id (FarmData.accounts Sample.books))).
  { cbn. repeat constructor. intros []. }
  assert (Hp : ~ In "__proto__"
                 (map Account.id (FarmData.accounts Sample.books))).
  { cbn. intuition discriminate. }
  assert (He : Binary64.exact
                 (map Account.initialBalance (FarmData.accounts Sample.books)
                  ++ map Transaction.amount
                       (FarmData.transactions Sample.books))
               = true) by reflexivity.
  split; [exact Hin|]. split; [exact Hnd|]. split; [exact He|].
  apply (deleting_an_account_keeps_its_transactions Sample.books
           Sample.checking Hin Hnd Hp He).
Defined.
